(** * Gym management application: membership lifecycle engine

    A shallow embedding of the Python sources [utils.py], [models.py],
    [db.py], [auth.py] and of the data-access parts of [app.py], with the
    properties of the specification stated and settled on it.

    Conventions.
    - Python [int] is [Z]; [//] and [%] with a positive divisor are
      [Z.div] and [Z.modulo] (both round towards minus infinity).
    - Python [str] is [string], read as ASCII text.
    - A computation that can raise returns [result]; [Raise e] is the
      exception escaping the call.
    - A table with an [INTEGER PRIMARY KEY] is a [gmap Z row]. *)

From Stdlib Require Import ZArith Lia Bool List Ascii String.
From stdpp Require Import gmap strings list fin_maps sorting.

Local Open Scope Z_scope.

(** ** Exceptions *)

Module Py.

Inductive exn : Type :=
| ValueError
| TypeError
| OverflowError
| IntegrityError.

Inductive result (A : Type) : Type :=
| Ok (a : A)
| Raise (e : exn).

Arguments Ok {A} a.
Arguments Raise {A} e.

#[global] Instance result_ret : MRet result := fun A a => Ok a.

#[global] Instance result_bind : MBind result := fun A B f m =>
  match m with
  | Ok a => f a
  | Raise e => Raise e
  end.

#[global] Instance result_fmap : FMap result := fun A B f m =>
  match m with
  | Ok a => Ok (f a)
  | Raise e => Raise e
  end.

(** [try: body except Exception: handler] *)
Definition try_except {A : Type} (body handler : result A) : result A :=
  match body with
  | Ok a => Ok a
  | Raise _ => handler
  end.

Definition is_ok {A : Type} (m : result A) : bool :=
  match m with
  | Ok _ => true
  | Raise _ => false
  end.

End Py.

Import Py.

(** ** The [datetime.date] type

    The standard library's proleptic Gregorian calendar, with the names
    of the reference implementation of [datetime]: dates run from
    0001-01-01 to 9999-12-31, the constructor reads its arguments as C
    [int]s and validates them, and adding a [timedelta] goes through the
    day ordinal. *)

Module Datetime.

Definition MINYEAR : Z := 1.
Definition MAXYEAR : Z := 9999.

Definition _DAYS_IN_MONTH : list Z :=
  [-1; 31; 28; 31; 30; 31; 30; 31; 31; 30; 31; 30; 31].

Definition _DAYS_BEFORE_MONTH : list Z :=
  [-1; 0; 31; 59; 90; 120; 151; 181; 212; 243; 273; 304; 334].

Definition table (t : list Z) (i : Z) : Z := nth (Z.to_nat i) t (-1).

Definition _is_leap (year : Z) : bool :=
  (year mod 4 =? 0) && (negb (year mod 100 =? 0) || (year mod 400 =? 0)).

Definition _days_before_year (year : Z) : Z :=
  let y := year - 1 in
  y * 365 + y / 4 - y / 100 + y / 400.

Definition _days_in_month (year month : Z) : Z :=
  if (month =? 2) && _is_leap year then 29 else table _DAYS_IN_MONTH month.

Definition _days_before_month (year month : Z) : Z :=
  table _DAYS_BEFORE_MONTH month
  + (if (2 <? month) && _is_leap year then 1 else 0).

Definition _ymd2ord (year month day : Z) : Z :=
  _days_before_year year + _days_before_month year month + day.

Definition _DI400Y : Z := Eval cbv in _days_before_year 401.
Definition _DI100Y : Z := Eval cbv in _days_before_year 101.
Definition _DI4Y : Z := Eval cbv in _days_before_year 5.

Record date : Type := Date { year : Z; month : Z; day : Z }.

Definition date_eqb (a b : date) : bool :=
  (year a =? year b) && (month a =? month b) && (day a =? day b).

(** [_ord2ymd]: ordinal to (year, month, day), 0001-01-01 being day 1. *)
Definition _ord2ymd (n : Z) : date :=
  let n := n - 1 in
  let n400 := n / _DI400Y in
  let n := n mod _DI400Y in
  let year := n400 * 400 + 1 in
  let n100 := n / _DI100Y in
  let n := n mod _DI100Y in
  let n4 := n / _DI4Y in
  let n := n mod _DI4Y in
  let n1 := n / 365 in
  let n := n mod 365 in
  let year := year + n100 * 100 + n4 * 4 + n1 in
  if (n1 =? 4) || (n100 =? 4) then Date (year - 1) 12 31
  else
    let leapyear := (n1 =? 3) && (negb (n4 =? 24) || (n100 =? 3)) in
    let month := Z.shiftr (n + 50) 5 in
    let preceding :=
      table _DAYS_BEFORE_MONTH month
      + (if (2 <? month) && leapyear then 1 else 0) in
    let '(month, preceding) :=
      if n <? preceding then
        (month - 1,
         preceding - (table _DAYS_IN_MONTH (month - 1)
                      + (if (month - 1 =? 2) && leapyear then 1 else 0)))
      else (month, preceding) in
    Date year month (n - preceding + 1).

(** A value of type [date] that the constructor accepts. *)
Definition valid_date (d : date) : Prop :=
  MINYEAR <= year d <= MAXYEAR /\ 1 <= month d <= 12
  /\ 1 <= day d <= _days_in_month (year d) (month d).

Definition valid_dateb (d : date) : bool :=
  (MINYEAR <=? year d) && (year d <=? MAXYEAR)
  && (1 <=? month d) && (month d <=? 12)
  && (1 <=? day d) && (day d <=? _days_in_month (year d) (month d)).

(** The C type [int], as which the constructor reads its arguments. *)
Definition INT_MIN : Z := -2147483648.
Definition INT_MAX : Z := 2147483647.

Definition fits_int (z : Z) : bool := (INT_MIN <=? z) && (z <=? INT_MAX).

(** [new_date]: the fields are checked, [ValueError] on one out of range,
    and the object is built. *)
Definition new_date (y m d : Z) : result date :=
  if valid_dateb (Date y m d) then Ok (Date y m d) else Raise ValueError.

(** [date(year, month, day)]: an argument that does not fit a C [int]
    raises [OverflowError] before any field is checked. *)
Definition mk_date (y m d : Z) : result date :=
  if fits_int y && fits_int m && fits_int d then new_date y m d
  else Raise OverflowError.

Definition toordinal (d : date) : Z := _ymd2ord (year d) (month d) (day d).

Definition _MAXORDINAL : Z := Eval cbv in _ymd2ord 9999 12 31.

(** [d + timedelta(days=k)]: [date.fromordinal] of the shifted ordinal,
    which is [_ord2ymd] of it. *)
Definition date_add_days (d : date) (k : Z) : result date :=
  let o := toordinal d + k in
  if (0 <? o) && (o <=? _MAXORDINAL) then Ok (_ord2ymd o)
  else Raise OverflowError.

(** [d - timedelta(days=k)] is [d + timedelta(days=-k)]. *)
Definition date_sub_days (d : date) (k : Z) : result date :=
  date_add_days d (- k).

(** Comparison of dates is the comparison of (year, month, day). *)
Definition date_cmp (a b : date) : comparison :=
  match year a ?= year b with
  | Eq => match month a ?= month b with
          | Eq => day a ?= day b
          | c => c
          end
  | c => c
  end.

(** [a <= b], [a >= b] *)
Definition date_leb (a b : date) : bool :=
  match date_cmp a b with Gt => false | _ => true end.

Definition date_geb (a b : date) : bool :=
  match date_cmp a b with Lt => false | _ => true end.

(** Calendar order, as a proposition. *)
Definition date_lt (a b : date) : Prop :=
  year a < year b
  \/ (year a = year b
      /\ (month a < month b \/ (month a = month b /\ day a < day b))).

Definition date_le (a b : date) : Prop := date_lt a b \/ a = b.

(** *** Text form: [isoformat] and [fromisoformat] *)

Definition digit_char (d : Z) : ascii := ascii_of_nat (48 + Z.to_nat d).

Definition is_digit (c : ascii) : bool :=
  let n := Z.of_nat (nat_of_ascii c) in (48 <=? n) && (n <=? 57).

Definition digit_val (c : ascii) : Z := Z.of_nat (nat_of_ascii c) - 48.

(** [isoformat]: ["%04d-%02d-%02d"] of a date (four-digit year). *)
Definition isoformat (d : date) : string :=
  let y := year d in let m := month d in let dd := day d in
  String (digit_char (y / 1000))
 (String (digit_char (y / 100 mod 10))
 (String (digit_char (y / 10 mod 10))
 (String (digit_char (y mod 10))
 (String "-"%char
 (String (digit_char (m / 10))
 (String (digit_char (m mod 10))
 (String "-"%char
 (String (digit_char (dd / 10))
 (String (digit_char (dd mod 10)) EmptyString))))))))).

(** [parse_digits]: exactly [k] ASCII digits, accumulated on [var]. *)
Fixpoint parse_digits (k : nat) (var : Z) (p : list ascii)
  : option (Z * list ascii) :=
  match k, p with
  | O, _ => Some (var, p)
  | S k', c :: p' =>
      if is_digit c then parse_digits k' (var * 10 + digit_val c) p'
      else None
  | S _, [] => None
  end.

Definition starts_with (c : ascii) (p : list ascii) : bool :=
  match p with
  | c' :: _ => Ascii.eqb c' c
  | [] => false
  end.

(** Ordinal of the Monday that starts ISO week 1 of [year]. *)
Definition _isoweek1monday (year : Z) : Z :=
  let firstday := _ymd2ord year 1 1 in
  let firstweekday := (firstday + 6) mod 7 in
  let week1monday := firstday - firstweekday in
  if 3 <? firstweekday then week1monday + 7 else week1monday.

(** ISO year, week and week day to (year, month, day); a year has a week
    53 when it starts on a Thursday, or on a Wednesday and is leap. The
    result is not checked here: week 52 of year 9999 runs into year
    10000. *)
Definition _isoweek_to_gregorian (year week day : Z) : option date :=
  if negb ((MINYEAR <=? year) && (year <=? MAXYEAR)) then None
  else
    let first_weekday := _ymd2ord year 1 1 mod 7 in
    let out_of_range :=
      negb ((0 <? week) && (week <? 53))
      && negb ((week =? 53)
               && ((first_weekday =? 4)
                   || ((first_weekday =? 3) && _is_leap year))) in
    if out_of_range then None
    else if negb ((0 <? day) && (day <? 8)) then None
    else
      let day_offset := (week - 1) * 7 + (day - 1) in
      let day_1 := _isoweek1monday year in
      Some (_ord2ymd (day_1 + day_offset)).

(** The date forms of [fromisoformat]: [YYYY-MM-DD], [YYYYMMDD],
    [YYYY-Www], [YYYYWww], [YYYY-Www-D] and [YYYYWwwD], read from the
    left. What follows the last field in a string of the accepted length
    is not looked at. *)
Definition parse_isoformat_date (dtstr : list ascii) : option date :=
  '(year, p) ← parse_digits 4 0 dtstr;
  let uses_separator := starts_with "-" p in
  let p := if uses_separator then tail p else p in
  if starts_with "W" p then
    '(iso_week, p) ← parse_digits 2 0 (tail p);
    match p with
    | [] => _isoweek_to_gregorian year iso_week 1
    | c :: p' =>
        if uses_separator && negb (Ascii.eqb c "-") then None
        else
          '(iso_day, _) ← parse_digits 1 0 (if uses_separator then p' else p);
          _isoweek_to_gregorian year iso_week iso_day
    end
  else
    '(month, p) ← parse_digits 2 0 p;
    if uses_separator && negb (starts_with "-" p) then None
    else
      '(day, _) ← parse_digits 2 0 (if uses_separator then tail p else p);
      Some (Date year month day).

(** [date.fromisoformat], as Python 3.11 and later read it: a string of 7,
    8 or 10 bytes in one of the forms above, then the checked fields; every
    failure is a [ValueError]. [isoformat] writes the first form, the only
    one the application stores. *)
Definition fromisoformat (s : string) : result date :=
  let dtstr := list_ascii_of_string s in
  let len := Z.of_nat (length dtstr) in
  if (len =? 7) || (len =? 8) || (len =? 10) then
    match parse_isoformat_date dtstr with
    | Some d => new_date (year d) (month d) (day d)
    | None => Raise ValueError
    end
  else Raise ValueError.

End Datetime.

Import Datetime.

(** ** Built-ins: [str.strip] and [float] *)

Module Builtins.

(** ASCII white space as [str.isspace] sees it: tab to carriage return,
    the four separators 0x1C to 0x1F and the space. *)
Definition is_space (c : ascii) : bool :=
  let n := Z.of_nat (nat_of_ascii c) in
  ((9 <=? n) && (n <=? 13)) || ((28 <=? n) && (n <=? 32)).

(** White space as [float] skips it ([Py_ISSPACE]): tab to carriage return
    and the space, not the separators. *)
Definition Py_ISSPACE (c : ascii) : bool :=
  let n := Z.of_nat (nat_of_ascii c) in
  ((9 <=? n) && (n <=? 13)) || (n =? 32).

Fixpoint lstrip (space : ascii -> bool) (l : list ascii) : list ascii :=
  match l with
  | c :: l' => if space c then lstrip space l' else l
  | [] => []
  end.

Definition strip_chars (space : ascii -> bool) (l : list ascii)
  : list ascii :=
  rev (lstrip space (rev (lstrip space l))).

Definition strip (s : string) : string :=
  string_of_list_ascii (strip_chars is_space (list_ascii_of_string s)).

(** The value [float] reads, before rounding to a double: a signed decimal
    [(-1)^neg * mantissa * 10^exp10], an infinity or a NaN. *)
Inductive pyfloat : Type :=
| FFinite (neg : bool) (mantissa : Z) (exp10 : Z)
| FInf (neg : bool)
| FNan.

Definition is_negative (f : pyfloat) : bool :=
  match f with
  | FFinite neg m _ => neg && (0 <? m)
  | FInf neg => neg
  | FNan => false
  end.

Definition lower (c : ascii) : ascii :=
  let n := nat_of_ascii c in
  if (65 <=? n)%nat && (n <=? 90)%nat then ascii_of_nat (n + 32) else c.

Definition digits_to_Z (ds : list Z) : Z :=
  fold_left (fun acc d => 10 * acc + d) ds 0.

(** [digitpart ::= digit (["_"] digit)*], what follows the first digit. *)
Fixpoint digitpart_rest (l : list ascii) : list Z * list ascii :=
  match l with
  | c :: l' =>
      if is_digit c then
        let '(ds, r) := digitpart_rest l' in (digit_val c :: ds, r)
      else if Ascii.eqb c "_" then
        match l' with
        | c2 :: l'' =>
            if is_digit c2 then
              let '(ds, r) := digitpart_rest l'' in (digit_val c2 :: ds, r)
            else ([], l)
        | [] => ([], l)
        end
      else ([], l)
  | [] => ([], [])
  end.

Definition digitpart (l : list ascii) : option (list Z * list ascii) :=
  match l with
  | c :: l' =>
      if is_digit c then
        let '(ds, r) := digitpart_rest l' in Some (digit_val c :: ds, r)
      else None
  | [] => None
  end.

(** [number ::= [digitpart] "." digitpart | digitpart ["."]] *)
Definition number (l : list ascii)
  : option (list Z * list Z * list ascii) :=
  match digitpart l with
  | Some (ip, r) =>
      match r with
      | c :: r' =>
          if Ascii.eqb c "." then
            match digitpart r' with
            | Some (fp, r'') => Some (ip, fp, r'')
            | None => Some (ip, [], r')
            end
          else Some (ip, [], r)
      | [] => Some (ip, [], [])
      end
  | None =>
      match l with
      | c :: r' =>
          if Ascii.eqb c "." then
            match digitpart r' with
            | Some (fp, r'') => Some ([], fp, r'')
            | None => None
            end
          else None
      | [] => None
      end
  end.

Definition sign (l : list ascii) : bool * list ascii :=
  match l with
  | c :: l' =>
      if Ascii.eqb c "-" then (true, l')
      else if Ascii.eqb c "+" then (false, l')
      else (false, l)
  | [] => (false, [])
  end.

(** [exponent ::= ("e" | "E") [sign] digitpart]; no exponent reads as 0. *)
Definition exponent (l : list ascii) : option (Z * list ascii) :=
  match l with
  | c :: l' =>
      if Ascii.eqb (lower c) "e" then
        let '(neg, l'') := sign l' in
        match digitpart l'' with
        | Some (ds, r) =>
            Some (if neg then - digits_to_Z ds else digits_to_Z ds, r)
        | None => None
        end
      else None
  | [] => Some (0, [])
  end.

Definition floatvalue (l : list ascii) : option pyfloat :=
  let '(neg, l) := sign l in
  let word := string_of_list_ascii (map lower l) in
  if String.eqb word "inf" || String.eqb word "infinity" then Some (FInf neg)
  else if String.eqb word "nan" then Some FNan
  else
    match number l with
    | Some (ip, fp, r) =>
        match exponent r with
        | Some (e, []) =>
            Some (FFinite neg (digits_to_Z (ip ++ fp))
                    (e - Z.of_nat (length fp)))
        | _ => None
        end
    | None => None
    end.

(** [float(s)] for a string: white space around a [floatvalue]. *)
Definition float_of_str (s : string) : result pyfloat :=
  match floatvalue (strip_chars Py_ISSPACE (list_ascii_of_string s)) with
  | Some f => Ok f
  | None => Raise ValueError
  end.

(** The values a caller can pass where a number is expected. *)
Inductive pyval : Type :=
| PStr (s : string)
| PInt (z : Z)
| PNone.

(** [float(x)]: an [int] too large for a double raises [OverflowError]
    (conversion rounds to nearest, ties to even); [None] is a
    [TypeError]. *)
Definition float (x : pyval) : result pyfloat :=
  match x with
  | PStr s => float_of_str s
  | PInt z =>
      if Z.abs z <? 2 ^ 1024 - 2 ^ 970
      then Ok (FFinite (z <? 0) (Z.abs z) 0)
      else Raise OverflowError
  | PNone => Raise TypeError
  end.

End Builtins.

Import Builtins.

(** ** models.py *)

Module Models.

(** Plan durations in months. *)
Definition PLAN_MONTHS : gmap string Z :=
  list_to_map
    [("1 month"%string, 1); ("3 months"%string, 3);
     ("6 months"%string, 6); ("12 months"%string, 12)].

End Models.

Import Models.

(** ** utils.py *)

Module Utils.

Definition parse_iso (d : string) : result date := fromisoformat d.

(** Add months while keeping the day in the valid range. *)
Definition add_months (start : date) (months : Z) : result date :=
  let y := year start + (month start - 1 + months) / 12 in
  let m := (month start - 1 + months) mod 12 + 1 in
  next_month ← (if m =? 12 then mk_date (y + 1) 1 1
                else mk_date y (m + 1) 1);
  last_day ← date_sub_days next_month 1;
  let d := Z.min (day start) (day last_day) in
  mk_date y m d.

Definition calc_end_date (start_date_iso plan_type : string)
  : result string :=
  start ← parse_iso start_date_iso;
  let months := default 1 (PLAN_MONTHS !! plan_type) in
  end_ ← add_months start months;
  Ok (isoformat end_).

(** [today] is the value of [date.today()] when the call runs. *)
Definition infer_status (today : date) (end_date_iso : string)
  : result string :=
  d ← parse_iso end_date_iso;
  Ok (if date_geb d today then "active"%string else "expired"%string).

Definition E_NAME : string := "Full name is required.".
Definition E_PHONE : string := "Phone is required.".
Definition E_PRICE : string := "Plan price must be numeric.".
Definition E_ORDER : string := "End date must be after start date.".
Definition E_DATES : string :=
  "Start/end dates must be valid ISO dates (YYYY-MM-DD).".

Definition validate_member_inputs
    (full_name phone : string) (plan_price : pyval)
    (start_date end_date : string) : result (list string) :=
  let errors : list string := [] in
  let errors :=
    if String.eqb (strip full_name) "" then errors ++ [E_NAME] else errors in
  let errors :=
    if String.eqb (strip phone) "" then errors ++ [E_PHONE] else errors in
  errors ← try_except
    (_ ← float plan_price; Ok errors)
    (Ok (errors ++ [E_PRICE]));
  errors ← try_except
    (sd ← parse_iso start_date;
     ed ← parse_iso end_date;
     Ok (if date_leb ed sd then errors ++ [E_ORDER] else errors))
    (Ok (errors ++ [E_DATES]));
  Ok errors.

End Utils.

Import Utils.

(** ** db.py: the SQLite store *)

Module Db.

Record admin_row : Type := AdminRow {
  a_username : string;
  a_password_hash : string;
  a_created_at : string }.

Record member_row : Type := MemberRow {
  m_full_name : string;
  m_phone : string;
  m_national_id : option string;
  m_join_date : string;
  m_plan_type : string;
  m_plan_price : pyfloat;
  m_start_date : string;
  m_end_date : string;
  m_status : string }.

Record payment_row : Type := PaymentRow {
  p_member_id : Z;
  p_amount : pyfloat;
  p_date : string;
  p_method : string;
  p_notes : option string }.

(** The four tables of [_create_tables], rows keyed by their [id]
    ([app_settings] by its [key]). *)
Record database : Type := Database {
  admin_users : gmap Z admin_row;
  members : gmap Z member_row;
  payments : gmap Z payment_row;
  app_settings : gmap string string }.

(** Per-connection settings of SQLite. Foreign-key enforcement is a
    connection setting, off when a connection is opened and switched on
    only by [PRAGMA foreign_keys = ON]. *)
Record connection : Type := Connection { foreign_keys : bool }.

(** [sqlite3.connect(DB_FILE, check_same_thread=False)] in [get_conn]: a
    new connection; [get_conn] sets [row_factory] and issues no
    [PRAGMA]. *)
Definition get_conn : connection := {| foreign_keys := false |}.

(** The mutating statements the application sends through [execute]. *)
Inductive statement : Type :=
| DELETE_member (id : Z)
    (* DELETE FROM members WHERE id = ? *)
| UPDATE_member_status (status : string) (id : Z)
    (* UPDATE members SET status = ? WHERE id = ? *)
| UPDATE_admin_password (password_hash username : string)
    (* UPDATE admin_users SET password_hash = ? WHERE username = ? *)
| UPSERT_setting (key value : string).
    (* INSERT INTO app_settings(key, value) VALUES(?, ?)
       ON CONFLICT(key) DO UPDATE SET value=excluded.value *)

Definition set_status (s : string) (r : member_row) : member_row :=
  {| m_full_name := m_full_name r; m_phone := m_phone r;
     m_national_id := m_national_id r; m_join_date := m_join_date r;
     m_plan_type := m_plan_type r; m_plan_price := m_plan_price r;
     m_start_date := m_start_date r; m_end_date := m_end_date r;
     m_status := s |}.

Definition set_password_hash (h : string) (a : admin_row) : admin_row :=
  {| a_username := a_username a; a_password_hash := h;
     a_created_at := a_created_at a |}.

(** [CHECK(status IN ('active','expired'))] *)
Definition status_check (s : string) : bool :=
  String.eqb s "active" || String.eqb s "expired".

(** What SQLite does with one statement on a connection. The payments
    table declares [FOREIGN KEY(member_id) REFERENCES members(id) ON DELETE
    CASCADE]; the cascade runs only where the connection enforces foreign
    keys. *)
Definition conn_execute (conn : connection) (st : statement) (db : database)
  : result database :=
  match st with
  | DELETE_member id =>
      match members db !! id with
      | None => Ok db
      | Some _ =>
          Ok {| admin_users := admin_users db;
                members := delete id (members db);
                payments :=
                  if foreign_keys conn
                  then filter (fun kv => p_member_id kv.2 <> id) (payments db)
                  else payments db;
                app_settings := app_settings db |}
      end
  | UPDATE_member_status status id =>
      match members db !! id with
      | None => Ok db
      | Some r =>
          if status_check status then
            Ok {| admin_users := admin_users db;
                  members := <[id := set_status status r]> (members db);
                  payments := payments db;
                  app_settings := app_settings db |}
          else Raise IntegrityError
      end
  | UPDATE_admin_password h username =>
      Ok {| admin_users :=
              (fun a => if String.eqb (a_username a) username
                        then set_password_hash h a else a)
              <$> admin_users db;
            members := members db;
            payments := payments db;
            app_settings := app_settings db |}
  | UPSERT_setting key value =>
      Ok {| admin_users := admin_users db;
            members := members db;
            payments := payments db;
            app_settings := <[key := value]> (app_settings db) |}
  end.

(** [execute(sql, params)]: one statement on a connection of its own,
    committed when it succeeds. The row id it returns is used by
    [insert_sample_data] only and is left out. *)
Definition execute (st : statement) (db : database) : result database :=
  let conn := get_conn in
  conn_execute conn st db.

(** [fetch_one("SELECT * FROM admin_users WHERE username = ?", ...)] *)
Definition fetch_admin_by_username (username : string) (db : database)
  : option admin_row :=
  head (filter (fun a => a_username a = username)
          ((map_to_list (admin_users db)).*2)).

(** [fetch_all("SELECT id, end_date FROM members")] *)
Definition fetch_member_end_dates (db : database) : list (Z * string) :=
  (fun kv => (kv.1, m_end_date kv.2)) <$> map_to_list (members db).

Definition _set_setting (key value : string) (db : database)
  : result database :=
  execute (UPSERT_setting key value) db.

Definition clear_force_password_change (db : database) : result database :=
  _set_setting "force_password_change" "0" db.

(** No payment row refers to a member that does not exist. *)
Definition no_orphan_payments (db : database) : Prop :=
  map_Forall (fun _ p => is_Some (members db !! p_member_id p))
    (payments db).

(** No admin row carries the user name. *)
Definition no_admin_named (username : string) (db : database) : Prop :=
  map_Forall (fun _ a => a_username a <> username) (admin_users db).

End Db.

Import Db.

(** ** auth.py *)

Module Auth.

(** The [bcrypt] package: hashing with a given salt, and checking a secret
    against a stored hash (which raises on a malformed hash). *)
Class Bcrypt : Type := {
  hashpw : string -> string -> string;
  checkpw : string -> string -> result bool }.

(** Calls into the password check, in the order they are made. *)
Inductive call : Type :=
| Checkpw (secret stored : string).

(** bcrypt only uses the first 72 bytes of the password. *)
Definition _to_bcrypt_secret (password : string) : string :=
  let pw := password in
  if (72 <? String.length pw)%nat then substring 0 72 pw else pw.

(** [salt] is the value [bcrypt.gensalt(rounds=12)] draws. *)
Definition hash_password `{Bcrypt} (salt password : string) : string :=
  let secret := _to_bcrypt_secret password in
  hashpw secret salt.

Definition verify_password `{Bcrypt} (password password_hash : string)
  : result bool * list call :=
  let secret := _to_bcrypt_secret password in
  let stored := password_hash in
  (checkpw secret stored, [Checkpw secret stored]).

Definition get_admin_by_username (username : string) (db : database)
  : option admin_row :=
  fetch_admin_by_username username db.

(** The result of [login], with the password checks it made. *)
Definition login `{Bcrypt} (db : database) (username password : string)
  : result bool * list call :=
  match get_admin_by_username username db with
  | None => (Ok false, [])
  | Some admin => verify_password password (a_password_hash admin)
  end.

Definition change_password `{Bcrypt} (salt : string) (db : database)
    (username new_password : string) : result database :=
  let new_hash := hash_password salt new_password in
  db ← execute (UPDATE_admin_password new_hash username) db;
  clear_force_password_change db.

End Auth.

Import Auth.

(** ** app.py: data-access helpers and the renewal default *)

Module App.

(** The loop of [refresh_member_statuses] over the fetched rows. *)
Fixpoint refresh_rows (today : date) (rows : list (Z * string))
    (db : database) : result database :=
  match rows with
  | [] => Ok db
  | r :: rows' =>
      status ← infer_status today r.2;
      db ← execute (UPDATE_member_status status r.1) db;
      refresh_rows today rows' db
  end.

(** Keep statuses consistent with [end_date]. *)
Definition refresh_member_statuses (today : date) (db : database)
  : result database :=
  let rows := fetch_member_end_dates db in
  refresh_rows today rows db.

(** The Delete button of [members_page]. *)
Definition delete_member (selected_id : Z) (db : database)
  : result database :=
  execute (DELETE_member selected_id) db.

(** Default start date of [renewals_page]: today, or the day after the
    current end if the member is still active. *)
Definition renewal_default_start (today : date) (m : member_row)
  : result date :=
  current_end ← parse_iso (m_end_date m);
  let default_start := today in
  if date_geb current_end today then date_add_days current_end 1
  else Ok default_start.

End App.

Import App.

(** ** Calendar notions of the statements *)

Module Calendar.

(** First day of the month after month [m] of year [y], as [add_months]
    builds it. *)
Definition first_of_next_month (y m : Z) : date :=
  if m =? 12 then Date (y + 1) 1 1 else Date y (m + 1) 1.

(** The month and day numbers of one 400-year cycle of the calendar. *)
Definition cycle_days : list (Z * Z * Z) :=
  list_prod (list_prod (seqZ 1 400) (seqZ 1 12)) (seqZ 1 31).

(** The day after [d] in the civil calendar. *)
Definition next_day (d : date) : date :=
  if day d <? _days_in_month (year d) (month d)
  then Date (year d) (month d) (day d + 1)
  else if month d <? 12 then Date (year d) (month d + 1) 1
  else Date (year d + 1) 1 1.

Definition shift_years (k : Z) (d : date) : date :=
  Date (year d + 400 * k) (month d) (day d).

(** Position of a date's month on the month line. *)
Definition month_index (d : date) : Z := 12 * year d + (month d - 1).

End Calendar.

Import Calendar.

(** ** The shape of the validation result *)

Module Validation.

(** The errors of the two date fields: a date-format error as soon as one
    of them does not parse, otherwise the ordering check. *)
Definition date_errors (start_date end_date : string) : list string :=
  match parse_iso start_date, parse_iso end_date with
  | Ok sd, Ok ed => if date_leb ed sd then [E_ORDER] else []
  | _, _ => [E_DATES]
  end.

End Validation.

Import Validation.

(** ** What the refresh pass aims at *)

Module Refresh.

(** The status [infer_status] gives a row today; a row whose end date does
    not parse has none and keeps its own. *)
Definition status_of (today : date) (r : member_row) : string :=
  match infer_status today (m_end_date r) with
  | Ok s => s
  | Raise _ => m_status r
  end.

(** The row with its status recomputed and every other field as it was. *)
Definition refreshed (today : date) (r : member_row) : member_row :=
  set_status (status_of today r) r.

(** Every stored end date is an ISO date, as the forms and [calc_end_date]
    write them. *)
Definition end_dates_valid (db : database) : Prop :=
  map_Forall (fun _ r => is_ok (parse_iso (m_end_date r)) = true)
    (members db).

End Refresh.

Import Refresh.

(** ** Sample rows

    The members of [insert_sample_data], with fixed dates. *)

Module Samples.

Definition member_ending (end_date status : string) : member_row :=
  {| m_full_name := "Ahmed Hassan"; m_phone := "01000000001";
     m_national_id := Some "12345678901234"%string;
     m_join_date := "2024-05-01"; m_plan_type := "1 month";
     m_plan_price := FFinite false 300 0;
     m_start_date := "2024-05-01"; m_end_date := end_date;
     m_status := status |}.

Definition sample_payment (member_id : Z) : payment_row :=
  {| p_member_id := member_id; p_amount := FFinite false 300 0;
     p_date := "2024-05-01"; p_method := "cash";
     p_notes := Some "Sample payment"%string |}.

Definition sample_admin : admin_row :=
  {| a_username := "admin"; a_password_hash := "$2b$12$stored";
     a_created_at := "2024-05-01T00:00:00" |}.

(** One admin, two members (the second with a stale status) and one
    payment of the first member. *)
Definition sample_db : database :=
  {| admin_users := {[ 1 := sample_admin ]};
     members := {[ 1 := member_ending "2024-06-01" "active";
                   2 := member_ending "2024-04-01" "active" ]};
     payments := {[ 1 := sample_payment 1 ]};
     app_settings := {[ "force_password_change"%string := "1"%string ]} |}.

(** A stand-in for the [bcrypt] package, to run the definitions on: the
    "hash" is the salt followed by the secret. *)
Definition plain_bcrypt : Bcrypt :=
  {| hashpw := fun secret salt => (salt ++ secret)%string;
     checkpw := fun secret stored =>
       if String.prefix "$2b$12$" stored
       then Ok (String.eqb stored ("$2b$12$" ++ secret))
       else Raise ValueError |}.

End Samples.

Import Samples.

(** ** db.py: settings, inserts and initialisation *)

Module DbInit.

(** [fetch_one("SELECT value FROM app_settings WHERE key = ?", (key,))] *)
Definition fetch_setting (key : string) (db : database) : option string :=
  app_settings db !! key.

Definition _get_setting (key : string) (default : option string)
    (db : database) : option string :=
  match fetch_setting key db with
  | Some value => Some value
  | None => default
  end.

Definition is_force_password_change (db : database) : bool :=
  match fetch_setting "force_password_change" db with
  | Some value => String.eqb value "1"
  | None => false
  end.

(** The [INSERT] statements the application sends through [execute]. *)
Inductive insertion : Type :=
| INSERT_admin (row : admin_row)
    (* INSERT INTO admin_users(username, password_hash, created_at)
       VALUES(?,?,?) *)
| INSERT_member (row : member_row)
    (* INSERT INTO members(full_name, ..., status) VALUES(?,?,?,?,?,?,?,?,?) *)
| INSERT_payment (row : payment_row).
    (* INSERT INTO payments(member_id, amount, date, method, notes)
       VALUES(?,?,?,?,?) *)

(** A NaN is bound as NULL, which a [REAL NOT NULL] column refuses. *)
Definition real_not_null (f : pyfloat) : bool :=
  match f with
  | FNan => false
  | _ => true
  end.

(** [CHECK(method IN ('cash','card','transfer'))] *)
Definition method_check (s : string) : bool :=
  String.eqb s "cash" || String.eqb s "card" || String.eqb s "transfer".

Definition username_taken (username : string) (db : database) : bool :=
  bool_decide (Exists (fun a => a_username a = username)
                 ((map_to_list (admin_users db)).*2)).

(** One [INSERT] through [execute]. [rowid] is the id SQLite assigns to the
    new row ([AUTOINCREMENT]: an id the table does not hold; a held id is
    refused by the primary key). The constraints of [_create_tables] are
    checked; the foreign key of [payments] is not, on a connection from
    [get_conn]. Returns the new state and [cur.lastrowid]. *)
Definition execute_insert (rowid : Z) (ins : insertion) (db : database)
  : result (database * Z) :=
  let conn := get_conn in
  match ins with
  | INSERT_admin row =>
      if bool_decide (is_Some (admin_users db !! rowid))
         || username_taken (a_username row) db
      then Raise IntegrityError
      else Ok ({| admin_users := <[rowid := row]> (admin_users db);
                  members := members db;
                  payments := payments db;
                  app_settings := app_settings db |}, rowid)
  | INSERT_member row =>
      if bool_decide (is_Some (members db !! rowid))
         || negb (status_check (m_status row))
         || negb (real_not_null (m_plan_price row))
      then Raise IntegrityError
      else Ok ({| admin_users := admin_users db;
                  members := <[rowid := row]> (members db);
                  payments := payments db;
                  app_settings := app_settings db |}, rowid)
  | INSERT_payment row =>
      if bool_decide (is_Some (payments db !! rowid))
         || negb (method_check (p_method row))
         || negb (real_not_null (p_amount row))
         || (foreign_keys conn
             && bool_decide (members db !! p_member_id row = None))
      then Raise IntegrityError
      else Ok ({| admin_users := admin_users db;
                  members := members db;
                  payments := <[rowid := row]> (payments db);
                  app_settings := app_settings db |}, rowid)
  end.

(** [fetch_one("SELECT id FROM admin_users LIMIT 1")] *)
Definition fetch_any_admin_id (db : database) : option Z :=
  head ((map_to_list (admin_users db)).*1).

(** [init_db]: the tables exist in every [database]; [now] is
    [datetime.utcnow().isoformat(timespec="seconds")] and [rowid] the id of
    the admin row if one is inserted. *)
Definition init_db (rowid : Z) (now default_admin_hash : string)
    (db : database) : result database :=
  let admin := fetch_any_admin_id db in
  match admin with
  | None =>
      r ← execute_insert rowid
            (INSERT_admin {| a_username := "admin";
                             a_password_hash := default_admin_hash;
                             a_created_at := now |}) db;
      _set_setting "force_password_change" "1" r.1
  | Some _ =>
      if bool_decide (_get_setting "force_password_change" None db = None)
      then _set_setting "force_password_change" "0" db
      else Ok db
  end.

End DbInit.

Import DbInit.

(** ** app.py: start-up and the password screens *)

Module AppAccount.

(** [init_once]: hash the default password and initialise the database. *)
Definition init_once `{Bcrypt} (salt : string) (rowid : Z) (now : string)
    (db : database) : result database :=
  let default_hash := hash_password salt "admin123" in
  init_db rowid now default_hash db.

Definition E_SHORT : string := "Password must be at least 6 characters.".
Definition E_MISMATCH : string := "Passwords do not match.".

(** The "Update password" button of [force_change_password_screen] and of
    [settings_page]: the new state and the error shown, if any. *)
Definition update_password `{Bcrypt} (salt : string) (db : database)
    (username new1 new2 : string) : result (database * option string) :=
  if (String.length new1 <? 6)%nat then Ok (db, Some E_SHORT)
  else if negb (String.eqb new1 new2) then Ok (db, Some E_MISMATCH)
  else
    db ← change_password salt db username new1;
    Ok (db, None).

(** What [run] shows first. *)
Inductive screen : Type :=
| LoginScreen
| ForceChangePasswordScreen
| MainApp.

Definition run_screen (logged_in : bool) (db : database) : screen :=
  if negb logged_in then LoginScreen
  else if is_force_password_change db then ForceChangePasswordScreen
  else MainApp.

End AppAccount.

Import AppAccount.

(** ** app.py: the member form, renewals and payments *)

Module AppForms.

(** The [UPDATE members] statements of [member_form] and [renewals_page]. *)
Inductive member_update : Type :=
| UPDATE_member (row : member_row) (id : Z)
    (* UPDATE members SET full_name=?, phone=?, national_id=?, join_date=?,
         plan_type=?, plan_price=?, start_date=?, end_date=?, status=?
       WHERE id=? *)
| UPDATE_member_plan (plan_type : string) (plan_price : pyfloat)
    (start_date end_date status : string) (id : Z).
    (* UPDATE members SET plan_type=?, plan_price=?, start_date=?,
         end_date=?, status=? WHERE id=? *)

Definition set_plan (plan_type : string) (plan_price : pyfloat)
    (start_date end_date status : string) (r : member_row) : member_row :=
  {| m_full_name := m_full_name r; m_phone := m_phone r;
     m_national_id := m_national_id r; m_join_date := m_join_date r;
     m_plan_type := plan_type; m_plan_price := plan_price;
     m_start_date := start_date; m_end_date := end_date;
     m_status := status |}.

Definition with_members (ms : gmap Z member_row) (db : database)
  : database :=
  {| admin_users := admin_users db; members := ms;
     payments := payments db; app_settings := app_settings db |}.

(** One such [UPDATE] through [execute]: no row with that id, no change;
    otherwise the new values must pass [CHECK(status ...)] and the price
    must not be NULL. *)
Definition execute_update (u : member_update) (db : database)
  : result database :=
  match u with
  | UPDATE_member row id =>
      match members db !! id with
      | None => Ok db
      | Some _ =>
          if status_check (m_status row) && real_not_null (m_plan_price row)
          then Ok (with_members (<[id := row]> (members db)) db)
          else Raise IntegrityError
      end
  | UPDATE_member_plan plan_type plan_price start_date end_date status id =>
      match members db !! id with
      | None => Ok db
      | Some r =>
          if status_check status && real_not_null plan_price
          then Ok (with_members
                     (<[id := set_plan plan_type plan_price start_date
                                end_date status r]> (members db)) db)
          else Raise IntegrityError
      end
  end.

(** [s.strip() or None] *)
Definition strip_or_none (s : string) : option string :=
  if String.eqb (strip s) "" then None else Some (strip s).

(** [list(PLAN_MONTHS.keys()).index(plan_type)], for its exception. *)
Definition plan_index (plan_type : string) : result unit :=
  if bool_decide (is_Some (PLAN_MONTHS !! plan_type)) then Ok ()
  else Raise ValueError.

(** [member_form] with the "Save" button pressed. [existing] is the row
    being edited, with its id; the form is drawn first, and the defaults
    of its inputs are computed from that row, or from today's date and the
    calculated end date for a new member. The dates [join], [start] and
    [end_] are the values of the three date inputs and [rowid] is the id
    given to a new row. The button is disabled while there are errors.
    Returns the state and the errors shown. *)
Definition member_form (rowid : Z) (existing : option (Z * member_row))
    (full_name phone national_id : string) (join : date)
    (plan_type plan_price : string) (start end_ : date) (status : string)
    (db : database) : result (database * list string) :=
  _ ← match existing with
      | Some (_, r) => _ ← parse_iso (m_join_date r); plan_index (m_plan_type r)
      | None => Ok ()
      end;
  let join_date := isoformat join in
  _ ← match existing with
      | Some (_, r) => _ ← parse_iso (m_start_date r); Ok ()
      | None => Ok ()
      end;
  let start_date := isoformat start in
  auto_end ← calc_end_date start_date plan_type;
  _ ← match existing with
      | Some (_, r) => parse_iso (m_end_date r)
      | None => parse_iso auto_end
      end;
  let end_date := isoformat end_ in
  errors ← validate_member_inputs full_name phone (PStr plan_price)
             start_date end_date;
  match errors with
  | _ :: _ => Ok (db, errors)
  | [] =>
      let nat := strip_or_none national_id in
      price ← float (PStr plan_price);
      let row :=
        {| m_full_name := strip full_name; m_phone := strip phone;
           m_national_id := nat; m_join_date := join_date;
           m_plan_type := plan_type; m_plan_price := price;
           m_start_date := start_date; m_end_date := end_date;
           m_status := status |} in
      match existing with
      | Some (id, _) =>
          db ← execute_update (UPDATE_member row id) db;
          Ok (db, [])
      | None =>
          r ← execute_insert rowid (INSERT_member row) db;
          Ok (r.1, [])
      end
  end.

(** [renewals_page] from the chosen member on, with the "Renew" button
    pressed. [start_choice] is the start date the user picked, [None] for
    the default the page proposes. The page is drawn before the button is
    read, so an exception while drawing it (no such member, a stored plan
    type outside the list, the default start date, the end date) leaves
    the database as it was. The member update and the payment are two
    statements: the state after the last one that succeeded is returned
    with the outcome. *)
Definition renew (today : date) (rowid : Z) (member_id : Z)
    (plan_type plan_price : string) (start_choice : option date)
    (record_payment : bool) (pay_method pay_notes : string)
    (db : database) : database * result (list string) :=
  match members db !! member_id with
  | None => (db, Raise TypeError)
  | Some m =>
      match plan_index (m_plan_type m) with
      | Raise e => (db, Raise e)
      | Ok _ =>
        match renewal_default_start today m with
        | Raise e => (db, Raise e)
        | Ok default_start =>
            let start_date :=
              isoformat (default default_start start_choice) in
            match calc_end_date start_date plan_type with
            | Raise e => (db, Raise e)
            | Ok end_date =>
                match validate_member_inputs (m_full_name m) (m_phone m)
                        (PStr plan_price) start_date end_date with
                | Raise e => (db, Raise e)
                | Ok (e :: errors) => (db, Ok (e :: errors))
                | Ok [] =>
                    match float (PStr plan_price),
                          infer_status today end_date with
                    | Raise e, _ => (db, Raise e)
                    | Ok _, Raise e => (db, Raise e)
                    | Ok price, Ok status =>
                        match execute_update
                                (UPDATE_member_plan plan_type price
                                   start_date end_date status member_id)
                                db with
                        | Raise e => (db, Raise e)
                        | Ok db1 =>
                            if record_payment then
                              match execute_insert rowid
                                      (INSERT_payment
                                         {| p_member_id := member_id;
                                            p_amount := price;
                                            p_date := isoformat today;
                                            p_method := pay_method;
                                            p_notes :=
                                              strip_or_none pay_notes |})
                                      db1 with
                              | Raise e => (db1, Raise e)
                              | Ok r => (r.1, Ok [])
                              end
                            else (db1, Ok [])
                        end
                    end
                end
            end
        end
      end
  end.

(** The double that [float] returned compared with zero, [amt <= 0].
    Rounding is to nearest, ties to even: a finite value rounds to zero
    when its magnitude is at most 2^-1075, half of the least positive
    double. A NaN compares false. *)
Definition le_zero (amt : pyfloat) : bool :=
  match amt with
  | FFinite neg m e =>
      neg || (m =? 0)
      || ((e <? 0) && (m * 2 ^ 1075 <=? 10 ^ (- e)))
  | FInf neg => neg
  | FNan => false
  end.

Definition E_POSITIVE : string := "Amount must be > 0.".
Definition E_AMOUNT : string := "Amount must be numeric.".

(** The "Record payment" button of [payments_page]: the new state and the
    error shown, if any. The [try] block covers the [INSERT], so a refused
    row shows the second message. *)
Definition record_payment (rowid member_id : Z) (amount : string)
    (pay_date : date) (method notes : string) (db : database)
  : database * option string :=
  match float (PStr amount) with
  | Raise _ => (db, Some E_AMOUNT)
  | Ok amt =>
      if le_zero amt then (db, Some E_POSITIVE)
      else
        match execute_insert rowid
                (INSERT_payment
                   {| p_member_id := member_id; p_amount := amt;
                      p_date := isoformat pay_date; p_method := method;
                      p_notes := strip_or_none notes |}) db with
        | Raise _ => (db, Some E_AMOUNT)
        | Ok r => (r.1, None)
        end
  end.

End AppForms.

Import AppForms.

(** ** app.py: the month of the dashboard and the reminders *)

Module AppReports.

(** [d.replace(day=k)] *)
Definition replace_day (d : date) (k : Z) : result date :=
  mk_date (year d) (month d) k.

(** [month_start] and [month_end] of [dashboard_page]. *)
Definition month_window (today : date) : result (string * string) :=
  first ← replace_day today 1;
  let month_start := isoformat first in
  d28 ← replace_day today 28;
  later ← date_add_days d28 4;
  next ← replace_day later 1;
  let month_end := isoformat next in
  Ok (month_start, month_end).

(** [x BETWEEN lo AND hi] on [TEXT] values: byte-wise comparison. *)
Definition between (x lo hi : string) : bool :=
  String.leb lo x && String.leb x hi.

(** [WHERE status='active' AND end_date BETWEEN ? AND ?] *)
Definition expiring (lo hi : string) (r : member_row) : bool :=
  String.eqb (m_status r) "active" && between (m_end_date r) lo hi.

(** [ORDER BY end_date ASC] *)
Definition by_end_date (a b : Z * member_row) : Prop :=
  String.leb (m_end_date a.2) (m_end_date b.2) = true.

#[global] Instance by_end_date_dec (a b : Z * member_row)
  : Decision (by_end_date a b) :=
  bool_eq_dec (String.leb (m_end_date a.2) (m_end_date b.2)) true.

(** The rows of
    [SELECT id, full_name, phone, end_date FROM members WHERE status='active'
     AND end_date BETWEEN ? AND ? ORDER BY end_date ASC]; SQL leaves the
    order of rows of equal end date open, here it is that of the merge
    sort. *)
Definition fetch_expiring (lo hi : string) (db : database)
  : list (Z * string * string * string) :=
  (fun kv => (kv.1, m_full_name kv.2, m_phone kv.2, m_end_date kv.2))
  <$> merge_sort by_end_date
        (filter (fun kv => expiring lo hi kv.2 = true)
           (map_to_list (members db))).

(** [reminders_page]: refresh the statuses, then list the members that
    expire within seven days. Returns the state and the rows shown. *)
Definition reminders_page (today : date) (db : database)
  : result (database * list (Z * string * string * string)) :=
  db ← refresh_member_statuses today db;
  d7 ← date_add_days today 7;
  let in_7 := isoformat d7 in
  Ok (db, fetch_expiring (isoformat today) in_7 db).

End AppReports.

Import AppReports.

(** ** utils.py: sample data *)

Module UtilsSample.

(** [executemany(sql, seq_of_params)] for the payments: the rows go in on
    one connection, which commits when all of them are in. *)
Fixpoint executemany (rows : list (Z * payment_row)) (db : database)
  : result database :=
  match rows with
  | [] => Ok db
  | (rowid, row) :: rows' =>
      r ← execute_insert rowid (INSERT_payment row) db;
      executemany rows' r.1
  end.

(** [insert_sample_data]: three members and their payments. [id1], [id2],
    [id3] are the ids SQLite assigns to the member rows and [pid1], [pid2],
    [pid3] those of the payment rows. *)
Definition insert_sample_data (today : date) (id1 id2 id3 pid1 pid2 pid3 : Z)
    (db : database) : result database :=
  let join := isoformat today in
  d ← replace_day today (Z.max 1 (day today - 25));
  let m1_start := isoformat d in
  d ← date_add_days today 5;
  let m1_end := isoformat d in
  d ← replace_day today (Z.max 1 (day today - 10));
  let m2_start := isoformat d in
  m2_end ← calc_end_date m2_start "3 months";
  d ← date_sub_days today 60;
  let m3_start := isoformat d in
  d ← date_sub_days today 2;
  let m3_end := isoformat d in
  s1 ← infer_status today m1_end;
  s2 ← infer_status today m2_end;
  s3 ← infer_status today m3_end;
  let m1 :=
    {| m_full_name := "Ahmed Hassan"; m_phone := "01000000001";
       m_national_id := Some "12345678901234"%string; m_join_date := join;
       m_plan_type := "1 month"; m_plan_price := FFinite false 300 0;
       m_start_date := m1_start; m_end_date := m1_end; m_status := s1 |} in
  let m2 :=
    {| m_full_name := "Mona Ali"; m_phone := "01000000002";
       m_national_id := None; m_join_date := join;
       m_plan_type := "3 months"; m_plan_price := FFinite false 800 0;
       m_start_date := m2_start; m_end_date := m2_end; m_status := s2 |} in
  let m3 :=
    {| m_full_name := "Omar Samy"; m_phone := "01000000003";
       m_national_id := None; m_join_date := join;
       m_plan_type := "1 month"; m_plan_price := FFinite false 300 0;
       m_start_date := m3_start; m_end_date := m3_end; m_status := s3 |} in
  r1 ← execute_insert id1 (INSERT_member m1) db;
  r2 ← execute_insert id2 (INSERT_member m2) r1.1;
  r3 ← execute_insert id3 (INSERT_member m3) r2.1;
  d ← date_sub_days today 60;
  executemany
    [(pid1, {| p_member_id := r1.2; p_amount := FFinite false 300 0;
               p_date := isoformat today; p_method := "cash";
               p_notes := Some "Sample payment"%string |});
     (pid2, {| p_member_id := r2.2; p_amount := FFinite false 800 0;
               p_date := isoformat today; p_method := "card";
               p_notes := Some "3-month plan paid"%string |});
     (pid3, {| p_member_id := r3.2; p_amount := FFinite false 300 0;
               p_date := isoformat d; p_method := "transfer";
               p_notes := Some "Old payment"%string |})]
    r3.1.

End UtilsSample.

Import UtilsSample.

(** ** Conditions on the stored rows *)

Module Invariants.

(** The statuses agree with the end dates. *)
Definition statuses_consistent (today : date) (db : database) : Prop :=
  map_Forall (fun _ r => infer_status today (m_end_date r) = Ok (m_status r))
    (members db).

(** The text [isoformat] writes for a date of the calendar. *)
Definition iso_text (s : string) (d : date) : Prop :=
  valid_date d /\ s = isoformat d.

(** A member row as the forms write it: name and phone not empty, start
    and end dates in ISO text with the end after the start, a status of
    the list and a price that is a number. *)
Definition member_wellformed (r : member_row) : Prop :=
  m_full_name r <> ""%string /\ m_phone r <> ""%string
  /\ (exists sd ed, iso_text (m_start_date r) sd
        /\ iso_text (m_end_date r) ed /\ date_lt sd ed)
  /\ status_check (m_status r) = true
  /\ real_not_null (m_plan_price r) = true.

Definition members_wellformed (db : database) : Prop :=
  map_Forall (fun _ r => member_wellformed r) (members db).

(** Every stored end date is the ISO text of a date. *)
Definition end_dates_iso (db : database) : Prop :=
  map_Forall (fun _ r => exists d, iso_text (m_end_date r) d) (members db).

(** One completed action on the stored data: a start of the application,
    a password change, a press on "Save", "Renew", "Record payment",
    "Insert sample data" or "Delete", or a page that refreshes the
    statuses. The dates are values of Python's [date]. *)
Inductive app_step : database -> database -> Prop :=
| step_init_db (rowid : Z) (now default_admin_hash : string) db db' :
    init_db rowid now default_admin_hash db = Ok db' -> app_step db db'
| step_change_password (bcrypt : Bcrypt) (salt username new_password : string)
    db db' :
    change_password salt db username new_password = Ok db' ->
    app_step db db'
| step_member_form (rowid : Z) (existing : option (Z * member_row))
    (full_name phone national_id : string) (join : date)
    (plan_type plan_price : string) (start end_ : date) (status : string)
    db db' (errors : list string) :
    valid_date start -> valid_date end_ ->
    member_form rowid existing full_name phone national_id join
      plan_type plan_price start end_ status db = Ok (db', errors) ->
    app_step db db'
| step_renew (today : date) (rowid member_id : Z)
    (plan_type plan_price : string) (start_choice : option date)
    (record_payment : bool) (pay_method pay_notes : string)
    db db' (outcome : result (list string)) :
    valid_date today ->
    (forall s, start_choice = Some s -> valid_date s) ->
    renew today rowid member_id plan_type plan_price start_choice
      record_payment pay_method pay_notes db = (db', outcome) ->
    app_step db db'
| step_record_payment (rowid member_id : Z) (amount : string)
    (pay_date : date) (method notes : string) db db'
    (err : option string) :
    record_payment rowid member_id amount pay_date method notes db
    = (db', err) ->
    app_step db db'
| step_insert_sample_data (today : date) (id1 id2 id3 pid1 pid2 pid3 : Z)
    db db' :
    valid_date today ->
    insert_sample_data today id1 id2 id3 pid1 pid2 pid3 db = Ok db' ->
    app_step db db'
| step_refresh (today : date) db db' :
    refresh_member_statuses today db = Ok db' -> app_step db db'
| step_delete_member (selected_id : Z) db db' :
    delete_member selected_id db = Ok db' -> app_step db db'.

Definition empty_database : database :=
  {| admin_users := ∅; members := ∅; payments := ∅; app_settings := ∅ |}.

(** The states these actions reach from an empty database. *)
Definition reachable (db : database) : Prop := rtc app_step empty_database db.

End Invariants.

Import Invariants.

(** * Properties *)

Section ResultMonad.

Context {A B : Type}.

Lemma bind_Ok (a : A) (f : A -> result B) : (Ok a ≫= f) = f a.
Proof. reflexivity. Qed.

Lemma bind_Raise (e : exn) (f : A -> result B) : (Raise e ≫= f) = Raise e.
Proof. reflexivity. Qed.

Lemma is_ok_true (m : result A) : is_ok m = true <-> exists a, m = Ok a.
Proof.
  destruct m as [a|e]; simpl; split; eauto.
  - intros H; discriminate H.
  - intros [a H]; discriminate H.
Qed.

Lemma is_ok_false (m : result A) : is_ok m = false <-> exists e, m = Raise e.
Proof.
  destruct m as [a|e]; simpl; split; eauto.
  - intros H; discriminate H.
  - intros [e H]; discriminate H.
Qed.

End ResultMonad.

(** ** Dates *)

Lemma date_eqb_eq (a b : date) : date_eqb a b = true -> a = b.
Proof.
  destruct a as [ya ma da], b as [yb mb db]. unfold date_eqb; simpl.
  rewrite !andb_true_iff, !Z.eqb_eq. intros [[-> ->] ->]. reflexivity.
Qed.

Lemma valid_dateb_spec (d : date) : valid_dateb d = true <-> valid_date d.
Proof.
  unfold valid_dateb, valid_date.
  rewrite !andb_true_iff, !Z.leb_le. tauto.
Qed.

Lemma new_date_valid (y m d : Z) :
  valid_date (Date y m d) -> new_date y m d = Ok (Date y m d).
Proof.
  intros H. unfold new_date. apply valid_dateb_spec in H. rewrite H.
  reflexivity.
Qed.

Lemma new_date_Ok (y m d : Z) (r : date) :
  new_date y m d = Ok r -> r = Date y m d /\ valid_date r.
Proof.
  unfold new_date. destruct (valid_dateb _) eqn:Hv; [|discriminate].
  intros Heq. inversion Heq; subst. split; [reflexivity|].
  apply valid_dateb_spec. exact Hv.
Qed.

Lemma fits_int_spec (z : Z) : fits_int z = true <-> INT_MIN <= z <= INT_MAX.
Proof. unfold fits_int. rewrite andb_true_iff, !Z.leb_le. tauto. Qed.

Lemma fits_int_small (z : Z) : 0 <= z <= 10000 -> fits_int z = true.
Proof. intros H. apply fits_int_spec. unfold INT_MIN, INT_MAX. lia. Qed.

Lemma month_cases (m : Z) :
  1 <= m <= 12 ->
  m = 1 \/ m = 2 \/ m = 3 \/ m = 4 \/ m = 5 \/ m = 6 \/ m = 7 \/ m = 8
  \/ m = 9 \/ m = 10 \/ m = 11 \/ m = 12.
Proof. lia. Qed.

Lemma days_in_month_bounds (y m : Z) :
  1 <= m <= 12 -> 28 <= _days_in_month y m <= 31.
Proof.
  intros Hm. unfold _days_in_month.
  destruct (month_cases m Hm) as [->|[->|[->|[->|[->|[->|[->|[->|[->|[->|[->| ->]]]]]]]]]]];
    destruct (_is_leap y); simpl; unfold table; simpl; lia.
Qed.

Lemma mk_date_valid (y m d : Z) :
  valid_date (Date y m d) -> mk_date y m d = Ok (Date y m d).
Proof.
  intros H. pose proof H as (Hy & Hm & Hd). simpl in Hy, Hm, Hd.
  unfold MINYEAR, MAXYEAR in Hy.
  pose proof (days_in_month_bounds y m Hm) as Hdim.
  unfold mk_date.
  rewrite !fits_int_small by lia. simpl andb. cbv iota.
  apply new_date_valid. exact H.
Qed.

(** A year beyond 9999: [ValueError] from the check of the fields, unless
    the year does not even fit a C [int]. *)
Lemma mk_date_year_out (y m d : Z) :
  MAXYEAR < y -> fits_int m = true -> fits_int d = true ->
  mk_date y m d
  = Raise (if y <=? INT_MAX then ValueError else OverflowError).
Proof.
  intros H Hm Hd. unfold mk_date. rewrite Hm, Hd, !andb_true_r.
  unfold fits_int.
  replace (INT_MIN <=? y) with true
    by (symmetry; apply Z.leb_le; unfold INT_MIN, MAXYEAR in *; lia).
  simpl andb. destruct (y <=? INT_MAX); [|reflexivity].
  unfold new_date, valid_dateb; simpl.
  replace (y <=? MAXYEAR) with false by (symmetry; apply Z.leb_gt; exact H).
  rewrite andb_false_r. reflexivity.
Qed.

(** *** The 400-year cycle *)

Lemma is_leap_period (y k : Z) : _is_leap (y + 400 * k) = _is_leap y.
Proof.
  unfold _is_leap.
  assert (H4 : (y + 400 * k) mod 4 = y mod 4)
    by (Z.div_mod_to_equations; lia).
  assert (H100 : (y + 400 * k) mod 100 = y mod 100)
    by (Z.div_mod_to_equations; lia).
  assert (H400 : (y + 400 * k) mod 400 = y mod 400)
    by (Z.div_mod_to_equations; lia).
  rewrite H4, H100, H400. reflexivity.
Qed.

Lemma days_before_year_period (y k : Z) :
  _days_before_year (y + 400 * k) = _days_before_year y + _DI400Y * k.
Proof.
  unfold _days_before_year, _DI400Y. cbv zeta.
  Z.div_mod_to_equations. lia.
Qed.

Lemma days_in_month_period (y m k : Z) :
  _days_in_month (y + 400 * k) m = _days_in_month y m.
Proof. unfold _days_in_month. rewrite is_leap_period. reflexivity. Qed.

Lemma ymd2ord_period (y m d k : Z) :
  _ymd2ord (y + 400 * k) m d = _ymd2ord y m d + _DI400Y * k.
Proof.
  unfold _ymd2ord, _days_before_month.
  rewrite days_before_year_period, is_leap_period. lia.
Qed.

Lemma ord2ymd_period (n k : Z) :
  _ord2ymd (n + _DI400Y * k) = shift_years k (_ord2ymd n).
Proof.
  unfold _ord2ymd. cbv zeta.
  replace (n + _DI400Y * k - 1) with (n - 1 + k * _DI400Y) by lia.
  rewrite Z.div_add by (unfold _DI400Y; lia).
  rewrite Z_mod_plus_full.
  set (r := (n - 1) mod _DI400Y).
  set (q := (n - 1) / _DI400Y).
  destruct ((r mod _DI100Y mod _DI4Y / 365 =? 4) || (r / _DI100Y =? 4)).
  - unfold shift_years; simpl. f_equal. lia.
  - destruct (_ <? _); unfold shift_years; simpl; f_equal; lia.
Qed.

Lemma forallb_cycle_days (f : Z -> Z -> Z -> bool) (y m d : Z) :
  forallb (fun ymd => f ymd.1.1 ymd.1.2 ymd.2) cycle_days = true ->
  1 <= y <= 400 -> 1 <= m <= 12 -> 1 <= d <= 31 -> f y m d = true.
Proof.
  intros Hall Hy Hm Hd.
  apply (proj1 (forallb_forall _ _) Hall (y, m, d)).
  unfold cycle_days.
  repeat apply in_prod; apply list_elem_of_In, elem_of_seqZ; lia.
Qed.

(** Day by day through one full cycle: the ordinal of a date leads back to
    the date. *)
Lemma cycle_ok :
  forallb
    (fun ymd =>
       (fun y m d =>
          if d <=? _days_in_month y m
          then date_eqb (_ord2ymd (_ymd2ord y m d)) (Date y m d)
          else true) ymd.1.1 ymd.1.2 ymd.2)
    cycle_days = true.
Proof. vm_compute. reflexivity. Qed.

Lemma ord2ymd_ymd2ord (y m d : Z) :
  1 <= y -> 1 <= m <= 12 -> 1 <= d <= _days_in_month y m ->
  _ord2ymd (_ymd2ord y m d) = Date y m d.
Proof.
  intros Hy Hm Hd.
  set (k := (y - 1) / 400). set (y0 := (y - 1) mod 400 + 1).
  assert (Hy0 : 1 <= y0 <= 400)
    by (unfold y0; pose proof (Z.mod_pos_bound (y - 1) 400); lia).
  assert (Hsplit : y = y0 + 400 * k)
    by (unfold y0, k; pose proof (Z.div_mod (y - 1) 400); lia).
  clearbody k y0. subst y.
  rewrite days_in_month_period in Hd.
  pose proof (days_in_month_bounds y0 m Hm) as Hdim.
  rewrite ymd2ord_period, ord2ymd_period.
  pose proof (forallb_cycle_days _ y0 m d cycle_ok Hy0 Hm ltac:(lia)) as Hok.
  cbv beta in Hok.
  replace (d <=? _days_in_month y0 m) with true in Hok
    by (symmetry; apply Z.leb_le; lia).
  apply date_eqb_eq in Hok. rewrite Hok. reflexivity.
Qed.

Lemma days_before_year_bounds (y : Z) :
  1 <= y <= 10000 ->
  365 * (y - 1) <= _days_before_year y <= 3652059 - 365 * (10000 - y).
Proof.
  intros Hy. unfold _days_before_year. cbv zeta.
  Z.div_mod_to_equations. lia.
Qed.

Lemma days_before_month_bounds (y m : Z) :
  1 <= m <= 12 -> 0 <= _days_before_month y m <= 335
  /\ (2 <= m -> 31 <= _days_before_month y m) /\ _days_before_month y 1 = 0.
Proof.
  intros Hm. unfold _days_before_month.
  destruct (month_cases m Hm) as [->|[->|[->|[->|[->|[->|[->|[->|[->|[->|[->| ->]]]]]]]]]]];
    destruct (_is_leap y); simpl; unfold table; simpl; lia.
Qed.

Lemma days_before_year_succ (y : Z) :
  _days_before_year (y + 1)
  = _days_before_year y + 365 + (if _is_leap y then 1 else 0).
Proof.
  unfold _days_before_year, _is_leap. cbv zeta.
  destruct (Z.eqb_spec (y mod 4) 0), (Z.eqb_spec (y mod 100) 0),
    (Z.eqb_spec (y mod 400) 0); simpl; Z.div_mod_to_equations; lia.
Qed.

Lemma days_before_month_succ (y m : Z) :
  1 <= m <= 11 ->
  _days_before_month y (m + 1) = _days_before_month y m + _days_in_month y m.
Proof.
  intros Hm. unfold _days_before_month, _days_in_month.
  assert (Hc : m = 1 \/ m = 2 \/ m = 3 \/ m = 4 \/ m = 5 \/ m = 6 \/ m = 7
               \/ m = 8 \/ m = 9 \/ m = 10 \/ m = 11) by lia.
  destruct Hc as [->|[->|[->|[->|[->|[->|[->|[->|[->|[->| ->]]]]]]]]]];
    destruct (_is_leap y); reflexivity.
Qed.

Lemma days_before_december (y : Z) :
  _days_before_month y 12 + _days_in_month y 12
  = 365 + (if _is_leap y then 1 else 0).
Proof.
  unfold _days_before_month, _days_in_month.
  destruct (_is_leap y); reflexivity.
Qed.

(** The ordinal of the first day of a month follows the ordinal of the
    last day of the month before. *)
Lemma toordinal_first_of_next_month (y m : Z) :
  1 <= m <= 12 ->
  toordinal (first_of_next_month y m)
  = _ymd2ord y m (_days_in_month y m) + 1.
Proof.
  intros Hm. unfold first_of_next_month, toordinal, _ymd2ord.
  destruct (Z.eqb_spec m 12) as [->|Hne]; simpl year; simpl month; simpl day.
  - pose proof (days_before_year_succ y).
    pose proof (days_before_december y).
    pose proof (days_before_month_bounds (y + 1) 1 ltac:(lia)). lia.
  - pose proof (days_before_month_succ y m ltac:(lia)). lia.
Qed.

Lemma toordinal_bounds (d : date) :
  valid_date d -> 1 <= toordinal d <= _MAXORDINAL.
Proof.
  intros (Hy & Hm & Hd). unfold MINYEAR, MAXYEAR in Hy.
  unfold toordinal, _ymd2ord, _MAXORDINAL.
  pose proof (days_before_year_bounds (year d) ltac:(lia)).
  pose proof (days_before_year_succ (year d)).
  pose proof (days_before_year_bounds (year d + 1) ltac:(lia)).
  assert (Hm' : month d = 12 \/ 1 <= month d <= 11) by lia.
  destruct Hm' as [H12|H11].
  - pose proof (days_before_december (year d)).
    pose proof (days_before_month_bounds (year d) 12 ltac:(lia)).
    rewrite H12 in *. lia.
  - pose proof (days_before_month_succ (year d) (month d) H11).
    pose proof (days_before_month_bounds (year d) (month d) ltac:(lia)).
    assert (Hle : _days_before_month (year d) (month d + 1)
                  <= 365 + (if _is_leap (year d) then 1 else 0) - 31).
    { unfold _days_before_month.
      assert (Hc : month d = 1 \/ month d = 2 \/ month d = 3 \/ month d = 4
                   \/ month d = 5 \/ month d = 6 \/ month d = 7
                   \/ month d = 8 \/ month d = 9 \/ month d = 10
                   \/ month d = 11) by lia.
      destruct Hc as [->|[->|[->|[->|[->|[->|[->|[->|[->|[->| ->]]]]]]]]]];
        destruct (_is_leap (year d)); simpl; unfold table; simpl; lia. }
    lia.
Qed.

Lemma toordinal_next_day (d : date) :
  1 <= month d <= 12 -> day d <= _days_in_month (year d) (month d) ->
  toordinal (next_day d) = toordinal d + 1.
Proof.
  intros Hm Hd. unfold next_day.
  destruct (Z.ltb_spec (day d) (_days_in_month (year d) (month d)))
    as [Hlt|Hge].
  - unfold toordinal, _ymd2ord; simpl. lia.
  - assert (Hlast : day d = _days_in_month (year d) (month d)) by lia.
    pose proof (toordinal_first_of_next_month (year d) (month d) Hm) as Hn.
    unfold first_of_next_month in Hn.
    destruct (Z.ltb_spec (month d) 12) as [Hm12|Hm12].
    + replace (month d =? 12) with false in Hn
        by (symmetry; apply Z.eqb_neq; lia).
      rewrite Hn. unfold toordinal. rewrite Hlast. reflexivity.
    + replace (month d =? 12) with true in Hn
        by (symmetry; apply Z.eqb_eq; lia).
      rewrite Hn. unfold toordinal. rewrite Hlast. reflexivity.
Qed.

Lemma next_day_valid (d : date) :
  valid_date d -> d <> Date MAXYEAR 12 31 -> valid_date (next_day d).
Proof.
  destruct d as [y m dd]. intros (Hy & Hm & Hd) Hmax.
  unfold MINYEAR, MAXYEAR in *. simpl in Hy, Hm, Hd.
  unfold next_day; simpl.
  destruct (Z.ltb_spec dd (_days_in_month y m)) as [Hlt|Hge].
  - unfold valid_date, MINYEAR, MAXYEAR; simpl. lia.
  - destruct (Z.ltb_spec m 12) as [Hm12|Hm12].
    + pose proof (days_in_month_bounds y (m + 1) ltac:(lia)).
      unfold valid_date, MINYEAR, MAXYEAR; simpl. lia.
    + assert (m = 12) by lia. subst m.
      assert (Hdd : dd = 31).
      { pose proof (days_in_month_bounds y 12 ltac:(lia)).
        unfold _days_in_month in *. simpl in *. unfold table in *. simpl in *.
        lia. }
      subst dd.
      assert (y <> 9999) by (intros ->; apply Hmax; reflexivity).
      pose proof (days_in_month_bounds (y + 1) 1 ltac:(lia)).
      unfold valid_date, MINYEAR, MAXYEAR; simpl. lia.
Qed.

(** [d + timedelta(days=1)] is the next day of the civil calendar, up to
    the last date there is. *)
Lemma date_add_days_one (d : date) :
  valid_date d -> d <> Date MAXYEAR 12 31 ->
  date_add_days d 1 = Ok (next_day d).
Proof.
  intros Hv Hmax.
  pose proof (next_day_valid d Hv Hmax) as Hnv.
  pose proof (toordinal_bounds _ Hnv) as Hb.
  pose proof Hv as (Hy & Hm & Hd).
  rewrite (toordinal_next_day d Hm (proj2 Hd)) in Hb.
  unfold date_add_days. cbv zeta.
  replace (0 <? toordinal d + 1) with true
    by (symmetry; apply Z.ltb_lt; lia).
  replace (toordinal d + 1 <=? _MAXORDINAL) with true
    by (symmetry; apply Z.leb_le; lia).
  simpl andb. cbv iota.
  rewrite <- (toordinal_next_day d Hm (proj2 Hd)).
  destruct Hnv as (Hy' & Hm' & Hd'). unfold MINYEAR in Hy'.
  unfold toordinal. rewrite ord2ymd_ymd2ord by lia.
  destruct (next_day d); reflexivity.
Qed.

Example date_add_days_max :
  date_add_days (Date MAXYEAR 12 31) 1 = Raise OverflowError.
Proof. reflexivity. Qed.

(** The day before the first of the next month, as [add_months] computes
    it with [next_month - timedelta(days=1)]. *)
Lemma last_day_of_month (y m : Z) :
  1 <= y <= 9999 -> 1 <= m <= 12 ->
  date_sub_days (first_of_next_month y m) 1
  = Ok (Date y m (_days_in_month y m)).
Proof.
  intros Hy Hm. unfold date_sub_days, date_add_days. cbv zeta.
  pose proof (days_in_month_bounds y m Hm) as Hdim.
  assert (Hv : valid_date (Date y m (_days_in_month y m)))
    by (unfold valid_date, MINYEAR, MAXYEAR; simpl; lia).
  pose proof (toordinal_bounds _ Hv) as Hb. unfold toordinal in Hb.
  simpl in Hb.
  rewrite (toordinal_first_of_next_month y m Hm).
  replace (_ymd2ord y m (_days_in_month y m) + 1 + - (1))
    with (_ymd2ord y m (_days_in_month y m)) by lia.
  replace (0 <? _ymd2ord y m (_days_in_month y m)) with true
    by (symmetry; apply Z.ltb_lt; lia).
  replace (_ymd2ord y m (_days_in_month y m) <=? _MAXORDINAL) with true
    by (symmetry; apply Z.leb_le; lia).
  simpl andb. cbv iota.
  rewrite ord2ymd_ymd2ord by lia. reflexivity.
Qed.

(** ** [add_months] *)

Lemma next_month_ok (y m : Z) :
  1 <= y <= 9999 -> 1 <= m <= 12 -> (y < 9999 \/ m < 12) ->
  (if m =? 12 then mk_date (y + 1) 1 1 else mk_date y (m + 1) 1)
  = Ok (first_of_next_month y m).
Proof.
  intros Hy Hm Hlast. unfold first_of_next_month.
  destruct (Z.eqb_spec m 12) as [->|Hne]; apply mk_date_valid.
  - pose proof (days_in_month_bounds (y + 1) 1 ltac:(lia)).
    unfold valid_date, MINYEAR, MAXYEAR; simpl. lia.
  - pose proof (days_in_month_bounds y (m + 1) ltac:(lia)).
    unfold valid_date, MINYEAR, MAXYEAR; simpl. lia.
Qed.

Lemma add_months_in_range (d : date) (n : Z) :
  let y := year d + (month d - 1 + n) / 12 in
  let m := (month d - 1 + n) mod 12 + 1 in
  1 <= day d -> 1 <= y <= 9999 -> (y < 9999 \/ m < 12) ->
  add_months d n = Ok (Date y m (Z.min (day d) (_days_in_month y m))).
Proof.
  intros y m Hd Hy Hlast.
  assert (Hm : 1 <= m <= 12)
    by (unfold m; pose proof (Z.mod_pos_bound (month d - 1 + n) 12); lia).
  unfold add_months. fold y. fold m. cbv zeta.
  rewrite (next_month_ok y m Hy Hm Hlast), bind_Ok.
  rewrite (last_day_of_month y m Hy Hm), bind_Ok.
  simpl day. apply mk_date_valid.
  pose proof (days_in_month_bounds y m Hm).
  unfold valid_date, MINYEAR, MAXYEAR; simpl. lia.
Qed.

(** Beyond year 9999 the first call of [date], for the month after the
    target month, raises. *)
Lemma add_months_beyond (d : date) (n : Z) :
  let y := year d + (month d - 1 + n) / 12 in
  let m := (month d - 1 + n) mod 12 + 1 in
  MAXYEAR < y ->
  add_months d n
  = Raise (if (if m =? 12 then y + 1 else y) <=? INT_MAX
           then ValueError else OverflowError).
Proof.
  intros y m Hy.
  assert (Hm : 1 <= m <= 12)
    by (unfold m; pose proof (Z.mod_pos_bound (month d - 1 + n) 12); lia).
  unfold add_months. fold y. fold m. cbv zeta.
  destruct (m =? 12).
  - rewrite mk_date_year_out
      by (try apply fits_int_small; unfold MAXYEAR in *; lia).
    reflexivity.
  - rewrite mk_date_year_out
      by (try apply fits_int_small; unfold MAXYEAR in *; lia).
    reflexivity.
Qed.

(** C3, as amended. For every valid date [d] and month count [n >= 0] whose
    target month comes before December 9999, [add_months d n] returns the
    valid date whose month is [n] months after the month of [d] and whose
    day is the day of [d] clamped to the last valid day of that month. A
    target month beyond year 9999 gives no date: [date] raises on the month
    after the target month, [ValueError] while the year of that month fits a
    C [int] and [OverflowError] when it does not. In particular 2024-01-31
    plus one month is 2024-02-29 and 2023-01-31 plus one month is
    2023-02-28. (The target month December 9999 is left out.) *)
Theorem add_months_civil :
  (forall d n, valid_date d -> 0 <= n ->
     month_index d + n < month_index (Date MAXYEAR 12 1) ->
     exists r, add_months d n = Ok r /\ valid_date r
       /\ month_index r = month_index d + n
       /\ day r = Z.min (day d) (_days_in_month (year r) (month r)))
  /\ (forall d n, valid_date d -> 0 <= n ->
        month_index (Date MAXYEAR 12 1) < month_index d + n ->
        add_months d n
        = Raise (if (month_index d + n + 1) / 12 <=? INT_MAX
                 then ValueError else OverflowError))
  /\ add_months (Date 2024 1 31) 1 = Ok (Date 2024 2 29)
  /\ add_months (Date 2023 1 31) 1 = Ok (Date 2023 2 28).
Proof.
  split; [|split; [|split; reflexivity]].
  - intros d n (Hy & Hm & Hd) Hn Hidx.
    unfold month_index, MINYEAR, MAXYEAR in *; simpl in Hidx.
    pose proof (Z.div_mod (month d - 1 + n) 12 ltac:(lia)) as Hdm.
    pose proof (Z.mod_pos_bound (month d - 1 + n) 12 ltac:(lia)) as Hmod.
    assert (Hq : 0 <= (month d - 1 + n) / 12)
      by (apply Z.div_pos; lia).
    eexists. split.
    + apply add_months_in_range; lia.
    + simpl. split; [|split; [lia | reflexivity]].
      pose proof (days_in_month_bounds
                    (year d + (month d - 1 + n) / 12)
                    ((month d - 1 + n) mod 12 + 1) ltac:(lia)).
      unfold valid_date, MINYEAR, MAXYEAR; simpl. lia.
  - intros d n (Hy & Hm & Hd) Hn Hidx.
    unfold month_index, MINYEAR, MAXYEAR in *; simpl in Hidx.
    pose proof (Z.div_mod (month d - 1 + n) 12 ltac:(lia)) as Hdm.
    pose proof (Z.mod_pos_bound (month d - 1 + n) 12 ltac:(lia)) as Hmod.
    rewrite add_months_beyond by (unfold MAXYEAR; lia).
    replace ((12 * year d + (month d - 1) + n + 1) / 12)
      with (if (month d - 1 + n) mod 12 + 1 =? 12
            then year d + (month d - 1 + n) / 12 + 1
            else year d + (month d - 1 + n) / 12); [reflexivity|].
    destruct (Z.eqb_spec ((month d - 1 + n) mod 12 + 1) 12) as [He|He].
    + apply Z.div_unique with (r := 0); lia.
    + apply Z.div_unique with (r := (month d - 1 + n) mod 12 + 1); lia.
Qed.

Lemma add_months_civil_witness :
  (exists r, add_months (Date 2024 1 31) 1 = Ok r /\ valid_date r
     /\ month_index r = month_index (Date 2024 1 31) + 1
     /\ day r = Z.min 31 (_days_in_month (year r) (month r)))
  /\ add_months (Date 9999 12 31) 1 = Raise ValueError
  /\ add_months (Date 2024 1 31) (12 * 2147483648) = Raise OverflowError.
Proof.
  split; [|split].
  - apply (proj1 add_months_civil (Date 2024 1 31) 1).
    + apply valid_dateb_spec. reflexivity.
    + lia.
    + reflexivity.
  - apply (proj1 (proj2 add_months_civil) (Date 9999 12 31) 1).
    + apply valid_dateb_spec. reflexivity.
    + lia.
    + reflexivity.
  - apply (proj1 (proj2 add_months_civil) (Date 2024 1 31) (12 * 2147483648)).
    + apply valid_dateb_spec. reflexivity.
    + lia.
    + reflexivity.
Defined.

(** C3 as stated fails: 9999-12-31 is a valid date and 1 a month count, yet
    [add_months] returns no date there ([date(10000, 2, 1)] raises
    [ValueError]). *)
Lemma add_months_total_counterexample :
  ~ (forall d n, valid_date d -> 0 <= n ->
       exists r, add_months d n = Ok r
         /\ month_index r = month_index d + n
         /\ day r = Z.min (day d) (_days_in_month (year r) (month r))).
Proof.
  intros Hclaim.
  destruct (Hclaim (Date 9999 12 31) 1) as (r & Hr & _).
  - apply valid_dateb_spec. reflexivity.
  - lia.
  - vm_compute in Hr. discriminate Hr.
Qed.

(** The month of December 9999 exists, but [add_months] cannot reach it:
    it asks for the first day of January 10000. *)
Example add_months_december_9999 :
  add_months (Date 9999 11 15) 1 = Raise ValueError
  /\ mk_date 9999 12 15 = Ok (Date 9999 12 15).
Proof. split; reflexivity. Qed.

(** ** Text form of dates *)

Lemma digit_char_ok (k : Z) :
  0 <= k <= 9 -> is_digit (digit_char k) = true /\ digit_val (digit_char k) = k.
Proof.
  intros Hk.
  assert (Hc : k = 0 \/ k = 1 \/ k = 2 \/ k = 3 \/ k = 4 \/ k = 5 \/ k = 6
               \/ k = 7 \/ k = 8 \/ k = 9) by lia.
  destruct Hc as [->|[->|[->|[->|[->|[->|[->|[->|[->| ->]]]]]]]]];
    split; reflexivity.
Qed.

Lemma four_digits (y : Z) :
  0 <= y <= 9999 ->
  (0 <= y / 1000 <= 9 /\ 0 <= y / 100 mod 10 <= 9
   /\ 0 <= y / 10 mod 10 <= 9 /\ 0 <= y mod 10 <= 9)
  /\ 1000 * (y / 1000) + 100 * (y / 100 mod 10) + 10 * (y / 10 mod 10)
     + y mod 10 = y.
Proof. intros Hy. Z.div_mod_to_equations. lia. Qed.

Lemma two_digits (m : Z) :
  0 <= m <= 99 ->
  (0 <= m / 10 <= 9 /\ 0 <= m mod 10 <= 9) /\ 10 * (m / 10) + m mod 10 = m.
Proof. intros Hm. Z.div_mod_to_equations. lia. Qed.

Lemma parse_digits_digit (k : nat) (var x : Z) (p : list ascii) :
  0 <= x <= 9 ->
  parse_digits (S k) var (digit_char x :: p)
  = parse_digits k (var * 10 + x) p.
Proof.
  intros Hx. destruct (digit_char_ok x Hx) as [H1 H2].
  change (parse_digits (S k) var (digit_char x :: p))
    with (if is_digit (digit_char x)
          then parse_digits k (var * 10 + digit_val (digit_char x)) p
          else None).
  rewrite H1, H2. reflexivity.
Qed.

Lemma starts_with_digit (c : ascii) (x : Z) (p : list ascii) :
  0 <= x <= 9 -> is_digit c = false ->
  starts_with c (digit_char x :: p) = false.
Proof.
  intros Hx Hc. unfold starts_with.
  destruct (Ascii.eqb_spec (digit_char x) c) as [<-|]; [|reflexivity].
  rewrite (proj1 (digit_char_ok x Hx)) in Hc. discriminate Hc.
Qed.

(** Reading back what [isoformat] wrote gives the date again. *)
Lemma fromisoformat_isoformat (d : date) :
  valid_date d -> fromisoformat (isoformat d) = Ok d.
Proof.
  destruct d as [y m dd]. intros Hv.
  pose proof Hv as (Hy & Hm & Hd). simpl in Hy, Hm, Hd.
  unfold MINYEAR, MAXYEAR in *.
  pose proof (days_in_month_bounds y m Hm) as Hdim.
  destruct (four_digits y ltac:(lia)) as ((Hy1 & Hy2 & Hy3 & Hy4) & Hysum).
  destruct (two_digits m ltac:(lia)) as ((Hm1 & Hm2) & Hmsum).
  destruct (two_digits dd ltac:(lia)) as ((Hd1 & Hd2) & Hdsum).
  unfold fromisoformat, isoformat.
  cbn [year month day list_ascii_of_string].
  change (Z.of_nat (length (_ :: _ :: _ :: _ :: _ :: _ :: _ :: _ :: _ :: _
                             :: []))) with 10.
  change ((10 =? 7) || (10 =? 8) || (10 =? 10)) with true. cbv iota zeta.
  unfold parse_isoformat_date.
  rewrite !parse_digits_digit by assumption.
  change (parse_digits 0 ?v ?p) with (Some (v, p)).
  cbn [mbind option_bind starts_with tail].
  change (Ascii.eqb "-" "-") with true. cbv iota.
  rewrite (starts_with_digit "W" _ _ Hm1 eq_refl).
  rewrite !parse_digits_digit by assumption.
  change (parse_digits 0 ?v ?p) with (Some (v, p)).
  cbn [mbind option_bind starts_with tail andb negb].
  change (Ascii.eqb "-" "-") with true. cbn [negb].
  rewrite !parse_digits_digit by assumption.
  change (parse_digits 0 ?v ?p) with (Some (v, p)).
  cbn [mbind option_bind year month day].
  replace ((((0 * 10 + y / 1000) * 10 + y / 100 mod 10) * 10
            + y / 10 mod 10) * 10 + y mod 10) with y by lia.
  replace ((0 * 10 + m / 10) * 10 + m mod 10) with m by lia.
  replace ((0 * 10 + dd / 10) * 10 + dd mod 10) with dd by lia.
  apply new_date_valid. exact Hv.
Qed.

(** ** Order of dates *)

Lemma date_cmp_spec (a b : date) :
  match date_cmp a b with
  | Lt => date_lt a b
  | Eq => a = b
  | Gt => date_lt b a
  end.
Proof.
  destruct a as [ya ma da], b as [yb mb db].
  unfold date_cmp, date_lt; simpl.
  destruct (Z.compare_spec ya yb) as [->| |]; [|lia|lia].
  destruct (Z.compare_spec ma mb) as [->| |]; [|lia|lia].
  destruct (Z.compare_spec da db) as [->| |]; [reflexivity|lia|lia].
Qed.

Lemma date_lt_irrefl (a : date) : ~ date_lt a a.
Proof. unfold date_lt. lia. Qed.

Lemma date_lt_asym (a b : date) : date_lt a b -> ~ date_lt b a.
Proof. unfold date_lt. lia. Qed.

Lemma date_geb_spec (a b : date) : date_geb a b = true <-> date_le b a.
Proof.
  unfold date_geb, date_le. pose proof (date_cmp_spec a b) as H.
  destruct (date_cmp a b); split; intros H'; try reflexivity; auto.
  - discriminate H'.
  - destruct H' as [H'| ->].
    + exfalso. exact (date_lt_asym _ _ H H').
    + exfalso. exact (date_lt_irrefl _ H).
Qed.

Lemma date_leb_spec (a b : date) : date_leb a b = true <-> date_le a b.
Proof.
  unfold date_leb, date_le. pose proof (date_cmp_spec a b) as H.
  destruct (date_cmp a b); split; intros H'; try reflexivity; auto.
  - discriminate H'.
  - destruct H' as [H'| ->].
    + exfalso. exact (date_lt_asym _ _ H H').
    + exfalso. exact (date_lt_irrefl _ H).
Qed.

(** ** [infer_status] *)



(** ** [calc_end_date] *)

Lemma PLAN_MONTHS_get (t : string) :
  default 1 (PLAN_MONTHS !! t)
  = if String.eqb t "1 month" then 1
    else if String.eqb t "3 months" then 3
    else if String.eqb t "6 months" then 6
    else if String.eqb t "12 months" then 12
    else 1.
Proof.
  unfold PLAN_MONTHS.
  rewrite !list_to_map_cons, list_to_map_nil.
  destruct (String.eqb_spec t "1 month") as [->|H1].
  { rewrite lookup_insert_eq. reflexivity. }
  rewrite lookup_insert_ne by congruence.
  destruct (String.eqb_spec t "3 months") as [->|H3].
  { rewrite lookup_insert_eq. reflexivity. }
  rewrite lookup_insert_ne by congruence.
  destruct (String.eqb_spec t "6 months") as [->|H6].
  { rewrite lookup_insert_eq. reflexivity. }
  rewrite lookup_insert_ne by congruence.
  destruct (String.eqb_spec t "12 months") as [->|H12].
  { rewrite lookup_insert_eq. reflexivity. }
  rewrite lookup_insert_ne by congruence.
  rewrite lookup_empty. reflexivity.
Qed.

(** C5. For a start string that reads as the ISO date [d],
    [calc_end_date] is the ISO text of [add_months d m], with [m] the month
    count of the plan type in the enumeration 1/3/6/12 months and [m = 1]
    for every other plan type; [calc_end_date "2024-01-15" "3 months"] is
    "2024-04-15". *)
Theorem calc_end_date_spec :
  (forall s d t m, parse_iso s = Ok d ->
     In (t, m) [("1 month"%string, 1); ("3 months"%string, 3);
                ("6 months"%string, 6); ("12 months"%string, 12)] ->
     calc_end_date s t = isoformat <$> add_months d m)
  /\ (forall s d t, parse_iso s = Ok d ->
        ~ In t ["1 month"%string; "3 months"%string; "6 months"%string;
                "12 months"%string] ->
        calc_end_date s t = isoformat <$> add_months d 1)
  /\ calc_end_date "2024-01-15" "3 months" = Ok "2024-04-15"%string.
Proof.
  assert (Hcalc : forall s d t, parse_iso s = Ok d ->
            calc_end_date s t
            = isoformat <$> add_months d (default 1 (PLAN_MONTHS !! t))).
  { intros s d t Hs. unfold calc_end_date. rewrite Hs, bind_Ok.
    destruct (add_months d _); reflexivity. }
  split; [|split].
  - intros s d t m Hs Hin. rewrite (Hcalc s d t Hs), PLAN_MONTHS_get.
    simpl in Hin.
    destruct Hin as [H|[H|[H|[H|[]]]]]; inversion H; subst; reflexivity.
  - intros s d t Hs Hnot. rewrite (Hcalc s d t Hs), PLAN_MONTHS_get.
    simpl in Hnot.
    destruct (String.eqb_spec t "1 month"); [exfalso; auto|].
    destruct (String.eqb_spec t "3 months"); [exfalso; auto|].
    destruct (String.eqb_spec t "6 months"); [exfalso; auto|].
    destruct (String.eqb_spec t "12 months"); [exfalso; auto 6|].
    reflexivity.
  - vm_compute. reflexivity.
Qed.

Lemma calc_end_date_spec_witness :
  calc_end_date "2024-01-31" "6 months"
  = isoformat <$> add_months (Date 2024 1 31) 6
  /\ calc_end_date "2024-01-31" "weekly"
     = isoformat <$> add_months (Date 2024 1 31) 1.
Proof.
  split.
  - apply (proj1 calc_end_date_spec "2024-01-31"%string (Date 2024 1 31)
             "6 months"%string 6).
    + reflexivity.
    + simpl. tauto.
  - apply (proj1 (proj2 calc_end_date_spec) "2024-01-31"%string
             (Date 2024 1 31) "weekly"%string).
    + reflexivity.
    + simpl. intros [H|[H|[H|[H|[]]]]]; discriminate H.
Defined.

(** ** Renewal default start date *)

(** C6. For a member whose stored end date reads as [e]: if [e] is after
    today the default start date of the renewal is [e] plus one day, and if
    [e] is before today it is today. *)
Theorem renewal_default_start_spec (today : date) (m : member_row) (e : date) :
  parse_iso (m_end_date m) = Ok e ->
  (date_lt today e -> renewal_default_start today m = date_add_days e 1)
  /\ (date_lt e today -> renewal_default_start today m = Ok today).
Proof.
  intros He. unfold renewal_default_start. rewrite He, bind_Ok.
  pose proof (date_geb_spec e today) as Hge.
  destruct (date_geb e today); split; intros H.
  - reflexivity.
  - assert (Hle : date_le today e) by (apply Hge; reflexivity).
    destruct Hle as [Hlt| ->].
    + exfalso. exact (date_lt_asym _ _ H Hlt).
    + exfalso. exact (date_lt_irrefl _ H).
  - assert (Hf : false = true) by (apply Hge; left; exact H).
    discriminate Hf.
  - reflexivity.
Qed.

Lemma renewal_default_start_spec_witness :
  renewal_default_start (Date 2024 5 10) (member_ending "2024-06-30" "active")
  = Ok (Date 2024 7 1)
  /\ renewal_default_start (Date 2024 5 10)
       (member_ending "2024-04-01" "expired")
     = Ok (Date 2024 5 10).
Proof.
  split.
  - change (Ok (Date 2024 7 1)) with (date_add_days (Date 2024 6 30) 1).
    apply (proj1 (renewal_default_start_spec (Date 2024 5 10)
                    (member_ending "2024-06-30" "active") (Date 2024 6 30)
                    eq_refl)).
    unfold date_lt; simpl. lia.
  - apply (proj2 (renewal_default_start_spec (Date 2024 5 10)
                    (member_ending "2024-04-01" "expired") (Date 2024 4 1)
                    eq_refl)).
    unfold date_lt; simpl. lia.
Defined.

Lemma fromisoformat_valid (s : string) (d : date) :
  fromisoformat s = Ok d -> valid_date d.
Proof.
  unfold fromisoformat. cbv zeta.
  destruct (_ || _); [|discriminate].
  destruct (parse_isoformat_date _) as [r|]; [|discriminate].
  intros H. apply new_date_Ok in H. apply H.
Qed.

(** For an active member the default start is the next day of the civil
    calendar, unless the membership ends on the last date there is. *)
Lemma renewal_default_start_next_day
    (today : date) (m : member_row) (e : date) :
  parse_iso (m_end_date m) = Ok e -> date_le today e ->
  e <> Date MAXYEAR 12 31 ->
  renewal_default_start today m = Ok (next_day e).
Proof.
  intros He Hle Hmax. unfold renewal_default_start. rewrite He, bind_Ok.
  replace (date_geb e today) with true
    by (symmetry; apply date_geb_spec; exact Hle).
  apply date_add_days_one; [|exact Hmax].
  exact (fromisoformat_valid _ _ He).
Qed.

(** On the last day of a membership the member is still active, and the
    default start is the next day. *)
Lemma renewal_default_start_on_end_day (today : date) (m : member_row) :
  parse_iso (m_end_date m) = Ok today ->
  renewal_default_start today m = date_add_days today 1.
Proof.
  intros He. unfold renewal_default_start. rewrite He, bind_Ok.
  replace (date_geb today today) with true; [reflexivity|].
  symmetry. apply date_geb_spec. right. reflexivity.
Qed.

(** ** [validate_member_inputs] *)

Lemma validate_member_inputs_eq
    (full_name phone : string) (plan_price : pyval)
    (start_date end_date : string) :
  validate_member_inputs full_name phone plan_price start_date end_date
  = Ok ((if String.eqb (strip full_name) "" then [E_NAME] else [])
        ++ (if String.eqb (strip phone) "" then [E_PHONE] else [])
        ++ (if is_ok (float plan_price) then [] else [E_PRICE])
        ++ date_errors start_date end_date).
Proof.
  unfold validate_member_inputs, date_errors.
  destruct (String.eqb (strip full_name) "");
    destruct (String.eqb (strip phone) "");
    destruct (float plan_price) as [f|e];
    destruct (parse_iso start_date) as [sd|e1];
    destruct (parse_iso end_date) as [ed|e2];
    simpl; try destruct (date_leb ed sd); reflexivity.
Qed.

Lemma date_errors_malformed (start_date end_date : string) :
  is_ok (parse_iso start_date) = false \/ is_ok (parse_iso end_date) = false ->
  date_errors start_date end_date = [E_DATES].
Proof.
  unfold date_errors.
  destruct (parse_iso start_date), (parse_iso end_date); simpl;
    intros [H|H]; try discriminate H; reflexivity.
Qed.

Lemma date_errors_no_price (start_date end_date : string) :
  ~ In E_PRICE (date_errors start_date end_date).
Proof.
  unfold date_errors.
  destruct (parse_iso start_date) as [sd|], (parse_iso end_date) as [ed|];
    try destruct (date_leb ed sd); simpl; intuition discriminate.
Qed.

Ltac split_errors H :=
  repeat (apply in_app_or in H; destruct H as [H|H]);
  repeat match type of H with
         | In _ (if ?b then _ else _) => destruct b
         end;
  simpl in H.

(** C7. For all string arguments and every price value,
    [validate_member_inputs] returns a list of errors and does not raise;
    when the start date or the end date does not parse as an ISO date, the
    list holds the date-format error and not the ordering error. *)
Theorem validate_member_inputs_total
    (full_name phone : string) (plan_price : pyval)
    (start_date end_date : string) :
  exists errors,
    validate_member_inputs full_name phone plan_price start_date end_date
    = Ok errors
    /\ (is_ok (parse_iso start_date) = false
        \/ is_ok (parse_iso end_date) = false ->
        In E_DATES errors /\ ~ In E_ORDER errors).
Proof.
  eexists. split; [apply validate_member_inputs_eq|].
  intros Hbad. rewrite (date_errors_malformed _ _ Hbad). split.
  - do 3 (apply in_or_app; right). left. reflexivity.
  - intros H. split_errors H;
      repeat match goal with
             | H : _ \/ _ |- _ => destruct H as [H|H]
             | H : False |- _ => destruct H
             | H : _ = E_ORDER |- _ => discriminate H
             end.
Qed.

Lemma validate_member_inputs_total_witness :
  exists errors,
    validate_member_inputs "Jane Doe" "0100000000" (PStr "300")
      "2024-02-30" "2024-01-01" = Ok errors
    /\ In E_DATES errors /\ ~ In E_ORDER errors.
Proof.
  destruct (validate_member_inputs_total "Jane Doe" "0100000000" (PStr "300")
              "2024-02-30" "2024-01-01") as (errors & Hrun & Hdates).
  exists errors. split; [exact Hrun|].
  apply Hdates. left. reflexivity.
Defined.

(** The price error is reported exactly when [float] raises on the price:
    the sign of a price that parses is not looked at. *)
Lemma validate_price_numeric
    (full_name phone : string) (plan_price : pyval)
    (start_date end_date : string) :
  exists errors,
    validate_member_inputs full_name phone plan_price start_date end_date
    = Ok errors
    /\ (In E_PRICE errors <-> is_ok (float plan_price) = false)
    /\ (forall f, float plan_price = Ok f -> ~ In E_PRICE errors).
Proof.
  eexists. split; [apply validate_member_inputs_eq|].
  assert (Hiff :
    In E_PRICE
      ((if String.eqb (strip full_name) "" then [E_NAME] else [])
       ++ (if String.eqb (strip phone) "" then [E_PHONE] else [])
       ++ (if is_ok (float plan_price) then [] else [E_PRICE])
       ++ date_errors start_date end_date)
    <-> is_ok (float plan_price) = false).
  { split.
    - intros H.
      apply in_app_or in H. destruct H as [H|H].
      { destruct (String.eqb _ _); simpl in H; [|destruct H].
        destruct H as [H|[]]; discriminate H. }
      apply in_app_or in H. destruct H as [H|H].
      { destruct (String.eqb _ _); simpl in H; [|destruct H].
        destruct H as [H|[]]; discriminate H. }
      apply in_app_or in H. destruct H as [H|H].
      { destruct (is_ok (float plan_price)); [destruct H | reflexivity]. }
      exfalso. exact (date_errors_no_price _ _ H).
    - intros H. rewrite H.
      do 2 (apply in_or_app; right). apply in_or_app. left. left.
      reflexivity. }
  split; [exact Hiff|].
  intros f Hf Hin. apply Hiff in Hin. rewrite Hf in Hin. discriminate Hin.
Qed.

Lemma validate_price_numeric_witness :
  exists errors,
    validate_member_inputs "Jane Doe" "0100000000" (PStr "-5")
      "2024-01-01" "2024-02-01" = Ok errors
    /\ ~ In E_PRICE errors.
Proof.
  destruct (validate_price_numeric "Jane Doe" "0100000000" (PStr "-5")
              "2024-01-01" "2024-02-01") as (errors & Hrun & _ & Hnum).
  exists errors. split; [exact Hrun|].
  apply (Hnum (FFinite true 5 0)). reflexivity.
Defined.

(** No price is rejected for being negative. *)
Lemma negative_price_not_rejected :
  ~ (forall full_name phone s f start_date end_date,
       float (PStr s) = Ok f -> is_negative f = true ->
       exists errors,
         validate_member_inputs full_name phone (PStr s) start_date end_date
         = Ok errors
         /\ errors <> [] /\ In E_PRICE errors).
Proof.
  intros Hclaim.
  destruct (Hclaim "Jane Doe"%string "0100000000"%string "-5"%string
              (FFinite true 5 0) "2024-01-01"%string "2024-02-01"%string
              eq_refl eq_refl) as (errors & Hrun & Hne & _).
  vm_compute in Hrun. inversion Hrun as [Herr].
  apply Hne. symmetry. exact Herr.
Qed.

(** C2. On the price "-5" the code does not do what the claim says: [float]
    reads it as the negative number -5, and with a name, a phone and dates
    that are valid [validate_member_inputs] returns the empty list, so the
    negative price is accepted without a price error. *)
Theorem negative_price_accepted :
  float (PStr "-5") = Ok (FFinite true 5 0)
  /\ is_negative (FFinite true 5 0) = true
  /\ validate_member_inputs "Jane Doe" "0100000000" (PStr "-5")
       "2024-01-01" "2024-02-01" = Ok [].
Proof. split; [|split]; vm_compute; reflexivity. Qed.

(** ** The status-refresh pass *)

Lemma database_eq (a b : database) :
  admin_users a = admin_users b -> members a = members b ->
  payments a = payments b -> app_settings a = app_settings b -> a = b.
Proof.
  destruct a, b; simpl. intros -> -> -> ->. reflexivity.
Qed.

Lemma infer_status_ok (today : date) (r : member_row) :
  is_ok (parse_iso (m_end_date r)) = true ->
  infer_status today (m_end_date r) = Ok (status_of today r)
  /\ status_check (status_of today r) = true.
Proof.
  intros Hok. unfold status_of, infer_status.
  destruct (parse_iso (m_end_date r)) as [d|e]; [|discriminate Hok].
  rewrite bind_Ok. destruct (date_geb d today); split; reflexivity.
Qed.

Lemma refreshed_set_status (today : date) (s : string) (r : member_row) :
  is_ok (parse_iso (m_end_date r)) = true ->
  refreshed today (set_status s r) = refreshed today r.
Proof.
  intros Hok. unfold refreshed, status_of, infer_status; simpl.
  destruct (parse_iso (m_end_date r)) as [d|e]; [|discriminate Hok].
  reflexivity.
Qed.

Lemma execute_update_status (s : string) (i : Z) (db : database) :
  status_check s = true ->
  exists db', execute (UPDATE_member_status s i) db = Ok db'
    /\ members db' = alter (set_status s) i (members db)
    /\ admin_users db' = admin_users db /\ payments db' = payments db
    /\ app_settings db' = app_settings db.
Proof.
  intros Hs. unfold execute, conn_execute.
  destruct (members db !! i) as [r|] eqn:Hi.
  - rewrite Hs. eexists. split; [reflexivity|]. simpl.
    split; [|auto]. apply map_eq. intros j.
    rewrite lookup_insert, lookup_alter.
    case_decide; subst; [rewrite Hi|]; reflexivity.
  - exists db. split; [reflexivity|]. split; [|auto].
    apply map_eq. intros j. rewrite lookup_alter.
    case_decide; subst; [rewrite Hi|]; reflexivity.
Qed.

Lemma refresh_rows_spec (today : date) (rows : list (Z * string)) :
  forall db,
    (forall i e, (i, e) ∈ rows ->
       exists r, members db !! i = Some r /\ m_end_date r = e
         /\ is_ok (parse_iso e) = true) ->
    exists db', refresh_rows today rows db = Ok db'
      /\ (forall i, members db' !! i
            = (fun r => if bool_decide (i ∈ rows.*1)
                        then refreshed today r else r) <$> members db !! i)
      /\ admin_users db' = admin_users db /\ payments db' = payments db
      /\ app_settings db' = app_settings db.
Proof.
  induction rows as [|[i0 e0] rows IH]; intros db Hrows.
  - exists db. split; [reflexivity|]. split; [|auto].
    intros i. destruct (members db !! i); reflexivity.
  - destruct (Hrows i0 e0 (list_elem_of_here _ _)) as (r0 & Hr0 & He0 & Hok0).
    subst e0.
    destruct (infer_status_ok today r0 Hok0) as [Hinf Hchk].
    destruct (execute_update_status _ i0 db Hchk)
      as (db1 & Hexec & Hm1 & Ha1 & Hp1 & Hs1).
    destruct (IH db1) as (db' & Hrun & Hm' & Ha' & Hp' & Hs').
    { intros i e Hin.
      destruct (Hrows i e (list_elem_of_further _ _ _ Hin))
        as (r & Hr & He & Hok).
      rewrite Hm1, lookup_alter.
      case_decide; subst.
      - rewrite Hr0 in Hr. inversion Hr; subst r0. rewrite Hr0. simpl. eauto.
      - eauto. }
    exists db'. split.
    { cbn [refresh_rows fst snd].
      rewrite Hinf, bind_Ok, Hexec, bind_Ok. exact Hrun. }
    split; [|repeat split; congruence].
    intros i. rewrite Hm', Hm1, lookup_alter. simpl.
    destruct (decide (i0 = i)) as [->|Hne].
    + rewrite Hr0. simpl.
      rewrite (bool_decide_eq_true_2 (i ∈ i :: _))
        by apply list_elem_of_here.
      case_bool_decide.
      * rewrite refreshed_set_status by exact Hok0. reflexivity.
      * reflexivity.
    + destruct (members db !! i) as [r|]; simpl; [|reflexivity].
      f_equal. rewrite !bool_decide_decide.
      destruct (decide (i ∈ rows.*1)) as [Hin|Hnin].
      * destruct (decide (i ∈ i0 :: _)) as [|Hn]; [reflexivity|].
        exfalso. apply Hn. apply list_elem_of_further. exact Hin.
      * destruct (decide (i ∈ i0 :: _)) as [Hin|]; [|reflexivity].
        apply elem_of_cons in Hin. destruct Hin as [->|Hin]; contradiction.
Qed.

Lemma fetch_member_end_dates_spec (db : database) (i : Z) (e : string) :
  (i, e) ∈ fetch_member_end_dates db
  <-> exists r, members db !! i = Some r /\ m_end_date r = e.
Proof.
  unfold fetch_member_end_dates. rewrite list_elem_of_fmap. split.
  - intros ([j r] & Heq & Hin). simpl in Heq. inversion Heq; subst.
    apply elem_of_map_to_list in Hin. eauto.
  - intros (r & Hr & He). exists (i, r). simpl. split; [congruence|].
    apply elem_of_map_to_list. exact Hr.
Qed.

Lemma refresh_member_statuses_run (today : date) (db : database) :
  end_dates_valid db ->
  refresh_member_statuses today db
  = Ok {| admin_users := admin_users db;
          members := refreshed today <$> members db;
          payments := payments db;
          app_settings := app_settings db |}.
Proof.
  intros Hvalid. unfold refresh_member_statuses. cbv zeta.
  destruct (refresh_rows_spec today (fetch_member_end_dates db) db)
    as (db' & Hrun & Hm & Ha & Hp & Hs).
  { intros i e Hin. apply fetch_member_end_dates_spec in Hin.
    destruct Hin as (r & Hr & He). exists r. subst e. eauto. }
  rewrite Hrun. f_equal. apply database_eq; simpl; auto.
  apply map_eq. intros i. rewrite Hm, lookup_fmap.
  destruct (members db !! i) as [r|] eqn:Hi; simpl; [|reflexivity].
  rewrite bool_decide_eq_true_2; [reflexivity|].
  apply list_elem_of_fmap. exists (i, m_end_date r). split; [reflexivity|].
  apply fetch_member_end_dates_spec. eauto.
Qed.

(** C8. On a database whose end dates are ISO dates, the refresh pass
    returns a database in which every member row has the status
    [infer_status] gives its end date and is otherwise the row it was, no
    row is added or removed and the other tables are untouched; running the
    pass again on the same day returns that same database. *)
Theorem refresh_member_statuses_spec (today : date) (db : database) :
  end_dates_valid db ->
  exists db', refresh_member_statuses today db = Ok db'
    /\ (forall i, members db' !! i = refreshed today <$> members db !! i)
    /\ (forall i r', members db' !! i = Some r' ->
          infer_status today (m_end_date r') = Ok (m_status r'))
    /\ admin_users db' = admin_users db /\ payments db' = payments db
    /\ app_settings db' = app_settings db
    /\ refresh_member_statuses today db' = Ok db'.
Proof.
  intros Hvalid. eexists. split; [apply refresh_member_statuses_run, Hvalid|].
  simpl. split; [intros i; apply lookup_fmap|].
  split; [|repeat split].
  - intros i r' Hi. rewrite lookup_fmap in Hi.
    destruct (members db !! i) as [r|] eqn:Hr; [|discriminate Hi].
    simpl in Hi. inversion Hi; subst r'. simpl.
    apply (infer_status_ok today r), (Hvalid i r Hr).
  - rewrite refresh_member_statuses_run.
    + f_equal. apply database_eq; simpl; auto.
      apply map_eq. intros i. rewrite !lookup_fmap.
      destruct (members db !! i) as [r|] eqn:Hr; simpl; [|reflexivity].
      f_equal. apply refreshed_set_status, (Hvalid i r Hr).
    + intros i r' Hi. simpl in Hi. rewrite lookup_fmap in Hi.
      destruct (members db !! i) as [r|] eqn:Hr; [|discriminate Hi].
      simpl in Hi. inversion Hi; subst r'. simpl. exact (Hvalid i r Hr).
Qed.

Lemma sample_db_end_dates_valid : end_dates_valid sample_db.
Proof.
  unfold end_dates_valid. apply (bool_decide_unpack _). vm_compute. exact I.
Defined.

Lemma refresh_member_statuses_spec_witness :
  exists db', refresh_member_statuses (Date 2024 5 10) sample_db = Ok db'
    /\ (forall i, members db' !! i
          = refreshed (Date 2024 5 10) <$> members sample_db !! i)
    /\ (forall i r', members db' !! i = Some r' ->
          infer_status (Date 2024 5 10) (m_end_date r') = Ok (m_status r'))
    /\ admin_users db' = admin_users sample_db
    /\ payments db' = payments sample_db
    /\ app_settings db' = app_settings sample_db
    /\ refresh_member_statuses (Date 2024 5 10) db' = Ok db'.
Proof.
  apply (refresh_member_statuses_spec (Date 2024 5 10) sample_db).
  exact sample_db_end_dates_valid.
Defined.

(** On the sample database the pass turns the stale status of member 2
    into "expired" and leaves member 1 active. *)
Example refresh_sample_db :
  refresh_member_statuses (Date 2024 5 10) sample_db
  = Ok {| admin_users := admin_users sample_db;
          members := {[ 1 := member_ending "2024-06-01" "active";
                        2 := member_ending "2024-04-01" "expired" ]};
          payments := payments sample_db;
          app_settings := app_settings sample_db |}.
Proof. vm_compute. reflexivity. Qed.

(** ** Deleting a member *)

Lemma delete_member_run (id : Z) (db : database) :
  exists db', delete_member id db = Ok db'
    /\ members db' = delete id (members db)
    /\ payments db' = payments db.
Proof.
  unfold delete_member, execute, conn_execute, get_conn. simpl.
  destruct (members db !! id) as [r|] eqn:Hid.
  - eexists. split; [reflexivity|]. simpl. auto.
  - exists db. split; [reflexivity|]. split; [|reflexivity].
    symmetry. apply delete_id. exact Hid.
Qed.

(** On a connection that enforces foreign keys the declared cascade keeps
    the payments table free of orphans. *)
Lemma delete_cascade_with_foreign_keys (id : Z) (db : database) :
  no_orphan_payments db ->
  exists db',
    conn_execute {| foreign_keys := true |} (DELETE_member id) db = Ok db'
    /\ members db' !! id = None /\ no_orphan_payments db'.
Proof.
  intros Hno. unfold conn_execute. simpl.
  destruct (members db !! id) as [r|] eqn:Hid.
  - eexists. split; [reflexivity|]. simpl. split; [apply lookup_delete_eq|].
    intros pid p Hp. simpl in *.
    apply map_lookup_filter_Some in Hp. destruct Hp as [Hp Hne].
    simpl in Hne. rewrite lookup_delete_ne by congruence.
    exact (Hno pid p Hp).
  - exists db. auto.
Qed.

(** C1 fails on the code. [execute] runs the [DELETE] on a connection from
    [get_conn], where foreign keys are not enforced: member 1 of the sample
    database goes, its payment stays and now refers to no member. *)
Theorem delete_member_leaves_orphan :
  no_orphan_payments sample_db
  /\ members sample_db !! 1 = Some (member_ending "2024-06-01" "active")
  /\ payments sample_db !! 1 = Some (sample_payment 1)
  /\ exists db', delete_member 1 sample_db = Ok db'
       /\ members db' !! 1 = None
       /\ payments db' !! 1 = Some (sample_payment 1)
       /\ ~ no_orphan_payments db'.
Proof.
  split; [|split; [reflexivity|split; [reflexivity|]]].
  - unfold no_orphan_payments. apply (bool_decide_unpack _).
    vm_compute. exact I.
  - destruct (delete_member_run 1 sample_db) as (db' & Hrun & Hm & Hp).
    exists db'. split; [exact Hrun|].
    assert (Hgone : members db' !! 1 = None)
      by (rewrite Hm; apply lookup_delete_eq).
    assert (Hpay : payments db' !! 1 = Some (sample_payment 1))
      by (rewrite Hp; reflexivity).
    split; [exact Hgone|]. split; [exact Hpay|].
    intros Hno. specialize (Hno 1 (sample_payment 1) Hpay). simpl in Hno.
    rewrite Hgone in Hno. destruct Hno as [r Hr]. discriminate Hr.
Qed.

(** ** [login] and [change_password] *)

Section Authentication.

Context `{Bcrypt}.

Lemma get_admin_by_username_none (username : string) (db : database) :
  no_admin_named username db -> get_admin_by_username username db = None.
Proof.
  intros Hno. unfold get_admin_by_username, fetch_admin_by_username.
  destruct (filter _ _) as [|a l] eqn:Hf; [reflexivity|].
  assert (Ha : a ∈ filter (fun a => a_username a = username)
                 (map_to_list (admin_users db)).*2)
    by (rewrite Hf; apply list_elem_of_here).
  apply list_elem_of_filter in Ha. destruct Ha as [Hname Hin].
  apply list_elem_of_fmap in Hin. destruct Hin as ([i a'] & -> & Hin).
  apply elem_of_map_to_list in Hin.
  exfalso. exact (Hno i a' Hin Hname).
Qed.

(** C9. For a user name that no row of [admin_users] carries, and any
    password, [login] returns false without raising and without a call to
    the password check. *)
Theorem login_unknown_user (db : database) (username password : string) :
  no_admin_named username db ->
  login db username password = (Ok false, []).
Proof.
  intros Hno. unfold login.
  rewrite (get_admin_by_username_none username db Hno). reflexivity.
Qed.

(** C10. For every user name, [change_password] completes and leaves the
    setting [force_password_change] at "0"; the rows of [admin_users] with
    that user name get the new hash, so when there is none the table is
    unchanged and the flag is cleared all the same. *)
Theorem change_password_clears_flag
    (salt : string) (db : database) (username new_password : string) :
  exists db', change_password salt db username new_password = Ok db'
    /\ app_settings db' !! "force_password_change"%string = Some "0"%string
    /\ (forall i, admin_users db' !! i
          = (fun a => if String.eqb (a_username a) username
                      then set_password_hash
                             (hash_password salt new_password) a
                      else a) <$> admin_users db !! i)
    /\ (no_admin_named username db -> admin_users db' = admin_users db)
    /\ members db' = members db /\ payments db' = payments db.
Proof.
  eexists. split; [reflexivity|]. simpl.
  split; [apply lookup_insert_eq|].
  split; [intros i; apply lookup_fmap|].
  split; [|split; reflexivity].
  intros Hno. apply map_eq. intros i. rewrite lookup_fmap.
  destruct (admin_users db !! i) as [a|] eqn:Ha; simpl; [|reflexivity].
  destruct (String.eqb_spec (a_username a) username) as [Heq|Hne];
    [|reflexivity].
  exfalso. exact (Hno i a Ha Heq).
Qed.

End Authentication.

Lemma sample_db_no_ghost : no_admin_named "ghost" sample_db.
Proof.
  unfold no_admin_named. apply (bool_decide_unpack _). vm_compute. exact I.
Defined.

Lemma login_unknown_user_witness :
  @login plain_bcrypt sample_db "ghost" "admin123" = (Ok false, []).
Proof.
  apply (@login_unknown_user plain_bcrypt sample_db "ghost" "admin123").
  exact sample_db_no_ghost.
Defined.

Lemma change_password_clears_flag_witness :
  exists db',
    @change_password plain_bcrypt "$2b$12$" sample_db "ghost" "s3cret!" = Ok db'
    /\ app_settings db' !! "force_password_change"%string = Some "0"%string
    /\ admin_users db' = admin_users sample_db.
Proof.
  destruct (@change_password_clears_flag plain_bcrypt "$2b$12$" sample_db
              "ghost" "s3cret!") as (db' & Hrun & Hflag & _ & Hsame & _).
  exists db'. split; [exact Hrun|]. split; [exact Hflag|].
  apply Hsame. exact sample_db_no_ghost.
Defined.

(** A known user: the password check is called once, on the stored hash. *)
Example login_known_user :
  @login plain_bcrypt sample_db "admin" "stored"
  = (Ok true, [Checkpw "stored" "$2b$12$stored"]).
Proof. vm_compute. reflexivity. Qed.

(** * Further properties of the code *)

(** ** Password truncation *)

Lemma substring_0_length (s : string) (n : nat) :
  String.length (substring 0 n s) = Nat.min n (String.length s).
Proof.
  revert n. induction s as [|c s IH]; intros [|n]; simpl; auto.
Qed.

Lemma substring_0_all (s : string) (n : nat) :
  (String.length s <= n)%nat -> substring 0 n s = s.
Proof.
  revert n. induction s as [|c s IH]; intros [|n]; simpl; intros Hn;
    try reflexivity; try lia.
  rewrite IH by lia. reflexivity.
Qed.

Lemma substring_0_append (s t : string) (n : nat) :
  (n <= String.length s)%nat ->
  substring 0 n (s ++ t) = substring 0 n s.
Proof.
  revert n. induction s as [|c s IH]; intros [|n]; simpl; intros Hn;
    try reflexivity; try lia.
  - destruct t; reflexivity.
  - rewrite IH by lia. reflexivity.
Qed.

Lemma to_bcrypt_secret_substring (password : string) :
  _to_bcrypt_secret password = substring 0 72 password.
Proof.
  unfold _to_bcrypt_secret.
  destruct (Nat.ltb_spec 72 (String.length password)) as [Hlt|Hge];
    [reflexivity|].
  symmetry. apply substring_0_all. exact Hge.
Qed.

(** X1. The secret handed to bcrypt is the password cut to its first 72
    bytes: it never exceeds 72 bytes, it is the password itself when that
    is short enough, it is a prefix of the password, and cutting twice
    changes nothing. *)
Theorem to_bcrypt_secret_spec (password : string) :
  (String.length (_to_bcrypt_secret password) <= 72)%nat
  /\ ((String.length password <= 72)%nat ->
      _to_bcrypt_secret password = password)
  /\ String.prefix (_to_bcrypt_secret password) password = true
  /\ _to_bcrypt_secret (_to_bcrypt_secret password)
     = _to_bcrypt_secret password.
Proof.
  rewrite !to_bcrypt_secret_substring.
  pose proof (substring_0_length password 72) as Hlen.
  split; [lia|]. split; [apply substring_0_all|]. split.
  - apply prefix_correct. rewrite Hlen.
    destruct (Nat.le_ge_cases 72 (String.length password)) as [H|H].
    + rewrite Nat.min_l by exact H. reflexivity.
    + rewrite Nat.min_r by exact H.
      rewrite !substring_0_all by lia. reflexivity.
  - apply substring_0_all. lia.
Qed.

Lemma to_bcrypt_secret_spec_witness :
  _to_bcrypt_secret "admin123" = "admin123"%string.
Proof.
  apply (proj1 (proj2 (to_bcrypt_secret_spec "admin123"))).
  simpl. lia.
Defined.

Section AuthenticationMore.

Context `{Bcrypt}.

Lemma change_password_clears_flag_aux
    (salt : string) (db : database) (username new_password : string) :
  exists db', change_password salt db username new_password = Ok db'
    /\ (forall i, admin_users db' !! i
          = (fun a => if String.eqb (a_username a) username
                      then set_password_hash
                             (hash_password salt new_password) a
                      else a) <$> admin_users db !! i).
Proof.
  eexists. split; [reflexivity|]. simpl. intros i. apply lookup_fmap.
Qed.

(** X2. Whatever follows the first 72 bytes of a password is ignored: a
    password of at least 72 bytes and the same password with anything
    appended hash alike, verify alike and log in alike. *)
Theorem password_tail_ignored
    (salt : string) (db : database)
    (username password tail stored : string) :
  (72 <= String.length password)%nat ->
  hash_password salt (password ++ tail) = hash_password salt password
  /\ verify_password (password ++ tail) stored
     = verify_password password stored
  /\ login db username (password ++ tail) = login db username password.
Proof.
  intros Hlen.
  assert (Hsec : _to_bcrypt_secret (password ++ tail)
                 = _to_bcrypt_secret password).
  { rewrite !to_bcrypt_secret_substring. apply substring_0_append.
    exact Hlen. }
  unfold login, hash_password, verify_password. rewrite Hsec.
  repeat split.
Qed.

Lemma get_admin_by_username_some (username : string) (db : database)
    (i : Z) (a : admin_row) :
  admin_users db !! i = Some a -> a_username a = username ->
  exists j b, get_admin_by_username username db = Some b
    /\ admin_users db !! j = Some b /\ a_username b = username.
Proof.
  intros Hi Hname. unfold get_admin_by_username, fetch_admin_by_username.
  destruct (filter _ _) as [|b l] eqn:Hf.
  - exfalso.
    assert (Hin : a ∈ (map_to_list (admin_users db)).*2).
    { apply list_elem_of_fmap. exists (i, a). split; [reflexivity|].
      apply elem_of_map_to_list. exact Hi. }
    exact (filter_nil_not_elem_of _ _ _ Hf Hname Hin).
  - assert (Hb : b ∈ filter (fun a => a_username a = username)
                   (map_to_list (admin_users db)).*2)
      by (rewrite Hf; apply list_elem_of_here).
    apply list_elem_of_filter in Hb. destruct Hb as [Hbn Hbin].
    apply list_elem_of_fmap in Hbin. destruct Hbin as ([j b'] & -> & Hbin).
    apply elem_of_map_to_list in Hbin. simpl in *. eauto.
Qed.

(** X3. After [change_password] for a user name that has a row, [login]
    with the new password succeeds with a single password check against
    the new hash, provided bcrypt accepts the hash it has just made. *)
Theorem login_after_change_password
    (salt : string) (db db' : database) (username new_password : string) :
  (exists i a, admin_users db !! i = Some a /\ a_username a = username) ->
  checkpw (_to_bcrypt_secret new_password)
    (hash_password salt new_password) = Ok true ->
  change_password salt db username new_password = Ok db' ->
  login db' username new_password
  = (Ok true, [Checkpw (_to_bcrypt_secret new_password)
                 (hash_password salt new_password)]).
Proof.
  intros (i & a & Hi & Hname) Hcheck Hrun.
  destruct (change_password_clears_flag_aux salt db username new_password)
    as (db'' & Hrun' & Hadmins).
  rewrite Hrun in Hrun'. inversion Hrun'; subst db''.
  assert (Hi' : admin_users db' !! i
                = Some (set_password_hash
                          (hash_password salt new_password) a)).
  { rewrite Hadmins, Hi. simpl.
    rewrite (proj2 (String.eqb_eq _ _) Hname). reflexivity. }
  destruct (get_admin_by_username_some username db' i _ Hi' Hname)
    as (j & b & Hget & Hj & Hbn).
  unfold login. rewrite Hget. unfold verify_password.
  assert (Hhash : a_password_hash b = hash_password salt new_password).
  { rewrite Hadmins in Hj.
    destruct (admin_users db !! j) as [b0|]; [|discriminate Hj].
    simpl in Hj. inversion Hj as [Hb]. clear Hj.
    destruct (String.eqb_spec (a_username b0) username) as [Heq|Hne].
    - reflexivity.
    - exfalso. apply Hne. rewrite <- Hbn, <- Hb. reflexivity. }
  rewrite Hhash, Hcheck. reflexivity.
Qed.

End AuthenticationMore.

Lemma password_tail_ignored_witness :
  @login plain_bcrypt sample_db "admin"
    ("0123456789012345678901234567890123456789012345678901234567890123456789012345"
     ++ "-and-more")
  = @login plain_bcrypt sample_db "admin"
      "0123456789012345678901234567890123456789012345678901234567890123456789012345".
Proof.
  apply (@password_tail_ignored plain_bcrypt "$2b$12$" sample_db "admin"
           "0123456789012345678901234567890123456789012345678901234567890123456789012345"
           "-and-more" "").
  simpl. lia.
Defined.

Lemma login_after_change_password_witness :
  exists db',
    @change_password plain_bcrypt "$2b$12$" sample_db "admin" "s3cret!"
    = Ok db'
    /\ @login plain_bcrypt db' "admin" "s3cret!"
       = (Ok true, [Checkpw "s3cret!" "$2b$12$s3cret!"]).
Proof.
  eexists. split; [reflexivity|].
  apply (@login_after_change_password plain_bcrypt "$2b$12$" sample_db).
  - exists 1, sample_admin. split; reflexivity.
  - reflexivity.
  - reflexivity.
Defined.

(** ** Settings and initialisation *)

(** X4. A setting that was written is read back, whatever the default;
    every other key reads as before and the other tables are untouched. *)
Theorem set_then_get_setting
    (key value : string) (default : option string) (db : database) :
  exists db', _set_setting key value db = Ok db'
    /\ _get_setting key default db' = Some value
    /\ (forall key', key' <> key ->
          _get_setting key' default db' = _get_setting key' default db)
    /\ admin_users db' = admin_users db /\ members db' = members db
    /\ payments db' = payments db.
Proof.
  eexists. split; [reflexivity|]. simpl.
  unfold _get_setting, fetch_setting. simpl.
  split; [rewrite lookup_insert_eq; reflexivity|].
  split; [|auto].
  intros key' Hne. rewrite lookup_insert_ne by congruence. reflexivity.
Qed.

Lemma set_then_get_setting_witness :
  exists db', _set_setting "force_password_change" "0" sample_db = Ok db'
    /\ _get_setting "theme" (Some "dark"%string) db' = Some "dark"%string.
Proof.
  destruct (set_then_get_setting "force_password_change" "0"
              (Some "dark"%string) sample_db)
    as (db' & Hrun & _ & Hother & _).
  exists db'. split; [exact Hrun|].
  rewrite (Hother "theme"%string) by discriminate. reflexivity.
Defined.

Lemma fetch_any_admin_id_none (db : database) :
  fetch_any_admin_id db = None <-> admin_users db = ∅.
Proof.
  unfold fetch_any_admin_id. rewrite head_None. split.
  - intros Hnil. apply map_to_list_empty_iff.
    destruct (map_to_list (admin_users db)); [reflexivity|discriminate Hnil].
  - intros ->. rewrite map_to_list_empty. reflexivity.
Qed.

Lemma username_taken_empty (username : string) (db : database) :
  admin_users db = ∅ -> username_taken username db = false.
Proof.
  intros Hempty. unfold username_taken. rewrite Hempty, map_to_list_empty.
  apply bool_decide_eq_false. intros Hex. inversion Hex.
Qed.

Lemma init_db_no_admin
    (rowid : Z) (now default_admin_hash : string) (db : database) :
  admin_users db = ∅ ->
  init_db rowid now default_admin_hash db
  = Ok {| admin_users :=
            {[ rowid := {| a_username := "admin";
                           a_password_hash := default_admin_hash;
                           a_created_at := now |} ]};
          members := members db; payments := payments db;
          app_settings :=
            <["force_password_change"%string := "1"%string]>
              (app_settings db) |}.
Proof.
  intros Hempty. unfold init_db.
  rewrite (proj2 (fetch_any_admin_id_none db) Hempty).
  unfold execute_insert. cbn [a_username].
  rewrite (username_taken_empty "admin" db Hempty), Hempty, lookup_empty.
  rewrite bool_decide_eq_false_2 by (intros [x Hx]; discriminate Hx).
  simpl. rewrite insert_empty. reflexivity.
Qed.

(** X5. First start: on a database without admin rows [init_db] stores
    exactly one admin, named "admin" with the given hash, and raises the
    forced-password-change flag; members and payments are untouched. *)
Theorem init_db_bootstrap
    (rowid : Z) (now default_admin_hash : string) (db : database) :
  admin_users db = ∅ ->
  exists db', init_db rowid now default_admin_hash db = Ok db'
    /\ admin_users db'
       = {[ rowid := {| a_username := "admin";
                        a_password_hash := default_admin_hash;
                        a_created_at := now |} ]}
    /\ is_force_password_change db' = true
    /\ members db' = members db /\ payments db' = payments db.
Proof.
  intros Hempty. eexists. split; [apply init_db_no_admin; exact Hempty|].
  simpl. split; [reflexivity|]. split; [|auto].
  unfold is_force_password_change, fetch_setting. simpl.
  rewrite lookup_insert_eq. reflexivity.
Qed.

Lemma init_db_bootstrap_witness :
  exists db',
    init_db 1 "2024-05-01T00:00:00" "$2b$12$admin123"
      {| admin_users := ∅; members := ∅; payments := ∅; app_settings := ∅ |}
    = Ok db'
    /\ is_force_password_change db' = true.
Proof.
  destruct (init_db_bootstrap 1 "2024-05-01T00:00:00" "$2b$12$admin123"
              {| admin_users := ∅; members := ∅; payments := ∅;
                 app_settings := ∅ |} eq_refl)
    as (db' & Hrun & _ & Hflag & _).
  exists db'. split; assumption.
Defined.

(** X6. Later starts: when an admin row exists [init_db] leaves all four
    tables as they are, except that a missing forced-change flag is
    written as "0"; the flag that is read afterwards is the one read
    before, and no start makes a second admin or resets a password. *)
Theorem init_db_existing
    (rowid : Z) (now default_admin_hash : string) (db : database) :
  admin_users db <> ∅ ->
  exists db', init_db rowid now default_admin_hash db = Ok db'
    /\ admin_users db' = admin_users db
    /\ members db' = members db /\ payments db' = payments db
    /\ (forall key, key <> "force_password_change"%string ->
          app_settings db' !! key = app_settings db !! key)
    /\ app_settings db' !! "force_password_change"%string
       = Some (default "0"%string
                 (app_settings db !! "force_password_change"%string))
    /\ is_force_password_change db' = is_force_password_change db.
Proof.
  intros Hne. unfold init_db.
  destruct (fetch_any_admin_id db) as [i|] eqn:Hany.
  2:{ exfalso. apply Hne, fetch_any_admin_id_none. exact Hany. }
  unfold _get_setting, is_force_password_change, fetch_setting.
  destruct (app_settings db !! "force_password_change"%string) as [v|] eqn:Hv.
  - rewrite bool_decide_eq_false_2 by discriminate.
    exists db. rewrite Hv. simpl. repeat split; auto.
  - rewrite bool_decide_eq_true_2 by reflexivity.
    eexists. split; [reflexivity|]. simpl.
    split; [reflexivity|]. split; [reflexivity|]. split; [reflexivity|].
    split; [intros key Hk; rewrite lookup_insert_ne by congruence;
            reflexivity|].
    rewrite lookup_insert_eq. split; reflexivity.
Qed.

Lemma init_db_existing_witness :
  exists db',
    init_db 7 "2025-01-01T00:00:00" "$2b$12$other" sample_db = Ok db'
    /\ admin_users db' = admin_users sample_db
    /\ is_force_password_change db' = is_force_password_change sample_db.
Proof.
  destruct (init_db_existing 7 "2025-01-01T00:00:00" "$2b$12$other"
              sample_db) as (db' & Hrun & Ha & _ & _ & _ & _ & Hflag).
  - intros Hempty.
    assert (Hl : admin_users sample_db !! 1 = Some sample_admin)
      by reflexivity.
    rewrite Hempty in Hl. discriminate Hl.
  - exists db'. auto.
Defined.

Lemma init_db_Ok_state
    (rowid : Z) (now hash : string) (db db' : database) :
  init_db rowid now hash db = Ok db' ->
  admin_users db' <> ∅
  /\ is_Some (app_settings db' !! "force_password_change"%string).
Proof.
  intros Hrun.
  destruct (decide (admin_users db = ∅)) as [Hempty|Hne].
  - rewrite (init_db_no_admin rowid now hash db Hempty) in Hrun.
    inversion Hrun; subst db'. simpl. split.
    + intros Hs. apply (f_equal (fun m => m !! rowid)) in Hs.
      rewrite lookup_singleton_eq, lookup_empty in Hs. discriminate Hs.
    + rewrite lookup_insert_eq. eauto.
  - unfold init_db in Hrun.
    destruct (fetch_any_admin_id db) as [i|] eqn:Hany.
    2:{ exfalso. apply Hne, fetch_any_admin_id_none. exact Hany. }
    unfold _get_setting, fetch_setting in Hrun.
    destruct (app_settings db !! "force_password_change"%string) as [v|]
      eqn:Hv.
    + rewrite bool_decide_eq_false_2 in Hrun by discriminate.
      inversion Hrun; subst db'. rewrite Hv. eauto.
    + rewrite bool_decide_eq_true_2 in Hrun by reflexivity.
      inversion Hrun; subst db'. simpl. rewrite lookup_insert_eq. eauto.
Qed.

(** X7. Starting twice is starting once: a database that [init_db] has
    returned is returned unchanged by every further [init_db], whatever
    the row id, time stamp and hash of that later start. *)
Theorem init_db_idempotent
    (rowid rowid' : Z) (now now' hash hash' : string) (db db' : database) :
  init_db rowid now hash db = Ok db' ->
  init_db rowid' now' hash' db' = Ok db'.
Proof.
  intros Hrun.
  destruct (init_db_Ok_state rowid now hash db db' Hrun) as [Hne [v Hv]].
  unfold init_db.
  destruct (fetch_any_admin_id db') as [i|] eqn:Hany.
  2:{ exfalso. apply Hne, fetch_any_admin_id_none. exact Hany. }
  unfold _get_setting, fetch_setting. rewrite Hv.
  rewrite bool_decide_eq_false_2 by discriminate. reflexivity.
Qed.

Lemma init_db_idempotent_witness :
  exists db',
    init_db 1 "2024-05-01T00:00:00" "$2b$12$admin123"
      {| admin_users := ∅; members := ∅; payments := ∅; app_settings := ∅ |}
    = Ok db'
    /\ init_db 2 "2024-05-02T00:00:00" "$2b$12$admin123" db' = Ok db'.
Proof.
  eexists. split; [reflexivity|].
  apply (init_db_idempotent 1 2 "2024-05-01T00:00:00" "2024-05-02T00:00:00"
           "$2b$12$admin123" "$2b$12$admin123"
           {| admin_users := ∅; members := ∅; payments := ∅;
              app_settings := ∅ |}).
  reflexivity.
Defined.

(** ** The password screens and the first start *)

Section Account.

Context `{Bcrypt}.

(** X12. The "Update password" button changes the password only for a new
    password of at least 6 characters that is typed twice alike; it then
    clears the forced-change flag, so that the next run shows the
    application. In every other case an error is shown and the database
    is left as it was. *)
Theorem update_password_spec
    (salt : string) (db : database) (username new1 new2 : string) :
  exists db' err,
    update_password salt db username new1 new2 = Ok (db', err)
    /\ (err = None <-> (6 <= String.length new1)%nat /\ new1 = new2)
    /\ (err <> None -> db' = db)
    /\ (err = None ->
        change_password salt db username new1 = Ok db'
        /\ is_force_password_change db' = false
        /\ run_screen true db' = MainApp).
Proof.
  unfold update_password.
  destruct (Nat.ltb_spec (String.length new1) 6) as [Hshort|Hlong].
  { exists db, (Some E_SHORT). split; [reflexivity|].
    split; [split; [discriminate|lia]|].
    split; [reflexivity|discriminate]. }
  destruct (String.eqb_spec new1 new2) as [Heq|Hne]; simpl.
  2:{ exists db, (Some E_MISMATCH). split; [reflexivity|].
      split; [split; [discriminate|tauto]|].
      split; [reflexivity|discriminate]. }
  eexists _, None. split; [reflexivity|].
  split; [tauto|]. split; [congruence|].
  intros _. split; [reflexivity|].
  unfold run_screen, is_force_password_change, fetch_setting. simpl.
  rewrite lookup_insert_eq. split; reflexivity.
Qed.

(** X13. First start: on a database without admin rows, [init_once]
    followed by a login as "admin" with "admin123" succeeds, provided
    bcrypt accepts the hash it has just made, and the next screen is the
    forced password change. *)
Theorem first_start_login
    (salt : string) (rowid : Z) (now : string) (db : database) :
  admin_users db = ∅ ->
  checkpw (_to_bcrypt_secret "admin123") (hash_password salt "admin123")
  = Ok true ->
  exists db', init_once salt rowid now db = Ok db'
    /\ (login db' "admin" "admin123").1 = Ok true
    /\ run_screen true db' = ForceChangePasswordScreen.
Proof.
  intros Hempty Hcheck. unfold init_once.
  rewrite (init_db_no_admin rowid now (hash_password salt "admin123") db
             Hempty).
  eexists. split; [reflexivity|]. split.
  - unfold login, get_admin_by_username, fetch_admin_by_username.
    cbn [admin_users]. rewrite map_to_list_singleton. simpl. exact Hcheck.
  - unfold run_screen, is_force_password_change, fetch_setting.
    cbn [app_settings negb]. rewrite lookup_insert_eq. reflexivity.
Qed.

End Account.

Lemma update_password_spec_witness :
  exists db',
    @update_password plain_bcrypt "$2b$12$" sample_db "admin" "abc" "abc"
    = Ok (db', Some E_SHORT)
    /\ db' = sample_db.
Proof.
  destruct (@update_password_spec plain_bcrypt "$2b$12$" sample_db "admin"
              "abc" "abc") as (db' & err & Hrun & _ & Hsame & _).
  assert (Herr : err = Some E_SHORT).
  { vm_compute in Hrun. inversion Hrun. reflexivity. }
  subst err. exists db'. split; [exact Hrun|].
  apply Hsame. discriminate.
Defined.

Lemma first_start_login_witness :
  exists db',
    @init_once plain_bcrypt "$2b$12$" 1 "2024-05-01T00:00:00"
      {| admin_users := ∅; members := ∅; payments := ∅; app_settings := ∅ |}
    = Ok db'
    /\ (@login plain_bcrypt db' "admin" "admin123").1 = Ok true
    /\ run_screen true db' = ForceChangePasswordScreen.
Proof.
  apply (@first_start_login plain_bcrypt "$2b$12$" 1 "2024-05-01T00:00:00"
           {| admin_users := ∅; members := ∅; payments := ∅;
              app_settings := ∅ |}); reflexivity.
Defined.

(** ** More of the calendar: ordinals and order *)

Lemma mk_date_Ok (y m d : Z) (r : date) :
  mk_date y m d = Ok r -> r = Date y m d /\ valid_date r.
Proof.
  unfold mk_date. destruct (_ && _); [|discriminate].
  apply new_date_Ok.
Qed.

Lemma toordinal_max : toordinal (Date MAXYEAR 12 31) = _MAXORDINAL.
Proof. reflexivity. Qed.

Lemma year_length (y m : Z) :
  1 <= m <= 12 ->
  _days_before_month y m + _days_in_month y m
  <= 365 + (if _is_leap y then 1 else 0).
Proof.
  intros Hm. unfold _days_before_month, _days_in_month.
  destruct (month_cases m Hm) as [->|[->|[->|[->|[->|[->|[->|[->|[->|[->|[->| ->]]]]]]]]]]];
    destruct (_is_leap y); simpl; unfold table; simpl; lia.
Qed.

Lemma days_before_month_mono (y m1 m2 : Z) :
  1 <= m1 -> m1 < m2 -> m2 <= 12 ->
  _days_before_month y m1 + _days_in_month y m1 <= _days_before_month y m2.
Proof.
  intros H1 Hlt H2.
  assert (Hsucc : forall k : nat, m1 + 1 + Z.of_nat k <= 12 ->
            _days_before_month y m1 + _days_in_month y m1
            <= _days_before_month y (m1 + 1 + Z.of_nat k)).
  { induction k as [|k IH]; intros Hk.
    - replace (m1 + 1 + Z.of_nat 0) with (m1 + 1) by lia.
      rewrite days_before_month_succ by lia. lia.
    - replace (m1 + 1 + Z.of_nat (S k)) with (m1 + 1 + Z.of_nat k + 1) by lia.
      rewrite days_before_month_succ by lia.
      pose proof (days_in_month_bounds y (m1 + 1 + Z.of_nat k) ltac:(lia)).
      specialize (IH ltac:(lia)). lia. }
  specialize (Hsucc (Z.to_nat (m2 - m1 - 1))).
  replace (m1 + 1 + Z.of_nat (Z.to_nat (m2 - m1 - 1))) with m2 in Hsucc by lia.
  apply Hsucc. lia.
Qed.

Lemma days_before_year_mono (y1 y2 : Z) :
  y1 <= y2 -> _days_before_year y1 <= _days_before_year y2.
Proof.
  intros Hle. unfold _days_before_year. cbv zeta.
  Z.div_mod_to_equations. lia.
Qed.

(** The ordinal grows with the date. *)
Lemma toordinal_lt (a b : date) :
  valid_date a -> valid_date b -> date_lt a b -> toordinal a < toordinal b.
Proof.
  intros (Hya & Hma & Hda) (Hyb & Hmb & Hdb) Hlt.
  unfold toordinal, _ymd2ord.
  destruct Hlt as [Hy|[Hy [Hm|[Hm Hd]]]].
  - pose proof (year_length (year a) (month a) Hma).
    pose proof (days_before_year_succ (year a)).
    pose proof (days_before_year_mono (year a + 1) (year b) ltac:(lia)).
    pose proof (days_before_month_bounds (year b) (month b) Hmb). lia.
  - rewrite Hy in *.
    pose proof (days_before_month_mono (year b) (month a) (month b)
                  ltac:(lia) Hm ltac:(lia)). lia.
  - rewrite Hy, Hm in *. lia.
Qed.

Lemma toordinal_le (a b : date) :
  valid_date a -> valid_date b ->
  (date_le a b <-> toordinal a <= toordinal b).
Proof.
  intros Ha Hb. split.
  - intros [Hlt| ->]; [|lia]. pose proof (toordinal_lt a b Ha Hb Hlt). lia.
  - intros Hle. pose proof (date_cmp_spec a b) as Hc.
    destruct (date_cmp a b).
    + right. exact Hc.
    + left. exact Hc.
    + pose proof (toordinal_lt b a Hb Ha Hc). lia.
Qed.

(** Every ordinal of the calendar is the ordinal of a valid date. *)
Lemma ordinal_reached (n : nat) :
  1 + Z.of_nat n <= _MAXORDINAL ->
  exists d, valid_date d /\ toordinal d = 1 + Z.of_nat n.
Proof.
  induction n as [|n IH]; intros Hn.
  - exists (Date 1 1 1). split; [apply valid_dateb_spec|]; reflexivity.
  - destruct (IH ltac:(lia)) as (d & Hv & Ho).
    assert (Hmax : d <> Date MAXYEAR 12 31).
    { intros ->. rewrite toordinal_max in Ho. lia. }
    exists (next_day d). split; [apply next_day_valid; assumption|].
    destruct Hv as (_ & Hm & Hd).
    rewrite (toordinal_next_day d Hm (proj2 Hd)). lia.
Qed.

Lemma ord2ymd_valid (o : Z) :
  1 <= o <= _MAXORDINAL ->
  valid_date (_ord2ymd o) /\ toordinal (_ord2ymd o) = o.
Proof.
  intros Ho.
  destruct (ordinal_reached (Z.to_nat (o - 1)) ltac:(lia)) as (d & Hv & Hd).
  replace (1 + Z.of_nat (Z.to_nat (o - 1))) with o in Hd by lia.
  pose proof Hv as (Hy & Hm & Hday). unfold MINYEAR in Hy.
  assert (Hback : _ord2ymd o = d).
  { rewrite <- Hd. unfold toordinal. rewrite ord2ymd_ymd2ord by lia.
    destruct d; reflexivity. }
  rewrite Hback. split; assumption.
Qed.

(** [d + timedelta(days=k)], when it exists, is the valid date [k] days
    after [d]; it exists exactly when that day is in the calendar. *)
Lemma date_add_days_Ok (d : date) (k : Z) (r : date) :
  date_add_days d k = Ok r ->
  valid_date r /\ toordinal r = toordinal d + k.
Proof.
  unfold date_add_days. cbv zeta.
  destruct (Z.ltb_spec 0 (toordinal d + k)); simpl; [|discriminate].
  destruct (Z.leb_spec (toordinal d + k) _MAXORDINAL); [|discriminate].
  intros Heq. inversion Heq. apply ord2ymd_valid. lia.
Qed.

Lemma date_add_days_in_range (d : date) (k : Z) :
  1 <= toordinal d + k <= _MAXORDINAL ->
  exists r, date_add_days d k = Ok r.
Proof.
  intros Hr. unfold date_add_days. cbv zeta.
  replace (0 <? toordinal d + k) with true by (symmetry; apply Z.ltb_lt; lia).
  replace (toordinal d + k <=? _MAXORDINAL) with true
    by (symmetry; apply Z.leb_le; lia).
  eauto.
Qed.

(** ** More of [add_months] and [calc_end_date] *)

(** When [add_months] returns, it returns the clamped date of the target
    month, and that month comes before December 9999. *)
Lemma add_months_Ok_inv (d : date) (n : Z) (r : date) :
  valid_date d -> add_months d n = Ok r ->
  let y := year d + (month d - 1 + n) / 12 in
  let m := (month d - 1 + n) mod 12 + 1 in
  r = Date y m (Z.min (day d) (_days_in_month y m))
  /\ 1 <= y <= 9999 /\ 1 <= m <= 12 /\ (y < 9999 \/ m < 12).
Proof.
  intros (Hy & Hm & Hd) Hrun y m.
  assert (Hmr : 1 <= m <= 12)
    by (unfold m; pose proof (Z.mod_pos_bound (month d - 1 + n) 12); lia).
  assert (Hrange : 1 <= y <= 9999 /\ (y < 9999 \/ m < 12)).
  { unfold add_months in Hrun. fold y in Hrun. fold m in Hrun.
    cbv zeta in Hrun.
    destruct (if m =? 12 then mk_date (y + 1) 1 1 else mk_date y (m + 1) 1)
      as [nm|] eqn:Hnm; [|discriminate Hrun].
    rewrite bind_Ok in Hrun.
    destruct (date_sub_days nm 1) as [ld|]; [|discriminate Hrun].
    rewrite bind_Ok in Hrun.
    apply mk_date_Ok in Hrun. destruct Hrun as [-> (Hyr & _)].
    simpl in Hyr. unfold MINYEAR, MAXYEAR in Hyr.
    destruct (Z.eqb_spec m 12) as [Hm12|Hm12].
    - apply mk_date_Ok in Hnm. destruct Hnm as [-> (Hyn & _)].
      simpl in Hyn. unfold MINYEAR, MAXYEAR in Hyn. lia.
    - lia. }
  destruct Hrange as [Hyr Hlast].
  rewrite add_months_in_range in Hrun by (fold y; fold m; lia).
  inversion Hrun. fold y. fold m. repeat split; lia.
Qed.

Lemma add_months_Ok_facts (d : date) (n : Z) (r : date) :
  valid_date d -> add_months d n = Ok r ->
  valid_date r /\ month_index r = month_index d + n
  /\ day r = Z.min (day d) (_days_in_month (year r) (month r)).
Proof.
  intros Hv Hrun.
  destruct (add_months_Ok_inv d n r Hv Hrun) as (-> & Hy & Hm & Hlast).
  destruct Hv as (Hyd & Hmd & Hdd).
  pose proof (days_in_month_bounds
                (year d + (month d - 1 + n) / 12) _ Hm) as Hdim.
  split; [unfold valid_date, MINYEAR, MAXYEAR; simpl; lia|].
  split; [|reflexivity].
  unfold month_index; simpl.
  pose proof (Z.div_mod (month d - 1 + n) 12 ltac:(lia)). lia.
Qed.

Lemma month_index_lt (a b : date) :
  1 <= month a <= 12 -> 1 <= month b <= 12 ->
  month_index a < month_index b -> date_lt a b.
Proof. unfold month_index, date_lt. lia. Qed.

Lemma plan_months_positive (t : string) :
  1 <= default 1 (PLAN_MONTHS !! t).
Proof.
  rewrite PLAN_MONTHS_get.
  repeat (destruct (String.eqb _ _); [lia|]). lia.
Qed.

Lemma calc_end_date_Ok_inv (s t e : string) :
  calc_end_date s t = Ok e ->
  exists d r, parse_iso s = Ok d /\ valid_date d
    /\ add_months d (default 1 (PLAN_MONTHS !! t)) = Ok r
    /\ e = isoformat r /\ parse_iso e = Ok r /\ date_lt d r.
Proof.
  unfold calc_end_date. intros Hrun.
  destruct (parse_iso s) as [d|] eqn:Hs; [|discriminate Hrun].
  rewrite bind_Ok in Hrun.
  destruct (add_months d _) as [r|] eqn:Hadd; [|discriminate Hrun].
  rewrite bind_Ok in Hrun. inversion Hrun as [He].
  pose proof (fromisoformat_valid s d Hs) as Hvd.
  destruct (add_months_Ok_facts d _ r Hvd Hadd) as (Hvr & Hidx & _).
  exists d, r.
  split; [reflexivity|]. split; [exact Hvd|]. split; [exact Hadd|].
  split; [reflexivity|]. split.
  - apply fromisoformat_isoformat. exact Hvr.
  - pose proof (plan_months_positive t).
    apply month_index_lt; [apply Hvd | apply Hvr | lia].
Qed.

(** X8. An end date that [calc_end_date] has calculated is an ISO date
    strictly after the start date, so [validate_member_inputs] never
    reports a date-format or an ordering error on it: a renewal can only
    be refused for its name, phone or price. *)
Theorem calc_end_date_passes_validation (s t e : string) :
  calc_end_date s t = Ok e ->
  (exists d r, parse_iso s = Ok d /\ parse_iso e = Ok r /\ date_lt d r)
  /\ forall full_name phone plan_price,
       exists errors,
         validate_member_inputs full_name phone plan_price s e = Ok errors
         /\ ~ In E_DATES errors /\ ~ In E_ORDER errors.
Proof.
  intros Hrun.
  destruct (calc_end_date_Ok_inv s t e Hrun)
    as (d & r & Hs & Hvd & Hadd & He & Hpe & Hlt).
  split; [eauto|].
  intros full_name phone plan_price.
  eexists. split; [apply validate_member_inputs_eq|].
  assert (Hde : date_errors s e = []).
  { unfold date_errors. rewrite Hs, Hpe.
    destruct (date_leb r d) eqn:Hle; [|reflexivity].
    apply date_leb_spec in Hle. exfalso.
    destruct Hle as [Hrd|Heq].
    - exact (date_lt_asym _ _ Hlt Hrd).
    - subst r. exact (date_lt_irrefl _ Hlt). }
  rewrite Hde, app_nil_r.
  split; intros H; split_errors H;
    repeat match goal with
           | H : _ \/ _ |- _ => destruct H as [H|H]
           | H : False |- _ => destruct H
           | H : _ = E_DATES |- _ => discriminate H
           | H : _ = E_ORDER |- _ => discriminate H
           end.
Qed.

Lemma calc_end_date_passes_validation_witness :
  exists errors,
    validate_member_inputs "Jane Doe" "0100000000" (PStr "-5")
      "2024-01-31" "2024-02-29" = Ok errors
    /\ ~ In E_DATES errors /\ ~ In E_ORDER errors.
Proof.
  apply (proj2 (calc_end_date_passes_validation "2024-01-31" "1 month"
                  "2024-02-29" eq_refl)).
Defined.

Lemma date_lt_le_trans (a b c : date) :
  date_le a b -> date_lt b c -> date_lt a c.
Proof.
  intros [Hab| ->] Hbc; [|exact Hbc].
  unfold date_lt in *. lia.
Qed.

(** X9. A plan that starts today or later is active: for a start date not
    before today, the status inferred from the calculated end date is
    "active", whatever the plan type. *)
Theorem new_plan_is_active (today : date) (s t e : string) (d : date) :
  parse_iso s = Ok d -> date_le today d ->
  calc_end_date s t = Ok e ->
  infer_status today e = Ok "active"%string.
Proof.
  intros Hs Hle Hrun.
  destruct (calc_end_date_Ok_inv s t e Hrun)
    as (d' & r & Hs' & _ & _ & _ & Hpe & Hlt).
  rewrite Hs in Hs'. inversion Hs'; subst d'.
  unfold infer_status. rewrite Hpe, bind_Ok.
  replace (date_geb r today) with true; [reflexivity|].
  symmetry. apply date_geb_spec. left.
  exact (date_lt_le_trans _ _ _ Hle Hlt).
Qed.

Lemma new_plan_is_active_witness :
  infer_status (Date 2024 5 10) "2024-08-10" = Ok "active"%string.
Proof.
  apply (new_plan_is_active (Date 2024 5 10) "2024-05-10" "3 months"
           "2024-08-10" (Date 2024 5 10)).
  - reflexivity.
  - right. reflexivity.
  - reflexivity.
Defined.

(** X10. Adding months in two steps lands in the same month as adding
    their sum in one step, on a day that is never later; for a start day
    up to the 28th the two dates are equal. *)
Theorem add_months_compose (d : date) (a b : Z) (r1 r2 : date) :
  valid_date d ->
  add_months d a = Ok r1 -> add_months r1 b = Ok r2 ->
  exists r, add_months d (a + b) = Ok r
    /\ year r = year r2 /\ month r = month r2 /\ day r2 <= day r
    /\ (day d <= 28 -> r2 = r).
Proof.
  intros Hv H1 H2.
  destruct (add_months_Ok_facts d a r1 Hv H1) as (Hv1 & _ & _).
  destruct (add_months_Ok_inv d a r1 Hv H1) as (Hr1 & Hy1 & Hm1 & _).
  destruct (add_months_Ok_inv r1 b r2 Hv1 H2) as (Hr2 & Hy2 & Hm2 & Hlast2).
  rewrite Hr1 in Hr2, Hy2, Hm2, Hlast2. simpl in Hr2, Hy2, Hm2, Hlast2.
  set (y1 := year d + (month d - 1 + a) / 12) in *.
  set (m1 := (month d - 1 + a) mod 12 + 1) in *.
  assert (Hyy : y1 + (m1 - 1 + b) / 12 = year d + (month d - 1 + (a + b)) / 12)
    by (unfold y1, m1; Z.div_mod_to_equations; lia).
  assert (Hmm : (m1 - 1 + b) mod 12 + 1 = (month d - 1 + (a + b)) mod 12 + 1)
    by (unfold y1, m1; Z.div_mod_to_equations; lia).
  destruct Hv as (Hyd & Hmd & Hdd).
  eexists. split.
  - apply add_months_in_range; lia.
  - pose proof (days_in_month_bounds y1 _ Hm1).
    pose proof (days_in_month_bounds (y1 + (m1 - 1 + b) / 12) _ Hm2).
    rewrite Hr2. simpl. rewrite <- !Hyy, <- !Hmm.
    repeat split; try lia.
    intros H28. f_equal. lia.
Qed.

Lemma add_months_compose_witness :
  exists r, add_months (Date 2024 1 31) (1 + 1) = Ok r
    /\ year r = 2024 /\ month r = 3 /\ 29 <= day r.
Proof.
  destruct (add_months_compose (Date 2024 1 31) 1 1 (Date 2024 2 29)
              (Date 2024 3 29)) as (r & Hr & Hy & Hm & Hd & _).
  - apply valid_dateb_spec. reflexivity.
  - reflexivity.
  - reflexivity.
  - exists r. auto.
Defined.

(** ** Validation, once more *)

Lemma validate_member_inputs_nil
    (full_name phone : string) (plan_price : pyval)
    (start_date end_date : string) :
  validate_member_inputs full_name phone plan_price start_date end_date
  = Ok []
  <-> strip full_name <> ""%string /\ strip phone <> ""%string
      /\ is_ok (float plan_price) = true
      /\ exists sd ed, parse_iso start_date = Ok sd
           /\ parse_iso end_date = Ok ed /\ date_lt sd ed.
Proof.
  rewrite validate_member_inputs_eq. unfold date_errors.
  destruct (String.eqb_spec (strip full_name) "") as [Hn|Hn];
    destruct (String.eqb_spec (strip phone) "") as [Hp|Hp];
    destruct (is_ok (float plan_price));
    destruct (parse_iso start_date) as [sd|e1];
    destruct (parse_iso end_date) as [ed|e2]; simpl;
    try (pose proof (date_leb_spec ed sd) as Hle;
         pose proof (date_cmp_spec ed sd) as Hc;
         unfold date_leb in *; destruct (date_cmp ed sd); simpl);
    split;
    try (intros Heq; discriminate Heq);
    try (intros (H1 & H2 & H3 & sd' & ed' & Hs & He & Hlt);
         try congruence; try discriminate;
         inversion Hs; inversion He; subst;
         try (exfalso; exact (date_lt_irrefl _ Hlt));
         try (exfalso; exact (date_lt_asym _ _ Hlt Hc)));
    try (intros _; repeat split; auto; exists sd, ed; auto).
Qed.

(** X11. [validate_member_inputs] returns the empty list exactly when the
    name and the phone are not blank, the price parses as a number, both
    dates parse and the end date is strictly after the start date. *)
Theorem validate_member_inputs_accepts
    (full_name phone : string) (plan_price : pyval)
    (start_date end_date : string) :
  validate_member_inputs full_name phone plan_price start_date end_date
  = Ok []
  <-> strip full_name <> ""%string /\ strip phone <> ""%string
      /\ is_ok (float plan_price) = true
      /\ exists sd ed, parse_iso start_date = Ok sd
           /\ parse_iso end_date = Ok ed /\ date_lt sd ed.
Proof. apply validate_member_inputs_nil. Qed.

Lemma validate_member_inputs_accepts_witness :
  validate_member_inputs "Jane Doe" "0100000000" (PStr "300")
    "2024-01-01" "2024-02-01" = Ok [].
Proof.
  apply (proj2 (validate_member_inputs_accepts "Jane Doe" "0100000000"
                  (PStr "300") "2024-01-01" "2024-02-01")).
  split; [discriminate|]. split; [discriminate|]. split; [reflexivity|].
  exists (Date 2024 1 1), (Date 2024 2 1).
  split; [reflexivity|]. split; [reflexivity|].
  unfold date_lt; simpl. lia.
Defined.

(** ** More of the refresh pass *)

Lemma fromisoformat_raises (s : string) (e : exn) :
  fromisoformat s = Raise e -> e = ValueError.
Proof.
  unfold fromisoformat. cbv zeta.
  destruct (_ || _); [|intros Hr; inversion Hr; reflexivity].
  destruct (parse_isoformat_date _) as [d|];
    [|intros Hr; inversion Hr; reflexivity].
  unfold new_date. destruct (valid_dateb _); intros Hr; inversion Hr.
  reflexivity.
Qed.

(** X14. On a database whose end dates are ISO dates, the refresh pass
    changes nothing exactly when every stored status already is the one
    [infer_status] gives. *)
Theorem refresh_noop_iff_consistent (today : date) (db : database) :
  end_dates_valid db ->
  (refresh_member_statuses today db = Ok db <-> statuses_consistent today db).
Proof.
  intros Hvalid. rewrite (refresh_member_statuses_run today db Hvalid).
  split.
  - intros Heq i r Hr.
    apply (f_equal (fun x => match x with
                             | Ok d => members d !! i
                             | Raise _ => None
                             end)) in Heq.
    simpl in Heq. rewrite lookup_fmap, Hr in Heq. simpl in Heq.
    inversion Heq as [Href].
    destruct (infer_status_ok today r (Hvalid i r Hr)) as [Hinf _].
    simpl. rewrite Hinf. f_equal.
  - intros Hcons. f_equal. apply database_eq; simpl; auto.
    apply map_eq. intros i. rewrite lookup_fmap.
    destruct (members db !! i) as [r|] eqn:Hr; simpl; [|reflexivity].
    f_equal. specialize (Hcons i r Hr). simpl in Hcons.
    unfold refreshed, status_of. rewrite Hcons.
    destruct r; reflexivity.
Qed.

Lemma refresh_noop_iff_consistent_witness :
  refresh_member_statuses (Date 2024 3 1) sample_db = Ok sample_db.
Proof.
  apply (proj2 (refresh_noop_iff_consistent (Date 2024 3 1) sample_db
                  sample_db_end_dates_valid)).
  unfold statuses_consistent, sample_db. simpl.
  apply map_Forall_insert_2; [reflexivity|].
  apply map_Forall_singleton. reflexivity.
Defined.

Lemma refresh_rows_bad_date (today : date) (rows : list (Z * string)) :
  forall db,
    (forall i e, (i, e) ∈ rows ->
       exists r, members db !! i = Some r /\ m_end_date r = e) ->
    (exists i e, (i, e) ∈ rows /\ is_ok (parse_iso e) = false) ->
    refresh_rows today rows db = Raise ValueError.
Proof.
  induction rows as [|[i0 e0] rows IH]; intros db Hrows (i & e & Hin & Hbad).
  - inversion Hin.
  - cbn [refresh_rows fst snd].
    destruct (parse_iso e0) as [d0|x] eqn:Hp0.
    + destruct (Hrows i0 e0 (list_elem_of_here _ _)) as (r0 & Hr0 & He0).
      subst e0.
      assert (Hok0 : is_ok (parse_iso (m_end_date r0)) = true)
        by (rewrite Hp0; reflexivity).
      destruct (infer_status_ok today r0 Hok0) as [Hinf Hchk].
      destruct (execute_update_status _ i0 db Hchk)
        as (db1 & Hexec & Hm1 & _).
      rewrite Hinf, bind_Ok, Hexec, bind_Ok.
      apply IH.
      * intros j e' Hj.
        destruct (Hrows j e' (list_elem_of_further _ _ _ Hj))
          as (r & Hr & He).
        rewrite Hm1, lookup_alter. case_decide; subst.
        -- rewrite Hr. simpl. eauto.
        -- eauto.
      * apply elem_of_cons in Hin. destruct Hin as [Heq|Hin].
        -- inversion Heq; subst. rewrite Hp0 in Hbad. discriminate Hbad.
        -- eauto.
    + unfold infer_status. rewrite Hp0, bind_Raise.
      rewrite (fromisoformat_raises e0 x Hp0). reflexivity.
Qed.

(** X15. If some member's stored end date is not an ISO date, the refresh
    pass raises [ValueError]. *)
Theorem refresh_raises_on_bad_date
    (today : date) (db : database) (i : Z) (r : member_row) :
  members db !! i = Some r -> is_ok (parse_iso (m_end_date r)) = false ->
  refresh_member_statuses today db = Raise ValueError.
Proof.
  intros Hr Hbad. unfold refresh_member_statuses. cbv zeta.
  apply refresh_rows_bad_date.
  - intros j e Hin. apply fetch_member_end_dates_spec in Hin. exact Hin.
  - exists i, (m_end_date r). split; [|exact Hbad].
    apply fetch_member_end_dates_spec. eauto.
Qed.

Lemma refresh_raises_on_bad_date_witness :
  refresh_member_statuses (Date 2024 5 10)
    {| admin_users := ∅;
       members := {[ 1 := member_ending "2024-02-30" "active" ]};
       payments := ∅; app_settings := ∅ |}
  = Raise ValueError.
Proof.
  apply (refresh_raises_on_bad_date (Date 2024 5 10) _ 1
           (member_ending "2024-02-30" "active")); reflexivity.
Defined.

(** ** ISO text sorts like the dates *)

Lemma digit_char_compare (x y : Z) :
  0 <= x <= 9 -> 0 <= y <= 9 ->
  Ascii.compare (digit_char x) (digit_char y) = (x ?= y).
Proof.
  intros Hx Hy.
  assert (Hcx : x = 0 \/ x = 1 \/ x = 2 \/ x = 3 \/ x = 4 \/ x = 5 \/ x = 6
                \/ x = 7 \/ x = 8 \/ x = 9) by lia.
  assert (Hcy : y = 0 \/ y = 1 \/ y = 2 \/ y = 3 \/ y = 4 \/ y = 5 \/ y = 6
                \/ y = 7 \/ y = 8 \/ y = 9) by lia.
  destruct Hcx as [->|[->|[->|[->|[->|[->|[->|[->|[->| ->]]]]]]]]];
    destruct Hcy as [->|[->|[->|[->|[->|[->|[->|[->|[->| ->]]]]]]]]];
    reflexivity.
Qed.

Lemma compare_lex (q q' r r' : Z) :
  0 <= r <= 9 -> 0 <= r' <= 9 ->
  (10 * q + r ?= 10 * q' + r')
  = match q ?= q' with Eq => r ?= r' | c => c end.
Proof.
  intros Hr Hr'.
  destruct (Z.compare_spec q q') as [->| |];
    [destruct (Z.compare_spec r r') as [->| |]|..];
    first [apply Z.compare_eq_iff | apply Z.compare_lt_iff
          | apply Z.compare_gt_iff]; lia.
Qed.

Lemma compare_four_digits (y y' : Z) :
  0 <= y <= 9999 -> 0 <= y' <= 9999 ->
  (y ?= y')
  = match y / 1000 ?= y' / 1000 with
    | Eq => match y / 100 mod 10 ?= y' / 100 mod 10 with
            | Eq => match y / 10 mod 10 ?= y' / 10 mod 10 with
                    | Eq => y mod 10 ?= y' mod 10
                    | c => c
                    end
            | c => c
            end
    | c => c
    end.
Proof.
  intros Hy Hy'.
  destruct (four_digits y Hy) as ((H1 & H2 & H3 & H4) & Hsum).
  destruct (four_digits y' Hy') as ((H1' & H2' & H3' & H4') & Hsum').
  rewrite <- Hsum at 1. rewrite <- Hsum' at 1.
  replace (1000 * (y / 1000) + 100 * (y / 100 mod 10)
           + 10 * (y / 10 mod 10) + y mod 10)
    with (10 * (10 * (10 * (y / 1000) + y / 100 mod 10) + y / 10 mod 10)
          + y mod 10) by lia.
  replace (1000 * (y' / 1000) + 100 * (y' / 100 mod 10)
           + 10 * (y' / 10 mod 10) + y' mod 10)
    with (10 * (10 * (10 * (y' / 1000) + y' / 100 mod 10) + y' / 10 mod 10)
          + y' mod 10) by lia.
  rewrite !compare_lex by assumption.
  destruct (y / 1000 ?= y' / 1000); try reflexivity.
  destruct (y / 100 mod 10 ?= y' / 100 mod 10); reflexivity.
Qed.

Lemma compare_two_digits (m m' : Z) :
  0 <= m <= 99 -> 0 <= m' <= 99 ->
  (m ?= m')
  = match m / 10 ?= m' / 10 with Eq => m mod 10 ?= m' mod 10 | c => c end.
Proof.
  intros Hm Hm'.
  destruct (two_digits m Hm) as ((H1 & H2) & Hsum).
  destruct (two_digits m' Hm') as ((H1' & H2') & Hsum').
  rewrite <- Hsum at 1. rewrite <- Hsum' at 1.
  apply compare_lex; assumption.
Qed.

Lemma string_compare_cons (c1 c2 : ascii) (s1 s2 : string) :
  String.compare (String c1 s1) (String c2 s2)
  = match Ascii.compare c1 c2 with
    | Eq => String.compare s1 s2
    | c => c
    end.
Proof. reflexivity. Qed.

(** Comparing two dates in ISO form as text is comparing the dates. *)
Lemma isoformat_compare (a b : date) :
  valid_date a -> valid_date b ->
  String.compare (isoformat a) (isoformat b) = date_cmp a b.
Proof.
  destruct a as [y m d], b as [y' m' d'].
  intros (Hy & Hm & Hd) (Hy' & Hm' & Hd').
  unfold MINYEAR, MAXYEAR in *. simpl in Hy, Hm, Hd, Hy', Hm', Hd'.
  pose proof (days_in_month_bounds y m Hm).
  pose proof (days_in_month_bounds y' m' Hm').
  destruct (four_digits y ltac:(lia)) as ((? & ? & ? & ?) & _).
  destruct (four_digits y' ltac:(lia)) as ((? & ? & ? & ?) & _).
  destruct (two_digits m ltac:(lia)) as ((? & ?) & _).
  destruct (two_digits m' ltac:(lia)) as ((? & ?) & _).
  destruct (two_digits d ltac:(lia)) as ((? & ?) & _).
  destruct (two_digits d' ltac:(lia)) as ((? & ?) & _).
  unfold isoformat, date_cmp. simpl year. simpl month. simpl day.
  rewrite !string_compare_cons.
  rewrite !digit_char_compare by assumption.
  change (Ascii.compare "-" "-") with Eq. cbv iota.
  change (String.compare "" "") with Eq.
  rewrite (compare_four_digits y y') by lia.
  rewrite (compare_two_digits m m') by lia.
  rewrite (compare_two_digits d d') by lia.
  repeat (try reflexivity;
          match goal with
          | |- context [Z.compare ?u ?v] => destruct (Z.compare u v)
          end).
Qed.

Lemma date_order_of_cmp (c : comparison) (d1 d2 : date) :
  date_cmp d1 d2 = c ->
  ((match c with Gt => false | _ => true end) = true <-> date_le d1 d2)
  /\ ((match c with Lt => true | _ => false end) = true <-> date_lt d1 d2).
Proof.
  intros <-. pose proof (date_cmp_spec d1 d2) as Hc.
  destruct (date_cmp d1 d2); unfold date_le; split; split; intros H;
    try reflexivity; try discriminate H; auto.
  - subst d2. exfalso. exact (date_lt_irrefl _ H).
  - destruct H as [H| ->].
    + exfalso. exact (date_lt_asym _ _ H Hc).
    + exfalso. exact (date_lt_irrefl _ Hc).
  - exfalso. exact (date_lt_asym _ _ H Hc).
Qed.

Lemma isoformat_leb (a b : date) :
  valid_date a -> valid_date b ->
  (String.leb (isoformat a) (isoformat b) = true <-> date_le a b).
Proof.
  intros Ha Hb. unfold String.leb. rewrite (isoformat_compare a b Ha Hb).
  apply (date_order_of_cmp _ a b eq_refl).
Qed.

(** X21. Dates stored as ISO text compare as text the way they compare as
    dates: for two dates of the calendar, the byte-wise order of their
    [isoformat] texts ([ORDER BY end_date], [BETWEEN], [<]) is the order
    of the dates. *)
Theorem iso_text_order (d1 d2 : date) :
  valid_date d1 -> valid_date d2 ->
  String.compare (isoformat d1) (isoformat d2) = date_cmp d1 d2
  /\ (String.leb (isoformat d1) (isoformat d2) = true <-> date_le d1 d2)
  /\ (String.ltb (isoformat d1) (isoformat d2) = true <-> date_lt d1 d2).
Proof.
  intros Hv1 Hv2.
  pose proof (isoformat_compare d1 d2 Hv1 Hv2) as Hcmp.
  split; [exact Hcmp|].
  unfold String.leb, String.ltb. rewrite Hcmp.
  apply (date_order_of_cmp _ d1 d2 eq_refl).
Qed.

Lemma iso_text_order_witness :
  String.ltb "2023-12-31" "2024-01-01" = true
  <-> date_lt (Date 2023 12 31) (Date 2024 1 1).
Proof.
  apply (iso_text_order (Date 2023 12 31) (Date 2024 1 1));
    apply valid_dateb_spec; reflexivity.
Defined.


(** ** The month of the dashboard *)

Lemma ymd2ord_day (y m d d' : Z) :
  _ymd2ord y m d' = _ymd2ord y m d + (d' - d).
Proof. unfold _ymd2ord. lia. Qed.

(** X22. For every day before December 9999, the month window of the
    dashboard runs from the first day of today's month to the first day of
    the next month, both in ISO form; in December 9999 computing it raises
    [OverflowError]. *)
Theorem month_window_spec (today : date) :
  valid_date today ->
  (month_index today < month_index (Date MAXYEAR 12 1) ->
   month_window today
   = Ok (isoformat (Date (year today) (month today) 1),
         isoformat (first_of_next_month (year today) (month today))))
  /\ (month_index today = month_index (Date MAXYEAR 12 1) ->
      month_window today = Raise OverflowError).
Proof.
  destruct today as [y m d]. intros (Hy & Hm & Hd).
  unfold MINYEAR, MAXYEAR, month_index in *. simpl in *.
  pose proof (days_in_month_bounds y m Hm) as Hdim.
  assert (H1 : mk_date y m 1 = Ok (Date y m 1))
    by (apply mk_date_valid; unfold valid_date, MINYEAR, MAXYEAR; simpl; lia).
  assert (H28 : mk_date y m 28 = Ok (Date y m 28))
    by (apply mk_date_valid; unfold valid_date, MINYEAR, MAXYEAR; simpl; lia).
  unfold month_window, replace_day. simpl year. simpl month.
  rewrite H1, bind_Ok, H28, bind_Ok.
  split.
  - intros Hidx.
    set (n := first_of_next_month y m).
    assert (Hn : n = Date (year n) (month n) 1
                 /\ 1 <= year n <= 9999 /\ 1 <= month n <= 12).
    { unfold n, first_of_next_month.
      destruct (Z.eqb_spec m 12); simpl; split; auto; lia. }
    destruct Hn as (Hnf & Hny & Hnm).
    pose proof (days_in_month_bounds (year n) (month n) Hnm) as Hdimn.
    pose proof (toordinal_first_of_next_month y m Hm) as Hto.
    fold n in Hto. rewrite Hnf in Hto. unfold toordinal in Hto.
    simpl in Hto.
    set (k := 32 - _days_in_month y m).
    assert (Hord : toordinal (Date y m 28) + 4
                   = _ymd2ord (year n) (month n) k).
    { unfold toordinal; simpl.
      rewrite (ymd2ord_day (year n) (month n) 1 k).
      rewrite (ymd2ord_day y m (_days_in_month y m) 28).
      unfold k. lia. }
    assert (Hvk : valid_date (Date (year n) (month n) k))
      by (unfold valid_date, MINYEAR, MAXYEAR, k; simpl; lia).
    pose proof (toordinal_bounds _ Hvk) as Hb. unfold toordinal in Hb.
    simpl in Hb.
    unfold date_add_days. cbv zeta. rewrite Hord.
    replace (0 <? _ymd2ord (year n) (month n) k) with true
      by (symmetry; apply Z.ltb_lt; lia).
    replace (_ymd2ord (year n) (month n) k <=? _MAXORDINAL) with true
      by (symmetry; apply Z.leb_le; lia).
    simpl andb. cbv iota.
    rewrite ord2ymd_ymd2ord by (unfold k; lia).
    rewrite bind_Ok. simpl year. simpl month.
    rewrite mk_date_valid
      by (unfold valid_date, MINYEAR, MAXYEAR; simpl; lia).
    rewrite bind_Ok, <- Hnf. reflexivity.
  - intros Hidx. assert (y = 9999) by lia. assert (m = 12) by lia. subst.
    reflexivity.
Qed.

Lemma month_window_spec_witness :
  month_window (Date 2024 2 10)
  = Ok ("2024-02-01"%string, "2024-03-01"%string).
Proof.
  apply (proj1 (month_window_spec (Date 2024 2 10)
                  ltac:(apply valid_dateb_spec; reflexivity))).
  reflexivity.
Defined.

(** ** The member form *)

Ltac bind_inv H :=
  match type of H with
  | (?m ≫= _) = Ok _ =>
      let E := fresh "E" in
      destruct m eqn:E; [rewrite bind_Ok in H | discriminate H]
  end.

Lemma iso_text_parse (s : string) (d : date) :
  iso_text s d -> parse_iso s = Ok d.
Proof. intros [Hv ->]. apply fromisoformat_isoformat. exact Hv. Qed.

Lemma validate_accepts_wellformed
    (full_name phone plan_price status : string) (start end_ : date)
    (price : pyfloat) (nat : option string) (join_date plan_type : string) :
  valid_date start -> valid_date end_ ->
  validate_member_inputs full_name phone (PStr plan_price)
    (isoformat start) (isoformat end_) = Ok [] ->
  status_check status = true -> real_not_null price = true ->
  member_wellformed
    {| m_full_name := strip full_name; m_phone := strip phone;
       m_national_id := nat; m_join_date := join_date;
       m_plan_type := plan_type; m_plan_price := price;
       m_start_date := isoformat start; m_end_date := isoformat end_;
       m_status := status |}.
Proof.
  intros Hvs Hve Hval Hst Hpr.
  apply validate_member_inputs_nil in Hval.
  destruct Hval as (Hn & Hp & _ & sd & ed & Hsd & Hed & Hlt).
  unfold parse_iso in Hsd, Hed.
  rewrite (fromisoformat_isoformat start Hvs) in Hsd.
  rewrite (fromisoformat_isoformat end_ Hve) in Hed.
  inversion Hsd; inversion Hed; subst sd ed.
  unfold member_wellformed.
  cbn [m_full_name m_phone m_start_date m_end_date m_status m_plan_price].
  split; [exact Hn|]. split; [exact Hp|].
  split; [|split; assumption].
  exists start, end_. unfold iso_text. auto.
Qed.

Lemma member_form_run
    (rowid : Z) (existing : option (Z * member_row))
    (full_name phone national_id : string)
    (join : date) (plan_type plan_price : string) (start end_ : date)
    (status : string) (db db' : database) (errors : list string) :
  valid_date start -> valid_date end_ ->
  member_form rowid existing full_name phone national_id join
    plan_type plan_price start end_ status db = Ok (db', errors) ->
  validate_member_inputs full_name phone (PStr plan_price)
    (isoformat start) (isoformat end_) = Ok errors
  /\ admin_users db' = admin_users db /\ payments db' = payments db
  /\ app_settings db' = app_settings db
  /\ (errors <> [] -> db' = db)
  /\ (errors = [] ->
      exists price, float (PStr plan_price) = Ok price
        /\ let row :=
             {| m_full_name := strip full_name; m_phone := strip phone;
                m_national_id := strip_or_none national_id;
                m_join_date := isoformat join;
                m_plan_type := plan_type; m_plan_price := price;
                m_start_date := isoformat start;
                m_end_date := isoformat end_;
                m_status := status |} in
           match existing with
           | None =>
               members db !! rowid = None
               /\ members db' = <[rowid := row]> (members db)
               /\ member_wellformed row
           | Some (id, _) =>
               match members db !! id with
               | Some _ =>
                   members db' = <[id := row]> (members db)
                   /\ member_wellformed row
               | None => db' = db
               end
           end).
Proof.
  intros Hvs Hve Hrun. unfold member_form in Hrun. cbv zeta in Hrun.
  bind_inv Hrun. bind_inv Hrun. bind_inv Hrun. bind_inv Hrun.
  destruct (validate_member_inputs _ _ _ _ _) as [errs|x] eqn:Hval;
    [|discriminate Hrun].
  rewrite bind_Ok in Hrun.
  destruct errs as [|e errs].
  2:{ inversion Hrun; subst. repeat split; auto. discriminate. }
  destruct (float (PStr plan_price)) as [price|x] eqn:Hprice;
    [|discriminate Hrun].
  rewrite bind_Ok in Hrun.
  destruct existing as [[id r0]|].
  - unfold execute_update in Hrun.
    destruct (members db !! id) as [r|] eqn:Hid.
    + cbn [m_status m_plan_price] in Hrun.
      destruct (status_check status) eqn:Hst; [|discriminate Hrun].
      destruct (real_not_null price) eqn:Hpr; [|discriminate Hrun].
      cbn [andb] in Hrun. rewrite bind_Ok in Hrun.
      inversion Hrun; subst. unfold with_members.
      cbn [admin_users payments app_settings members].
      repeat split; auto; try congruence.
      intros _. exists price. split; [reflexivity|]. cbv zeta.
      split; [reflexivity|].
      apply (validate_accepts_wellformed _ _ plan_price); assumption.
    + rewrite bind_Ok in Hrun. inversion Hrun; subst.
      repeat split; auto; try congruence.
      intros _. exists price. split; reflexivity.
  - unfold execute_insert in Hrun. cbn [m_status m_plan_price] in Hrun.
    destruct (members db !! rowid) as [r|] eqn:Hid.
    { rewrite bool_decide_eq_true_2 in Hrun by eauto. discriminate Hrun. }
    rewrite bool_decide_eq_false_2 in Hrun
      by (intros [x Hx]; discriminate Hx).
    destruct (status_check status) eqn:Hst; [|discriminate Hrun].
    destruct (real_not_null price) eqn:Hpr; [|discriminate Hrun].
    cbn [orb negb] in Hrun. rewrite bind_Ok in Hrun.
    inversion Hrun; subst.
    cbn [fst admin_users payments app_settings members].
    repeat split; auto; try congruence.
    intros _. exists price. split; [reflexivity|]. cbv zeta.
    split; [reflexivity|]. split; [reflexivity|].
    apply (validate_accepts_wellformed _ _ plan_price); assumption.
Qed.

(** X16. The "Save" button of the member form. While the validation
    reports errors nothing is written. Otherwise the row written has the
    name and the phone stripped of surrounding white space, the national
    id stripped or absent, the dates in ISO form and the price as a
    number; a new member is stored under the new id, an edited member
    replaces the row of its id (and nothing happens if that row is gone);
    every row written is well formed, and the other tables are
    untouched. *)
Theorem member_form_spec
    (rowid : Z) (existing : option (Z * member_row))
    (full_name phone national_id : string)
    (join : date) (plan_type plan_price : string) (start end_ : date)
    (status : string) (db db' : database) (errors : list string) :
  valid_date start -> valid_date end_ ->
  member_form rowid existing full_name phone national_id join
    plan_type plan_price start end_ status db = Ok (db', errors) ->
  validate_member_inputs full_name phone (PStr plan_price)
    (isoformat start) (isoformat end_) = Ok errors
  /\ admin_users db' = admin_users db /\ payments db' = payments db
  /\ app_settings db' = app_settings db
  /\ (errors <> [] -> db' = db)
  /\ (errors = [] ->
      exists price, float (PStr plan_price) = Ok price
        /\ let row :=
             {| m_full_name := strip full_name; m_phone := strip phone;
                m_national_id := strip_or_none national_id;
                m_join_date := isoformat join;
                m_plan_type := plan_type; m_plan_price := price;
                m_start_date := isoformat start;
                m_end_date := isoformat end_;
                m_status := status |} in
           match existing with
           | None =>
               members db !! rowid = None
               /\ members db' = <[rowid := row]> (members db)
               /\ member_wellformed row
           | Some (id, _) =>
               match members db !! id with
               | Some _ =>
                   members db' = <[id := row]> (members db)
                   /\ member_wellformed row
               | None => db' = db
               end
           end).
Proof. apply member_form_run. Qed.

Lemma member_form_spec_witness :
  exists db',
    member_form 3 None "  Jane Doe " "0100000000" " " (Date 2024 5 1)
      "1 month" "300" (Date 2024 5 1) (Date 2024 6 1) "active" sample_db
    = Ok (db', [])
    /\ members sample_db !! 3 = None
    /\ members db'
       = <[3 := {| m_full_name := "Jane Doe"; m_phone := "0100000000";
                   m_national_id := None; m_join_date := "2024-05-01";
                   m_plan_type := "1 month";
                   m_plan_price := FFinite false 300 0;
                   m_start_date := "2024-05-01"; m_end_date := "2024-06-01";
                   m_status := "active" |}]> (members sample_db).
Proof.
  assert (Hrun : exists db',
            member_form 3 None "  Jane Doe " "0100000000" " "
              (Date 2024 5 1) "1 month" "300" (Date 2024 5 1)
              (Date 2024 6 1) "active" sample_db = Ok (db', []))
    by (eexists; vm_compute; reflexivity).
  destruct Hrun as [db' Hrun]. exists db'. split; [exact Hrun|].
  destruct (member_form_spec 3 None "  Jane Doe " "0100000000" " "
              (Date 2024 5 1) "1 month" "300" (Date 2024 5 1) (Date 2024 6 1)
              "active" sample_db db' []
              ltac:(apply valid_dateb_spec; reflexivity)
              ltac:(apply valid_dateb_spec; reflexivity) Hrun)
    as (_ & _ & _ & _ & _ & Hsaved).
  destruct (Hsaved eq_refl) as (price & Hprice & Hfresh & Hm & _).
  split; [exact Hfresh|].
  vm_compute in Hprice. inversion Hprice; subst price. exact Hm.
Defined.


(** ** Renewals *)

Lemma renew_Ok_inv
    (today : date) (rowid member_id : Z) (plan_type plan_price : string)
    (start_choice : option date) (record_payment : bool)
    (pay_method pay_notes : string) (db db' : database) :
  renew today rowid member_id plan_type plan_price start_choice
    record_payment pay_method pay_notes db = (db', Ok []) ->
  exists m ds end_date price status,
    members db !! member_id = Some m
    /\ renewal_default_start today m = Ok ds
    /\ calc_end_date (isoformat (default ds start_choice)) plan_type
       = Ok end_date
    /\ validate_member_inputs (m_full_name m) (m_phone m) (PStr plan_price)
         (isoformat (default ds start_choice)) end_date = Ok []
    /\ float (PStr plan_price) = Ok price /\ real_not_null price = true
    /\ infer_status today end_date = Ok status
    /\ members db'
       = <[member_id := set_plan plan_type price
                          (isoformat (default ds start_choice)) end_date
                          status m]> (members db)
    /\ admin_users db' = admin_users db
    /\ app_settings db' = app_settings db
    /\ (if record_payment
        then payments db !! rowid = None
             /\ payments db'
                = <[rowid := {| p_member_id := member_id; p_amount := price;
                                p_date := isoformat today;
                                p_method := pay_method;
                                p_notes := strip_or_none pay_notes |}]>
                    (payments db)
        else payments db' = payments db).
Proof.
  unfold renew. intros Hrun.
  destruct (members db !! member_id) as [m|] eqn:Hm; [|inversion Hrun].
  destruct (plan_index _) as [[]|x] eqn:Hidx; [|inversion Hrun].
  destruct (renewal_default_start today m) as [ds|x] eqn:Hds;
    [|inversion Hrun].
  cbv zeta in Hrun.
  destruct (calc_end_date _ plan_type) as [end_date|x] eqn:Hend;
    [|inversion Hrun].
  destruct (validate_member_inputs _ _ _ _ _) as [[|e errs]|x] eqn:Hval;
    [|inversion Hrun|inversion Hrun].
  destruct (float (PStr plan_price)) as [price|x] eqn:Hprice;
    [|inversion Hrun].
  destruct (infer_status today end_date) as [status|x] eqn:Hst;
    [|inversion Hrun].
  unfold execute_update in Hrun. rewrite Hm in Hrun.
  destruct (status_check status) eqn:Hchk; [|inversion Hrun].
  destruct (real_not_null price) eqn:Hnn; [|inversion Hrun].
  simpl in Hrun.
  exists m, ds, end_date, price, status.
  do 7 (split; [reflexivity || assumption|]).
  destruct record_payment.
  - unfold execute_insert, with_members in Hrun.
    cbn [p_method p_amount payments members admin_users app_settings]
      in Hrun.
    destruct (payments db !! rowid) as [p|] eqn:Hp.
    { rewrite bool_decide_eq_true_2 in Hrun by eauto. inversion Hrun. }
    rewrite bool_decide_eq_false_2 in Hrun
      by (intros [x Hx]; discriminate Hx).
    destruct (method_check pay_method); [|inversion Hrun].
    rewrite Hnn in Hrun. simpl in Hrun.
    inversion Hrun; subst. simpl. auto.
  - inversion Hrun; subst. simpl. auto.
Qed.

(** X17. A renewal that goes through rewrites the plan type, price, start
    date, end date and status of the chosen member and nothing else of it:
    the end date is the one [calc_end_date] gives for the start date, the
    status is the one [infer_status] gives that end date. Every other
    member, the admins and the settings are untouched. With "Record payment" exactly one payment is added, for
    this member, of the new price and dated today; without it the payments
    are untouched. *)
Theorem renew_spec
    (today : date) (rowid member_id : Z) (plan_type plan_price : string)
    (start_choice : option date) (record_payment : bool)
    (pay_method pay_notes : string) (db db' : database) :
  renew today rowid member_id plan_type plan_price start_choice
    record_payment pay_method pay_notes db = (db', Ok []) ->
  exists m m' price,
    members db !! member_id = Some m
    /\ members db' = <[member_id := m']> (members db)
    /\ m_full_name m' = m_full_name m /\ m_phone m' = m_phone m
    /\ m_national_id m' = m_national_id m /\ m_join_date m' = m_join_date m
    /\ m_plan_type m' = plan_type
    /\ float (PStr plan_price) = Ok price /\ m_plan_price m' = price
    /\ calc_end_date (m_start_date m') plan_type = Ok (m_end_date m')
    /\ infer_status today (m_end_date m') = Ok (m_status m')
    /\ admin_users db' = admin_users db
    /\ app_settings db' = app_settings db
    /\ (if record_payment
        then payments db !! rowid = None
             /\ payments db'
                = <[rowid := {| p_member_id := member_id; p_amount := price;
                                p_date := isoformat today;
                                p_method := pay_method;
                                p_notes := strip_or_none pay_notes |}]>
                    (payments db)
        else payments db' = payments db).
Proof.
  intros Hrun.
  destruct (renew_Ok_inv _ _ _ _ _ _ _ _ _ _ _ Hrun)
    as (m & ds & end_date & price & status & Hm & Hds & Hend & Hval & Hprice
        & Hnn & Hst & Hmem & Ha & Hs & Hpay).
  exists m, (set_plan plan_type price (isoformat (default ds start_choice))
               end_date status m), price.
  cbn [m_full_name m_phone m_national_id m_join_date m_plan_type
       m_plan_price m_start_date m_end_date m_status set_plan].
  do 11 (split; [reflexivity || assumption|]).
  auto.
Qed.

Lemma renew_spec_witness :
  exists db' m',
    renew (Date 2024 5 10) 2 1 "3 months" "800" None true "card" ""
      sample_db = (db', Ok [])
    /\ members db' = <[1 := m']> (members sample_db)
    /\ calc_end_date (m_start_date m') "3 months" = Ok (m_end_date m')
    /\ infer_status (Date 2024 5 10) (m_end_date m') = Ok (m_status m').
Proof.
  assert (Hrun : exists db',
            renew (Date 2024 5 10) 2 1 "3 months" "800" None true "card" ""
              sample_db = (db', Ok []))
    by (eexists; vm_compute; reflexivity).
  destruct Hrun as [db' Hrun].
  destruct (renew_spec (Date 2024 5 10) 2 1 "3 months" "800" None true
              "card" "" sample_db db' Hrun)
    as (m & m' & price & _ & Hmem & _ & _ & _ & _ & _ & _ & _ & Hend & Hst
        & _).
  exists db', m'. auto.
Defined.



(** X19. Renewing from the start date the page proposes always ends in an
    active membership that runs longer than the old one: the new end date
    is after today and after the old end date. *)
Theorem renew_default_start_active
    (today : date) (rowid member_id : Z) (plan_type plan_price : string)
    (record_payment : bool) (pay_method pay_notes : string)
    (db db' : database) :
  valid_date today ->
  renew today rowid member_id plan_type plan_price None record_payment
    pay_method pay_notes db = (db', Ok []) ->
  exists m m' old_end new_end,
    members db !! member_id = Some m /\ members db' !! member_id = Some m'
    /\ parse_iso (m_end_date m) = Ok old_end
    /\ parse_iso (m_end_date m') = Ok new_end
    /\ date_lt old_end new_end /\ date_lt today new_end
    /\ m_status m' = "active"%string.
Proof.
  intros Htoday Hrun.
  destruct (renew_Ok_inv _ _ _ _ _ _ _ _ _ _ _ Hrun)
    as (m & ds & end_date & price & status & Hm & Hds & Hend & _ & _ & _
        & Hst & Hmem & _).
  simpl in Hend.
  destruct (calc_end_date_Ok_inv _ _ _ Hend)
    as (d & r & Hs & Hvd & _ & _ & Hpe & Hlt).
  unfold renewal_default_start in Hds.
  destruct (parse_iso (m_end_date m)) as [old_end|] eqn:Hold;
    [|discriminate Hds].
  rewrite bind_Ok in Hds.
  pose proof (fromisoformat_valid _ _ Hold) as Hvold.
  assert (Hstart : valid_date ds /\ date_le today ds /\ date_lt old_end ds).
  { pose proof (date_geb_spec old_end today) as Hge.
    destruct (date_geb old_end today).
    - destruct (date_add_days_Ok _ _ _ Hds) as [Hvds Hord].
      assert (Hlt1 : date_lt old_end ds).
      { pose proof (date_cmp_spec old_end ds) as Hc.
        destruct (date_cmp old_end ds).
        - subst ds. lia.
        - exact Hc.
        - pose proof (toordinal_lt _ _ Hvds Hvold Hc). lia. }
      split; [exact Hvds|]. split; [|exact Hlt1].
      left. apply (date_lt_le_trans today old_end ds); [|exact Hlt1].
      apply Hge. reflexivity.
    - inversion Hds; subst ds. split; [exact Htoday|].
      split; [right; reflexivity|].
      pose proof (date_cmp_spec old_end today) as Hc.
      unfold date_geb in Hge.
      destruct (date_cmp old_end today).
      + exfalso. assert (false = true) by (apply Hge; right; auto).
        discriminate.
      + exact Hc.
      + exfalso. assert (false = true) by (apply Hge; left; exact Hc).
        discriminate. }
  destruct Hstart as (Hvds & Hle & Hlt1).
  unfold parse_iso in Hs. rewrite (fromisoformat_isoformat ds Hvds) in Hs.
  inversion Hs; subst d.
  assert (Hnew : date_lt today r) by exact (date_lt_le_trans _ _ _ Hle Hlt).
  exists m, (set_plan plan_type price (isoformat ds) end_date status m),
    old_end, r.
  split; [exact Hm|]. split; [rewrite Hmem; apply lookup_insert_eq|].
  split; [exact Hold|]. split; [exact Hpe|].
  split; [unfold date_lt in *; lia|]. split; [exact Hnew|].
  simpl. unfold infer_status in Hst. rewrite Hpe, bind_Ok in Hst.
  replace (date_geb r today) with true in Hst
    by (symmetry; apply date_geb_spec; left; exact Hnew).
  inversion Hst. reflexivity.
Qed.

Lemma renew_default_start_active_witness :
  exists db' m' new_end,
    renew (Date 2024 5 10) 2 2 "1 month" "300" None false "cash" ""
      sample_db = (db', Ok [])
    /\ members db' !! 2 = Some m'
    /\ parse_iso (m_end_date m') = Ok new_end
    /\ date_lt (Date 2024 5 10) new_end
    /\ m_status m' = "active"%string.
Proof.
  assert (Hrun : exists db',
            renew (Date 2024 5 10) 2 2 "1 month" "300" None false "cash" ""
              sample_db = (db', Ok []))
    by (eexists; vm_compute; reflexivity).
  destruct Hrun as [db' Hrun].
  destruct (renew_default_start_active (Date 2024 5 10) 2 2 "1 month" "300"
              false "cash" "" sample_db db'
              ltac:(apply valid_dateb_spec; reflexivity) Hrun)
    as (m & m' & old_end & new_end & _ & Hm' & _ & Hnew & _ & Hlt & Hst).
  exists db', m', new_end. auto.
Defined.

(** ** Payments *)

Lemma le_zero_negative (amt : pyfloat) :
  is_negative amt = true -> le_zero amt = true.
Proof.
  destruct amt as [neg m e|neg|]; unfold is_negative, le_zero; intros H;
    try discriminate H.
  - apply andb_true_iff in H. destruct H as [-> _]. reflexivity.
  - exact H.
Qed.

(** X24. The "Record payment" button stores a payment exactly when the
    amount reads as a number that is greater than zero as a double (and is
    not a NaN): then one payment row is added, of that amount and for the
    chosen member, and nothing else changes. In every other case an error
    is shown and the database is left as it was; an amount that reads as a
    negative number is refused with "Amount must be > 0.". *)
Theorem record_payment_spec
    (rowid member_id : Z) (amount : string) (pay_date : date)
    (method notes : string) (db db' : database) (err : option string) :
  method_check method = true -> payments db !! rowid = None ->
  record_payment rowid member_id amount pay_date method notes db
  = (db', err) ->
  (err = None
   <-> exists amt, float (PStr amount) = Ok amt /\ le_zero amt = false
         /\ real_not_null amt = true)
  /\ (err = None ->
      exists amt, float (PStr amount) = Ok amt
        /\ payments db'
           = <[rowid := {| p_member_id := member_id; p_amount := amt;
                           p_date := isoformat pay_date;
                           p_method := method;
                           p_notes := strip_or_none notes |}]> (payments db)
        /\ admin_users db' = admin_users db /\ members db' = members db
        /\ app_settings db' = app_settings db)
  /\ (err <> None -> db' = db)
  /\ (forall amt, float (PStr amount) = Ok amt -> is_negative amt = true ->
        err = Some E_POSITIVE).
Proof.
  intros Hmethod Hfresh. unfold record_payment.
  destruct (float (PStr amount)) as [amt|x] eqn:Hamt.
  2:{ intros Hrun. inversion Hrun; subst.
      split; [split; [discriminate|intros (a & Ha & _); discriminate Ha]|].
      split; [discriminate|]. split; [reflexivity|].
      intros a Ha. discriminate Ha. }
  destruct (le_zero amt) eqn:Hle.
  { intros Hrun. inversion Hrun; subst.
    split; [split; [discriminate|]|].
    { intros (a & Ha & Hz & _). inversion Ha; subst a.
      rewrite Hle in Hz. discriminate Hz. }
    split; [discriminate|]. split; [reflexivity|]. reflexivity. }
  unfold execute_insert. cbn [p_method p_amount].
  rewrite Hfresh, Hmethod.
  rewrite bool_decide_eq_false_2 by (intros [x Hx]; discriminate Hx).
  cbn [negb orb].
  destruct (real_not_null amt) eqn:Hnn; cbn [negb orb andb foreign_keys
                                              get_conn].
  - intros Hrun. inversion Hrun; subst.
    cbn [fst admin_users members payments app_settings].
    split; [split; [intros _; exists amt; auto|reflexivity]|].
    split; [intros _; exists amt; auto|].
    split; [intros Hne; exfalso; apply Hne; reflexivity|].
    intros a Ha Hneg. inversion Ha; subst a.
    rewrite (le_zero_negative _ Hneg) in Hle. discriminate Hle.
  - intros Hrun. inversion Hrun; subst.
    split; [split; [discriminate|]|].
    { intros (a & Ha & _ & Hn). inversion Ha; subst a.
      rewrite Hnn in Hn. discriminate Hn. }
    split; [discriminate|]. split; [reflexivity|].
    intros a Ha Hneg. inversion Ha; subst a.
    rewrite (le_zero_negative _ Hneg) in Hle. discriminate Hle.
Qed.

Lemma record_payment_spec_witness :
  exists err,
    record_payment 2 1 "-5" (Date 2024 5 10) "cash" "" sample_db
    = (sample_db, err)
    /\ err = Some E_POSITIVE.
Proof.
  assert (Hrun : exists db' err,
            record_payment 2 1 "-5" (Date 2024 5 10) "cash" "" sample_db
            = (db', err))
    by (eexists; eexists; vm_compute; reflexivity).
  destruct Hrun as (db' & err & Hrun).
  destruct (record_payment_spec 2 1 "-5" (Date 2024 5 10) "cash" ""
              sample_db db' err eq_refl eq_refl Hrun)
    as (_ & _ & Hsame & Hneg).
  assert (Herr : err = Some E_POSITIVE)
    by (apply (Hneg (FFinite true 5 0)); reflexivity).
  exists err. split; [|exact Herr].
  rewrite Hrun. f_equal. apply Hsame. rewrite Herr. discriminate.
Defined.

(** X25. A renewal stores what the payments page refuses: when a renewal
    with "Record payment" goes through on a price that is not greater than
    zero (a negative price, say), the payment it adds carries that amount,
    while the "Record payment" button of the payments page, given the same
    text as the amount, shows "Amount must be > 0." and stores nothing. *)
Theorem renew_stores_what_payments_refuse
    (today : date) (rowid member_id : Z) (plan_type plan_price : string)
    (start_choice : option date) (pay_method pay_notes : string)
    (db db' : database) (f : pyfloat) :
  float (PStr plan_price) = Ok f -> le_zero f = true ->
  renew today rowid member_id plan_type plan_price start_choice true
    pay_method pay_notes db = (db', Ok []) ->
  payments db' !! rowid
  = Some {| p_member_id := member_id; p_amount := f;
            p_date := isoformat today; p_method := pay_method;
            p_notes := strip_or_none pay_notes |}
  /\ forall pay_date db0,
       record_payment rowid member_id plan_price pay_date pay_method
         pay_notes db0 = (db0, Some E_POSITIVE).
Proof.
  intros Hf Hle Hrun.
  destruct (renew_Ok_inv _ _ _ _ _ _ _ _ _ _ _ Hrun)
    as (m & ds & end_date & price & status & _ & _ & _ & _ & Hprice & _ & _
        & _ & _ & _ & _ & Hpay).
  rewrite Hf in Hprice. inversion Hprice; subst price.
  split; [rewrite Hpay; apply lookup_insert_eq|].
  intros pay_date db0. unfold record_payment. rewrite Hf, Hle. reflexivity.
Qed.

Lemma renew_stores_what_payments_refuse_witness :
  exists db',
    renew (Date 2024 5 10) 2 1 "3 months" "-5" None true "card" ""
      sample_db = (db', Ok [])
    /\ payments db' !! 2
       = Some {| p_member_id := 1; p_amount := FFinite true 5 0;
                 p_date := "2024-05-10"; p_method := "card";
                 p_notes := None |}
    /\ record_payment 2 1 "-5" (Date 2024 5 10) "card" "" sample_db
       = (sample_db, Some E_POSITIVE).
Proof.
  assert (Hrun : exists db',
            renew (Date 2024 5 10) 2 1 "3 months" "-5" None true "card" ""
              sample_db = (db', Ok []))
    by (eexists; vm_compute; reflexivity).
  destruct Hrun as [db' Hrun]. exists db'. split; [exact Hrun|].
  destruct (renew_stores_what_payments_refuse (Date 2024 5 10) 2 1
              "3 months" "-5" None "card" "" sample_db db'
              (FFinite true 5 0) eq_refl eq_refl Hrun) as [Hpay Hrefuse].
  split; [exact Hpay|]. apply Hrefuse.
Defined.

(** ** The reminders *)

Lemma elem_of_fetch_expiring (lo hi : string) (db : database)
    (i : Z) (name phone e : string) :
  (i, name, phone, e) ∈ fetch_expiring lo hi db
  <-> exists r, members db !! i = Some r /\ expiring lo hi r = true
        /\ name = m_full_name r /\ phone = m_phone r /\ e = m_end_date r.
Proof.
  unfold fetch_expiring. rewrite list_elem_of_fmap. split.
  - intros ([j r] & Heq & Hin).
    rewrite merge_sort_Permutation in Hin.
    apply list_elem_of_filter in Hin. destruct Hin as [Hexp Hin].
    apply elem_of_map_to_list in Hin. simpl in *.
    inversion Heq; subst. eauto 10.
  - intros (r & Hr & Hexp & -> & -> & ->).
    exists (i, r). split; [reflexivity|].
    rewrite merge_sort_Permutation.
    apply list_elem_of_filter. split; [exact Hexp|].
    apply elem_of_map_to_list. exact Hr.
Qed.

Lemma by_end_date_total : Total by_end_date.
Proof. intros a b. unfold by_end_date. apply String.leb_total. Qed.

Lemma fetch_expiring_sorted (lo hi : string) (db : database) :
  Sorted (fun a b => String.leb a.2 b.2 = true) (fetch_expiring lo hi db).
Proof.
  unfold fetch_expiring.
  apply (Sorted_fmap _ by_end_date); [intros x y Hxy; exact Hxy|].
  apply Sorted_merge_sort. exact by_end_date_total.
Qed.

Lemma status_of_active (today : date) (r : member_row) (e : date) :
  parse_iso (m_end_date r) = Ok e ->
  (String.eqb (status_of today r) "active" = true <-> date_le today e).
Proof.
  intros He. unfold status_of, infer_status. rewrite He, bind_Ok.
  pose proof (date_geb_spec e today) as Hge.
  destruct (date_geb e today); simpl; split; intros H.
  - apply Hge. reflexivity.
  - reflexivity.
  - discriminate H.
  - apply Hge in H. discriminate H.
Qed.

Lemma end_dates_iso_valid (db : database) :
  end_dates_iso db -> end_dates_valid db.
Proof.
  intros Hiso i r Hr. destruct (Hiso i r Hr) as (d & Hd).
  cbv beta. rewrite (iso_text_parse _ _ Hd). reflexivity.
Qed.

(** X23. The reminders page, on a database whose end dates are ISO text:
    after the refresh it lists exactly the members whose membership ends
    today or within the seven days that follow, each with its id, name,
    phone and end date, in ascending order of end date. *)
Theorem reminders_page_spec
    (today : date) (db db' : database)
    (rows : list (Z * string * string * string)) :
  valid_date today -> end_dates_iso db ->
  reminders_page today db = Ok (db', rows) ->
  refresh_member_statuses today db = Ok db'
  /\ (forall i name phone end_date,
        (i, name, phone, end_date) ∈ rows
        <-> exists r e, members db !! i = Some r
              /\ name = m_full_name r /\ phone = m_phone r
              /\ end_date = m_end_date r /\ iso_text end_date e
              /\ toordinal today <= toordinal e <= toordinal today + 7)
  /\ Sorted (fun a b => String.leb a.2 b.2 = true) rows.
Proof.
  intros Htoday Hiso Hrun. unfold reminders_page in Hrun.
  pose proof (end_dates_iso_valid db Hiso) as Hvalid.
  rewrite (refresh_member_statuses_run today db Hvalid) in Hrun.
  rewrite bind_Ok in Hrun.
  destruct (date_add_days today 7) as [d7|x] eqn:Hd7; [|discriminate Hrun].
  rewrite bind_Ok in Hrun. inversion Hrun; subst db' rows. clear Hrun.
  destruct (date_add_days_Ok _ _ _ Hd7) as [Hv7 Ho7].
  split; [apply refresh_member_statuses_run; exact Hvalid|].
  split; [|apply fetch_expiring_sorted].
  intros i name phone end_date.
  rewrite elem_of_fetch_expiring. cbn [members].
  assert (Hwin : forall r e, iso_text (m_end_date r) e ->
            (expiring (isoformat today) (isoformat d7) (refreshed today r)
             = true
             <-> toordinal today <= toordinal e <= toordinal today + 7)).
  { intros r e He. pose proof He as [Hve Htext].
    unfold expiring, between, refreshed, set_status.
    cbn [m_status m_end_date].
    rewrite !andb_true_iff.
    rewrite (status_of_active today r e (iso_text_parse _ _ He)).
    rewrite Htext.
    rewrite (isoformat_leb today e Htoday Hve).
    rewrite (isoformat_leb e d7 Hve Hv7).
    rewrite (toordinal_le today e Htoday Hve).
    rewrite (toordinal_le e d7 Hve Hv7). lia. }
  split.
  - intros (r1 & Hr1 & Hexp & -> & -> & ->).
    rewrite lookup_fmap in Hr1.
    destruct (members db !! i) as [r|] eqn:Hr; [|discriminate Hr1].
    simpl in Hr1. inversion Hr1; subst r1.
    unfold refreshed, set_status. cbn [m_full_name m_phone m_end_date].
    destruct (Hiso i r Hr) as (e & He).
    exists r, e. repeat split; auto; try apply He;
      apply (Hwin r e He); exact Hexp.
  - intros (r & e & Hr & -> & -> & -> & He & Hord).
    exists (refreshed today r). rewrite lookup_fmap, Hr.
    split; [reflexivity|]. split; [|auto].
    apply (Hwin r e He). exact Hord.
Qed.

Lemma sample_db_end_dates_iso : end_dates_iso sample_db.
Proof.
  unfold end_dates_iso, sample_db. cbn [members].
  apply map_Forall_insert_2.
  - exists (Date 2024 6 1). split; [apply valid_dateb_spec|]; reflexivity.
  - apply map_Forall_singleton.
    exists (Date 2024 4 1). split; [apply valid_dateb_spec|]; reflexivity.
Qed.

Lemma reminders_page_spec_witness :
  exists db' rows,
    reminders_page (Date 2024 5 28) sample_db = Ok (db', rows)
    /\ refresh_member_statuses (Date 2024 5 28) sample_db = Ok db'
    /\ (1, "Ahmed Hassan"%string, "01000000001"%string, "2024-06-01"%string)
       ∈ rows.
Proof.
  assert (Hrun : exists db' rows,
            reminders_page (Date 2024 5 28) sample_db = Ok (db', rows))
    by (eexists; eexists; vm_compute; reflexivity).
  destruct Hrun as (db' & rows & Hrun). exists db', rows.
  split; [exact Hrun|].
  destruct (reminders_page_spec (Date 2024 5 28) sample_db db' rows
              ltac:(apply valid_dateb_spec; reflexivity)
              sample_db_end_dates_iso Hrun) as (Hrefresh & Hrows & _).
  split; [exact Hrefresh|].
  apply Hrows.
  exists (member_ending "2024-06-01" "active"), (Date 2024 6 1).
  split; [reflexivity|]. split; [reflexivity|]. split; [reflexivity|].
  split; [reflexivity|].
  split; [split; [apply valid_dateb_spec|]; reflexivity|].
  vm_compute. split; discriminate.
Defined.

(** ** Sample data *)

Lemma toordinal_lt_inv (a b : date) :
  valid_date a -> valid_date b -> toordinal a < toordinal b -> date_lt a b.
Proof.
  intros Ha Hb Hlt. pose proof (date_cmp_spec a b) as Hc.
  destruct (date_cmp a b).
  - subst b. lia.
  - exact Hc.
  - pose proof (toordinal_lt b a Hb Ha Hc). lia.
Qed.

Lemma replace_day_earlier (today : date) (k : Z) :
  valid_date today -> 1 <= k <= day today ->
  replace_day today k = Ok (Date (year today) (month today) k)
  /\ valid_date (Date (year today) (month today) k)
  /\ date_le (Date (year today) (month today) k) today.
Proof.
  intros (Hy & Hm & Hd) Hk.
  assert (Hv : valid_date (Date (year today) (month today) k))
    by (unfold valid_date; simpl; lia).
  split; [apply mk_date_valid; exact Hv|]. split; [exact Hv|].
  destruct today as [y m d]. simpl in *. unfold date_le, date_lt. simpl.
  destruct (Z.eq_dec k d) as [->|Hne]; [right; reflexivity|left; lia].
Qed.

Lemma infer_status_iso (today e : date) :
  valid_date e ->
  infer_status today (isoformat e)
  = Ok (if date_geb e today then "active"%string else "expired"%string).
Proof.
  intros He. unfold infer_status, parse_iso.
  rewrite (fromisoformat_isoformat e He), bind_Ok. reflexivity.
Qed.

Lemma date_geb_true (a b : date) : date_le b a -> date_geb a b = true.
Proof. apply date_geb_spec. Qed.

Lemma date_geb_false (a b : date) : date_lt a b -> date_geb a b = false.
Proof.
  intros Hlt. destruct (date_geb a b) eqn:Hge; [|reflexivity].
  apply date_geb_spec in Hge. destruct Hge as [Hba| ->].
  - exfalso. exact (date_lt_asym _ _ Hlt Hba).
  - exfalso. exact (date_lt_irrefl _ Hlt).
Qed.

Lemma execute_insert_member_Ok
    (rowid : Z) (row : member_row) (db : database) (r : database * Z) :
  execute_insert rowid (INSERT_member row) db = Ok r ->
  members db !! rowid = None /\ status_check (m_status row) = true
  /\ real_not_null (m_plan_price row) = true
  /\ r = ({| admin_users := admin_users db;
             members := <[rowid := row]> (members db);
             payments := payments db;
             app_settings := app_settings db |}, rowid).
Proof.
  unfold execute_insert.
  destruct (members db !! rowid) as [x|] eqn:Hid.
  { rewrite bool_decide_eq_true_2 by eauto. discriminate. }
  rewrite bool_decide_eq_false_2 by (intros [x Hx]; discriminate Hx).
  destruct (status_check _); [|discriminate].
  destruct (real_not_null _); [|discriminate].
  cbn [orb negb]. intros Heq. inversion Heq. auto.
Qed.

Lemma execute_insert_payment_Ok
    (rowid : Z) (row : payment_row) (db : database) (r : database * Z) :
  execute_insert rowid (INSERT_payment row) db = Ok r ->
  payments db !! rowid = None /\ method_check (p_method row) = true
  /\ real_not_null (p_amount row) = true
  /\ r = ({| admin_users := admin_users db;
             members := members db;
             payments := <[rowid := row]> (payments db);
             app_settings := app_settings db |}, rowid).
Proof.
  unfold execute_insert.
  destruct (payments db !! rowid) as [x|] eqn:Hid.
  { rewrite bool_decide_eq_true_2 by eauto. discriminate. }
  rewrite bool_decide_eq_false_2 by (intros [x Hx]; discriminate Hx).
  destruct (method_check _); [|discriminate].
  destruct (real_not_null _); [|discriminate].
  cbn [orb negb andb foreign_keys get_conn]. intros Heq. inversion Heq. auto.
Qed.

Lemma insert_sample_data_run
    (today : date) (id1 id2 id3 pid1 pid2 pid3 : Z) (db db' : database) :
  valid_date today ->
  insert_sample_data today id1 id2 id3 pid1 pid2 pid3 db = Ok db' ->
  exists m1 m2 m3 p1 p2 p3,
    members db' = <[id3 := m3]> (<[id2 := m2]> (<[id1 := m1]> (members db)))
    /\ payments db'
       = <[pid3 := p3]> (<[pid2 := p2]> (<[pid1 := p1]> (payments db)))
    /\ admin_users db' = admin_users db
    /\ app_settings db' = app_settings db
    /\ members db !! id1 = None /\ members db !! id2 = None
    /\ members db !! id3 = None /\ id1 <> id2 /\ id1 <> id3 /\ id2 <> id3
    /\ member_wellformed m1 /\ member_wellformed m2 /\ member_wellformed m3
    /\ m_status m1 = "active"%string /\ m_status m2 = "active"%string
    /\ m_status m3 = "expired"%string
    /\ (exists e1, iso_text (m_end_date m1) e1
          /\ toordinal e1 = toordinal today + 5)
    /\ p_member_id p1 = id1 /\ p_member_id p2 = id2 /\ p_member_id p3 = id3.
Proof.
  intros Htoday Hrun. unfold insert_sample_data in Hrun. cbv zeta in Hrun.
  pose proof Htoday as (Hy & Hm & Hd).
  destruct (replace_day_earlier today (Z.max 1 (day today - 25)) Htoday
              ltac:(lia)) as (Hr1 & Hv1 & Hle1).
  destruct (replace_day_earlier today (Z.max 1 (day today - 10)) Htoday
              ltac:(lia)) as (Hr2 & Hv2 & Hle2).
  rewrite Hr1, bind_Ok in Hrun.
  destruct (date_add_days today 5) as [e1|] eqn:He1; [|discriminate Hrun].
  rewrite bind_Ok, Hr2, bind_Ok in Hrun.
  destruct (date_add_days_Ok _ _ _ He1) as [Hve1 Hoe1].
  destruct (calc_end_date _ "3 months") as [m2_end|] eqn:Hend;
    [|discriminate Hrun].
  rewrite bind_Ok in Hrun.
  destruct (calc_end_date_Ok_inv _ _ _ Hend)
    as (d2 & r2 & Hs2 & _ & Hadd2 & Hm2end & _ & Hlt2).
  unfold parse_iso in Hs2. rewrite (fromisoformat_isoformat _ Hv2) in Hs2.
  inversion Hs2; subst d2. clear Hs2.
  destruct (add_months_Ok_facts _ _ _ Hv2 Hadd2) as (Hvr2 & Hidx2 & _).
  unfold date_sub_days in Hrun.
  destruct (date_add_days today (- (60))) as [d3|] eqn:Hd3;
    [|discriminate Hrun].
  rewrite bind_Ok in Hrun.
  destruct (date_add_days_Ok _ _ _ Hd3) as [Hvd3 Hod3].
  destruct (date_add_days today (- (2))) as [e3|] eqn:He3;
    [|discriminate Hrun].
  rewrite bind_Ok in Hrun.
  destruct (date_add_days_Ok _ _ _ He3) as [Hve3 Hoe3].
  assert (Hlt_e1 : date_lt today e1)
    by (apply toordinal_lt_inv; [assumption..|lia]).
  assert (Hlt_r2 : date_lt today r2).
  { apply month_index_lt; [exact Hm|apply Hvr2|].
    rewrite PLAN_MONTHS_get in Hidx2. cbn in Hidx2.
    rewrite Hidx2. unfold month_index. simpl. lia. }
  assert (Hlt_e3 : date_lt e3 today)
    by (apply toordinal_lt_inv; [assumption..|lia]).
  rewrite (infer_status_iso today e1 Hve1), bind_Ok in Hrun.
  rewrite (date_geb_true e1 today (or_introl Hlt_e1)) in Hrun.
  rewrite Hm2end in Hrun.
  rewrite (infer_status_iso today r2 Hvr2), bind_Ok in Hrun.
  rewrite (date_geb_true r2 today (or_introl Hlt_r2)) in Hrun.
  rewrite (infer_status_iso today e3 Hve3), bind_Ok in Hrun.
  rewrite (date_geb_false e3 today Hlt_e3) in Hrun.
  bind_inv Hrun. apply execute_insert_member_Ok in E.
  destruct E as (Hf1 & _ & _ & ->).
  bind_inv Hrun. apply execute_insert_member_Ok in E.
  destruct E as (Hf2 & _ & _ & ->).
  bind_inv Hrun. apply execute_insert_member_Ok in E.
  destruct E as (Hf3 & _ & _ & ->).
  rewrite bind_Ok in Hrun.
  cbn [executemany fst snd] in Hrun.
  bind_inv Hrun. apply execute_insert_payment_Ok in E.
  destruct E as (_ & _ & _ & ->).
  bind_inv Hrun. apply execute_insert_payment_Ok in E.
  destruct E as (_ & _ & _ & ->).
  bind_inv Hrun. apply execute_insert_payment_Ok in E.
  destruct E as (_ & _ & _ & ->).
  inversion Hrun; subst db'. clear Hrun.
  cbn [fst snd members payments admin_users app_settings] in *.
  do 6 eexists.
  split; [reflexivity|]. split; [reflexivity|].
  split; [reflexivity|]. split; [reflexivity|].
  split; [exact Hf1|].
  assert (Hne12 : id1 <> id2)
    by (intros ->; rewrite lookup_insert_eq in Hf2; discriminate Hf2).
  rewrite lookup_insert_ne in Hf2 by exact Hne12.
  assert (Hne23 : id2 <> id3)
    by (intros ->; rewrite lookup_insert_eq in Hf3; discriminate Hf3).
  rewrite lookup_insert_ne in Hf3 by exact Hne23.
  assert (Hne13 : id1 <> id3)
    by (intros ->; rewrite lookup_insert_eq in Hf3; discriminate Hf3).
  rewrite lookup_insert_ne in Hf3 by exact Hne13.
  do 5 (split; [assumption|]).
  cbn [m_status m_end_date p_member_id].
  split; [|split; [|split]].
  - unfold member_wellformed.
    cbn [m_full_name m_phone m_start_date m_end_date m_status m_plan_price].
    split; [discriminate|]. split; [discriminate|].
    split; [|split; reflexivity].
    eexists _, e1. split; [split; [exact Hv1|reflexivity]|].
    split; [split; [exact Hve1|reflexivity]|].
    exact (date_lt_le_trans _ _ _ Hle1 Hlt_e1).
  - unfold member_wellformed.
    cbn [m_full_name m_phone m_start_date m_end_date m_status m_plan_price].
    split; [discriminate|]. split; [discriminate|].
    split; [|split; reflexivity].
    eexists _, r2. split; [split; [exact Hv2|reflexivity]|].
    split; [split; [exact Hvr2|reflexivity]|]. exact Hlt2.
  - unfold member_wellformed.
    cbn [m_full_name m_phone m_start_date m_end_date m_status m_plan_price].
    split; [discriminate|]. split; [discriminate|].
    split; [|split; reflexivity].
    exists d3, e3. split; [split; [exact Hvd3|reflexivity]|].
    split; [split; [exact Hve3|reflexivity]|].
    apply toordinal_lt_inv; [assumption..|lia].
  - split; [reflexivity|]. split; [reflexivity|]. split; [reflexivity|].
    split; [|auto].
    exists e1. split; [split; [exact Hve1|reflexivity]|exact Hoe1].
Qed.

(** X26. When [insert_sample_data] returns, it has added exactly three
    members, under the three new ids, and three payments, one for each of
    them; admins and settings are untouched. The three rows are well
    formed; the first member is active and ends five days after today (so
    the reminders list it), the second is active and the third expired. *)
Theorem insert_sample_data_spec
    (today : date) (id1 id2 id3 pid1 pid2 pid3 : Z) (db db' : database) :
  valid_date today ->
  insert_sample_data today id1 id2 id3 pid1 pid2 pid3 db = Ok db' ->
  exists m1 m2 m3 p1 p2 p3,
    members db' = <[id3 := m3]> (<[id2 := m2]> (<[id1 := m1]> (members db)))
    /\ payments db'
       = <[pid3 := p3]> (<[pid2 := p2]> (<[pid1 := p1]> (payments db)))
    /\ admin_users db' = admin_users db
    /\ app_settings db' = app_settings db
    /\ members db !! id1 = None /\ members db !! id2 = None
    /\ members db !! id3 = None /\ id1 <> id2 /\ id1 <> id3 /\ id2 <> id3
    /\ member_wellformed m1 /\ member_wellformed m2 /\ member_wellformed m3
    /\ m_status m1 = "active"%string /\ m_status m2 = "active"%string
    /\ m_status m3 = "expired"%string
    /\ (exists e1, iso_text (m_end_date m1) e1
          /\ toordinal e1 = toordinal today + 5)
    /\ p_member_id p1 = id1 /\ p_member_id p2 = id2 /\ p_member_id p3 = id3.
Proof. apply insert_sample_data_run. Qed.

Lemma insert_sample_data_spec_witness :
  exists db' m1 e1,
    insert_sample_data (Date 2024 5 10) 3 4 5 2 3 4 sample_db = Ok db'
    /\ members db' !! 3 = Some m1
    /\ m_status m1 = "active"%string
    /\ iso_text (m_end_date m1) e1
    /\ toordinal e1 = toordinal (Date 2024 5 10) + 5.
Proof.
  assert (Hrun : exists db',
            insert_sample_data (Date 2024 5 10) 3 4 5 2 3 4 sample_db
            = Ok db')
    by (eexists; vm_compute; reflexivity).
  destruct Hrun as [db' Hrun].
  destruct (insert_sample_data_spec (Date 2024 5 10) 3 4 5 2 3 4 sample_db
              db' ltac:(apply valid_dateb_spec; reflexivity) Hrun)
    as (m1 & m2 & m3 & p1 & p2 & p3 & Hmem & _ & _ & _ & _ & _ & _ & H12
        & H13 & _ & _ & _ & _ & Hs1 & _ & _ & (e1 & He1 & Ho1) & _).
  exists db', m1, e1. split; [exact Hrun|].
  split; [|auto].
  rewrite Hmem, lookup_insert_ne, lookup_insert_ne, lookup_insert_eq
    by congruence.
  reflexivity.
Defined.

(** ** What every reachable state satisfies *)

Lemma init_db_members
    (rowid : Z) (now hash : string) (db db' : database) :
  init_db rowid now hash db = Ok db' -> members db' = members db.
Proof.
  intros Hrun.
  destruct (fetch_any_admin_id db) as [i|] eqn:Hany.
  - unfold init_db in Hrun. rewrite Hany in Hrun.
    destruct (bool_decide _); inversion Hrun; reflexivity.
  - apply fetch_any_admin_id_none in Hany.
    rewrite (init_db_no_admin rowid now hash db Hany) in Hrun.
    inversion Hrun; subst db'. reflexivity.
Qed.

Lemma record_payment_members
    (rowid member_id : Z) (amount : string) (pay_date : date)
    (method notes : string) (db db' : database) (err : option string) :
  record_payment rowid member_id amount pay_date method notes db
  = (db', err) ->
  members db' = members db.
Proof.
  unfold record_payment.
  destruct (float (PStr amount)) as [amt|x];
    [|intros Hrun; inversion Hrun; reflexivity].
  destruct (le_zero amt); [intros Hrun; inversion Hrun; reflexivity|].
  destruct (execute_insert _ _ db) as [r|x] eqn:Hins;
    [|intros Hrun; inversion Hrun; reflexivity].
  apply execute_insert_payment_Ok in Hins. destruct Hins as (_ & _ & _ & ->).
  intros Hrun. inversion Hrun; reflexivity.
Qed.

Lemma renew_members
    (today : date) (rowid member_id : Z) (plan_type plan_price : string)
    (start_choice : option date) (record_payment : bool)
    (pay_method pay_notes : string) (db db' : database)
    (outcome : result (list string)) :
  valid_date today -> (forall s, start_choice = Some s -> valid_date s) ->
  renew today rowid member_id plan_type plan_price start_choice
    record_payment pay_method pay_notes db = (db', outcome) ->
  members db' = members db
  \/ exists m m', members db !! member_id = Some m
       /\ members db' = <[member_id := m']> (members db)
       /\ (member_wellformed m -> member_wellformed m').
Proof.
  intros Htoday Hchoice. unfold renew.
  destruct (members db !! member_id) as [m|] eqn:Hm;
    [|intros Hrun; inversion Hrun; auto].
  destruct (plan_index _) as [[]|x]; [|intros Hrun; inversion Hrun; auto].
  destruct (renewal_default_start today m) as [ds|x] eqn:Hds;
    [|intros Hrun; inversion Hrun; auto].
  cbv zeta.
  destruct (calc_end_date _ plan_type) as [end_date|x] eqn:Hend;
    [|intros Hrun; inversion Hrun; auto].
  destruct (validate_member_inputs _ _ _ _ _) as [[|e errs]|x];
    [|intros Hrun; inversion Hrun; auto|intros Hrun; inversion Hrun; auto].
  destruct (float (PStr plan_price)) as [price|x];
    [|intros Hrun; inversion Hrun; auto].
  destruct (infer_status today end_date) as [status|x] eqn:Hst;
    [|intros Hrun; inversion Hrun; auto].
  unfold execute_update. rewrite Hm.
  destruct (status_check status) eqn:Hchk;
    [|intros Hrun; inversion Hrun; auto].
  destruct (real_not_null price) eqn:Hnn;
    [|intros Hrun; inversion Hrun; auto].
  cbn [andb]. intros Hrun. right.
  exists m, (set_plan plan_type price (isoformat (default ds start_choice))
               end_date status m).
  split; [reflexivity|]. split.
  - destruct record_payment; [|inversion Hrun; reflexivity].
    destruct (execute_insert _ _ _) as [r|x] eqn:Hins;
      [|inversion Hrun; reflexivity].
    apply execute_insert_payment_Ok in Hins.
    destruct Hins as (_ & _ & _ & ->). inversion Hrun; reflexivity.
  - intros (Hn & Hp & _ & _ & _).
    assert (Hvs : valid_date (default ds start_choice)).
    { destruct start_choice as [s|]; [apply Hchoice; reflexivity|].
      cbn [default]. unfold renewal_default_start in Hds.
      destruct (parse_iso (m_end_date m)); [|discriminate Hds].
      rewrite bind_Ok in Hds.
      destruct (date_geb _ _).
      - apply (date_add_days_Ok _ _ _ Hds).
      - inversion Hds; subst ds. exact Htoday. }
    destruct (calc_end_date_Ok_inv _ _ _ Hend)
      as (d & r & Hs & _ & Hadd & He & _ & Hlt).
    unfold parse_iso in Hs. rewrite (fromisoformat_isoformat _ Hvs) in Hs.
    inversion Hs; subst d. clear Hs.
    destruct (add_months_Ok_facts _ _ _ Hvs Hadd) as (Hvr & _).
    unfold member_wellformed, set_plan.
    cbn [m_full_name m_phone m_start_date m_end_date m_status m_plan_price].
    split; [exact Hn|]. split; [exact Hp|].
    split; [|split; assumption].
    exists (default ds start_choice), r.
    split; [split; [exact Hvs|reflexivity]|].
    split; [split; [exact Hvr|exact He]|exact Hlt].
Qed.

Lemma members_wellformed_end_dates_iso (db : database) :
  members_wellformed db -> end_dates_iso db.
Proof.
  intros Hwf i r Hr. destruct (Hwf i r Hr) as (_ & _ & Hd & _).
  destruct Hd as (sd & ed & _ & He & _). exists ed. exact He.
Qed.

Lemma app_step_wellformed (db db' : database) :
  app_step db db' -> members_wellformed db -> members_wellformed db'.
Proof.
  intros Hstep Hwf. destruct Hstep
    as [rowid now hash db db' Hrun
       | bcrypt salt username new_password db db' Hrun
       | rowid existing full_name phone national_id join plan_type
           plan_price start end_ status db db' errors Hvs Hve Hrun
       | today rowid member_id plan_type plan_price start_choice
           record_payment pay_method pay_notes db db' outcome Htoday Hchoice
           Hrun
       | rowid member_id amount pay_date method notes db db' err Hrun
       | today id1 id2 id3 pid1 pid2 pid3 db db' Htoday Hrun
       | today db db' Hrun
       | selected_id db db' Hrun].
  - unfold members_wellformed. rewrite (init_db_members _ _ _ _ _ Hrun).
    exact Hwf.
  - unfold change_password, clear_force_password_change, _set_setting,
      execute, conn_execute in Hrun.
    cbn [mbind result_bind] in Hrun. inversion Hrun; subst db'. exact Hwf.
  - destruct (member_form_run _ _ _ _ _ _ _ _ _ _ _ _ _ _ Hvs Hve Hrun)
      as (_ & _ & _ & _ & Hrefused & Hsaved).
    destruct errors as [|e errors].
    2:{ rewrite Hrefused by discriminate. exact Hwf. }
    destruct (Hsaved eq_refl) as (price & _ & Hrow). cbv zeta in Hrow.
    destruct existing as [[id r0]|].
    + destruct (members db !! id).
      * destruct Hrow as [Hm Hrowwf]. unfold members_wellformed.
        rewrite Hm. apply map_Forall_insert_2; assumption.
      * subst db'. exact Hwf.
    + destruct Hrow as (_ & Hm & Hrowwf). unfold members_wellformed.
      rewrite Hm. apply map_Forall_insert_2; assumption.
  - destruct (renew_members _ _ _ _ _ _ _ _ _ _ _ _ Htoday Hchoice Hrun)
      as [Hsame|(m & m' & Hm & Hmem & Hkeep)].
    + unfold members_wellformed. rewrite Hsame. exact Hwf.
    + unfold members_wellformed. rewrite Hmem.
      apply map_Forall_insert_2; [|exact Hwf].
      apply Hkeep. exact (Hwf member_id m Hm).
  - unfold members_wellformed.
    rewrite (record_payment_members _ _ _ _ _ _ _ _ _ Hrun). exact Hwf.
  - destruct (insert_sample_data_run _ _ _ _ _ _ _ _ _ Htoday Hrun)
      as (m1 & m2 & m3 & p1 & p2 & p3 & Hmem & _ & _ & _ & _ & _ & _ & _ & _
          & _ & Hw1 & Hw2 & Hw3 & _).
    unfold members_wellformed. rewrite Hmem.
    repeat (apply map_Forall_insert_2; [assumption|]). exact Hwf.
  - pose proof (end_dates_iso_valid db
                  (members_wellformed_end_dates_iso db Hwf)) as Hvalid.
    rewrite (refresh_member_statuses_run today db Hvalid) in Hrun.
    inversion Hrun; subst db'. unfold members_wellformed. cbn [members].
    intros i r' Hi. rewrite lookup_fmap in Hi.
    destruct (members db !! i) as [r|] eqn:Hr; [|discriminate Hi].
    simpl in Hi. inversion Hi; subst r'.
    destruct (Hwf i r Hr) as (Hn & Hp & Hd & _ & Hnn).
    destruct (infer_status_ok today r (Hvalid i r Hr)) as [_ Hchk].
    unfold member_wellformed, refreshed, set_status.
    cbn [m_full_name m_phone m_start_date m_end_date m_status m_plan_price].
    auto.
  - destruct (delete_member_run selected_id db) as (db1 & Hrun1 & Hm & _).
    rewrite Hrun in Hrun1. inversion Hrun1; subst db1.
    unfold members_wellformed. rewrite Hm.
    apply map_Forall_delete. exact Hwf.
Qed.

(** X20. Whatever has been done since the database was empty (starts,
    password changes, saves, renewals, payments, sample data, deletions,
    refreshes), every member row is well formed: its name and phone are
    not empty, its start and end are ISO dates with the end after the
    start, its status is of the list. So the refresh pass cannot raise, on
    any day. *)
Theorem reachable_wellformed (db : database) :
  reachable db ->
  members_wellformed db /\ end_dates_valid db
  /\ forall today, exists db',
       refresh_member_statuses today db = Ok db' /\ reachable db'.
Proof.
  intros Hreach.
  assert (Hwf : members_wellformed db).
  { refine (rtc_ind_r (fun d => members_wellformed d) empty_database
              _ _ db Hreach).
    - unfold members_wellformed, empty_database; cbn [members].
      apply map_Forall_empty.
    - intros y z _ Hstep IH. exact (app_step_wellformed _ _ Hstep IH). }
  split; [exact Hwf|].
  pose proof (end_dates_iso_valid db
                (members_wellformed_end_dates_iso db Hwf)) as Hvalid.
  split; [exact Hvalid|].
  intros today. eexists. split.
  - apply refresh_member_statuses_run. exact Hvalid.
  - eapply rtc_r; [exact Hreach|].
    apply (step_refresh today).
    apply refresh_member_statuses_run. exact Hvalid.
Qed.

Lemma reachable_wellformed_witness :
  exists db,
    member_form 1 None "Jane Doe" "0100000000" "" (Date 2024 5 1)
      "1 month" "300" (Date 2024 5 1) (Date 2024 6 1) "active"
      empty_database = Ok (db, [])
    /\ members_wellformed db.
Proof.
  assert (Hrun : exists db,
            member_form 1 None "Jane Doe" "0100000000" "" (Date 2024 5 1)
              "1 month" "300" (Date 2024 5 1) (Date 2024 6 1) "active"
              empty_database = Ok (db, []))
    by (eexists; vm_compute; reflexivity).
  destruct Hrun as [db Hrun]. exists db. split; [exact Hrun|].
  apply reachable_wellformed.
  eapply rtc_l; [|apply rtc_refl].
  apply (step_member_form 1 None "Jane Doe" "0100000000" ""
           (Date 2024 5 1) "1 month" "300" (Date 2024 5 1) (Date 2024 6 1)
           "active" empty_database db []);
    [apply valid_dateb_spec; reflexivity
    |apply valid_dateb_spec; reflexivity | exact Hrun].
Defined.
